(* ===== verification/_CoqProject ===== *)
-Q . S2P
Prelude.v
GoRuntime.v
ApiTypes.v
Client.v
FakeClient.v
ControllerUtil.v
Finalizers.v
Conditions.v
NodeSelector.v
ModuleReconciler.v
ModuleStore.v
Controller.v
Mocks.v
Protocol.v
ModuleTests.v
