(* ===== verification/Prelude.v ===== *)
(** * Verification of the Habana AI operator's Module reconciler

    The repository is a Kubernetes operator.  For every [DeviceConfig]
    resource it derives a kernel-module-management [Module] child object
    (driver image, node selector, device plugin) and keeps it in the
    cluster's object store.  The implementation under [src/] is
    [internal/module/module.go]; [src/] also holds its unit tests
    ([internal/module/module_test.go]) and the tests of the top-level
    controller and of the node-selector validator, whose implementations
    are not under [src/].

    ** The program's parts and the files that model them

    Files are listed in dependency order.

    - [Prelude] (this file): the [Go] monad (state passing with panics) in
      which every effectful Go function is written, its weakest-precondition
      transformer [wp] with the rules the other files compose, the tactics
      [go_run] and [wp_go], the hint databases [go] and [go_rw], and
      [HasPrefix] and [Contains] (Go's [strings] package) with the lemmas on
      strings the components share.
    - [GoRuntime]: Go's [error] values ([errors.New], [fmt.Errorf] with
      [%v] and with [%w], [errors.Is], the API status errors of
      [apierrors]) and Go's maps: the [World] is a heap of maps and the
      state of the client; [makemap], [mapaccess], [mapassign].
    - [ApiTypes]: the structs of [metav1], [corev1], [resource],
      [kmmv1beta1] (the Module) and [hlaiv1alpha1] (the DeviceConfig), the
      scheme, and the class [Object] with its laws [ObjectLaws]: what
      [client.Object] gives the libraries (metadata, conversion to the
      stored form [freeze] and back [thaw], merge patches).
    - [Client]: the class [Client], controller-runtime's [client.Client]
      (Get, Create, Delete, Patch, Update), which the reconciler is written
      against, and the oracle client: every call is logged and answered by
      an arbitrary function of the calls so far.  A theorem proved for all
      oracles holds of every client, the mock client of the tests and a
      failing API server included.
    - [FakeClient]: the in-memory object store of controller-runtime's fake
      client, with resource versions, conflicts, finalizers and deletion
      timestamps ([tracker_update], [store_delete]), its invariant
      [store_wf] and the rules of its operations.
    - [ControllerUtil]: [controllerutil.SetControllerReference] (with
      [validateOwner], [validateControllerRef], [upsertOwnerRef]) and
      [controllerutil.CreateOrPatch] (with [mutate]), and their lemmas:
      the owner becomes the controller, setting it twice is setting it
      once, the calls [CreateOrPatch] makes.
    - [ModuleReconciler]: [src/internal/module/module.go], every constant,
      function and method under its Go name ([GetModuleName],
      [NewReconciler], [moduleReconciler__ReconcileModule],
      [moduleReconciler__DeleteModule], [moduleReconciler__SetDesiredModule],
      [moduleReconciler__makeModuleLoader],
      [moduleReconciler__makeDevicePlugin],
      [moduleReconciler__makeKernelMappings]), the interface [Reconciler]
      as a class, the desired state [desiredSpec], and the theorems that
      hold for every client.
    - [ModuleStore]: the contract of the reconciler on the object store,
      [reconcile], and the theorems of the reconciler run against
      [FakeClient].
    - [ModuleTests]: the fixtures and scenarios of
      [src/internal/module/module_test.go], and the theorems of the other
      files applied to them.

    ** What the theorems show

    - [SetDesiredModule] ([ModuleReconciler]): it leaves exactly
      [desiredSpec] in the Module ([SetDesiredModule_desired]), never
      panics, makes no client call and writes one map only; that map is the
      DeviceConfig's own selector ([SetDesiredModule_mutates_DeviceConfig]);
      a nil Module is an error; the plugin's requests are within its
      limits; the Module's name determines the DeviceConfig's.
    - [ReconcileModule] and [DeleteModule] against every client
      ([ModuleReconciler]): the calls they make and their order
      ([ReconcileModule_calls], [DeleteModule_spec]), and what becomes of
      the client's errors ([ReconcileModule_Get_error],
      [ReconcileModule_error_wrapped]); a Module deleted between the two
      reads of one tick is re-created from a stale object
      ([ReconcileModule_stale_create]).
    - [ReconcileModule] and [DeleteModule] against the store
      ([ModuleStore]): [ReconcileModule] computes [reconcile]
      ([ReconcileModule_refines_reconcile]); after success the child exists
      with the desired spec and the DeviceConfig as its controller; a
      second run changes nothing; a missing child is created as
      [created_module] and a child that has drifted is repaired without
      touching its labels or finalizers; the same holds from the stored
      DeviceConfig, with no assumption on the heap
      ([ReconcileModule_on_decoded]); the store's invariant is kept
      ([FakeClient_preserves_store_wf] for every operation of the client);
      [DeleteModule]
      removes the child, takes a missing child for success, and returns nil
      for a child that a finalizer keeps in the store; create then delete
      is the identity on the store.
    - The scenarios of the unit tests ([ModuleTests]) hold of the model.

    ** Modelling conventions

    - A Go function with side effects is a function into [Go S A]: it takes
      the state [S] and returns [Ok a s'] or [Panic msg].  A Go [error]
      result is an ordinary value ([option err], [None] for [nil]), never
      a panic.  [wp m s Q] says that [m] run in [s] does not panic and that
      its result and final state satisfy [Q]: every theorem stated with
      [wp] is a theorem of total correctness.  No definition uses fuel: the
      program has no loop, and the recursion of the library functions is
      structural.
    - A Go struct reached through a pointer that has one owner is passed in
      and returned by value; a method that updates its receiver or an
      argument returns the updated value.  Go maps are the only values two
      live owners share in this program (the DeviceConfig's node selector
      becomes the Module's), so maps live in the heap of the [World] and
      are referred to by location.
    - A struct that holds maps is a record over the representation of its
      maps: references in memory, values in the store.
    - Resource quantities are integers in thousandths of the unit;
      resource versions are decimal strings.  Nothing in the program is a
      machine-width integer.

    ** What is not modelled

    Logging, contexts and cancellation, event recording, the manager that
    schedules reconcile ticks, and concurrency between ticks (the oracle
    client stands for every interference of other writers with one tick).
    List, watches and the status sub-resource of the client.  The fields of
    the API types that the sources do not name.  The top-level reconciler,
    the node-selector validator, the finalizer and conditions managers and
    the labeler and metrics sub-reconcilers are described by the
    specification and exercised by tests under [src/], but their code is
    not part of the repository snapshot; they are not modelled yet. *)

From Stdlib Require Import String Lia.
From stdpp Require Import base tactics option list strings.

Declare Scope go_scope.
Delimit Scope go_scope with go.

(** ** The [Go] monad: state passing with panics *)

Inductive outcome (S A : Type) : Type :=
| Ok (a : A) (s : S)
| Panic (msg : string).
Arguments Ok {S A} a s.
Arguments Panic {S A} msg.

Definition Go (S A : Type) : Type := S -> outcome S A.

Definition ret {S A} (a : A) : Go S A := fun s => Ok a s.

Definition bind {S A B} (m : Go S A) (k : A -> Go S B) : Go S B :=
  fun s => match m s with
           | Ok a s' => k a s'
           | Panic msg => Panic msg
           end.

Definition panic {S A} (msg : string) : Go S A := fun _ => Panic msg.
Definition get {S} : Go S S := fun s => Ok s s.
Definition put {S} (s : S) : Go S unit := fun _ => Ok tt s.
Definition gets {S A} (f : S -> A) : Go S A := fun s => Ok (f s) s.
Definition modify {S} (f : S -> S) : Go S unit := fun s => Ok tt (f s).

Notation "x <- m ;; k" := (bind m (fun x => k))
  (at level 100, m at next level, right associativity) : go_scope.
Notation "m ;;; k" := (bind m (fun _ => k))
  (at level 100, right associativity) : go_scope.

(** [wp m s Q]: run from [s], [m] does not panic and its result and final
    state satisfy [Q]. *)
Definition wp {S A} (m : Go S A) (s : S) (Q : A -> S -> Prop) : Prop :=
  match m s with
  | Ok a s' => Q a s'
  | Panic _ => False
  end.

(** [panics m s]: run from [s], [m] panics. *)
Definition panics {S A} (m : Go S A) (s : S) : Prop :=
  match m s with
  | Ok _ _ => False
  | Panic _ => True
  end.

(** Two programs are equivalent when they agree on every state. *)
#[export] Instance Go_equiv {S A} : Equiv (Go S A) := fun m m' => forall s, m s = m' s.

(** ** Go's [strings.Contains] *)

Fixpoint HasPrefix (s prefix : string) : bool :=
  match prefix, s with
  | EmptyString, _ => true
  | String c p, String d s' => bool_decide (c = d) && HasPrefix s' p
  | String _ _, EmptyString => false
  end.

Fixpoint Contains (s substr : string) : bool :=
  HasPrefix s substr ||
  match s with
  | EmptyString => false
  | String _ s' => Contains s' substr
  end.

(** ** Monad laws and rules of [wp] *)

Section monad.
Context {S : Type}.

Lemma bind_ret_l {A B} (a : A) (k : A -> Go S B) s : bind (ret a) k s = k a s.
Proof. reflexivity. Qed.

Lemma bind_ret_r {A} (m : Go S A) s : bind m ret s = m s.
Proof. unfold bind. by destruct (m s). Qed.

Lemma bind_assoc {A B C} (m : Go S A) (k : A -> Go S B) (l : B -> Go S C) s :
  bind (bind m k) l s = bind m (fun a => bind (k a) l) s.
Proof. unfold bind. by destruct (m s). Qed.

Lemma bind_Ok {A B} (m : Go S A) (k : A -> Go S B) s a s' :
  m s = Ok a s' -> bind m k s = k a s'.
Proof. unfold bind. by intros ->. Qed.

Lemma bind_Panic {A B} (m : Go S A) (k : A -> Go S B) s msg :
  m s = Panic msg -> bind m k s = Panic msg.
Proof. unfold bind. by intros ->. Qed.

Lemma bind_Ok_inv {A B} (m : Go S A) (k : A -> Go S B) s b s'' :
  bind m k s = Ok b s'' -> exists a s', m s = Ok a s' /\ k a s' = Ok b s''.
Proof. unfold bind. destruct (m s) as [a s'|]; [eauto | done]. Qed.

Lemma wp_ret {A} (a : A) s (Q : A -> S -> Prop) : Q a s -> wp (ret a) s Q.
Proof. done. Qed.

Lemma wp_bind {A B} (m : Go S A) (k : A -> Go S B) s (Q : B -> S -> Prop) :
  wp m s (fun a s' => wp (k a) s' Q) -> wp (bind m k) s Q.
Proof. unfold wp, bind. by destruct (m s). Qed.

Lemma wp_bind_inv {A B} (m : Go S A) (k : A -> Go S B) s (Q : B -> S -> Prop) :
  wp (bind m k) s Q -> wp m s (fun a s' => wp (k a) s' Q).
Proof. unfold wp, bind. by destruct (m s). Qed.

Lemma wp_mono {A} (m : Go S A) s (P Q : A -> S -> Prop) :
  wp m s P -> (forall a s', P a s' -> Q a s') -> wp m s Q.
Proof. unfold wp. destruct (m s); [auto | done]. Qed.

Lemma wp_conj {A} (m : Go S A) s (P Q : A -> S -> Prop) :
  wp m s P -> wp m s Q -> wp m s (fun a s' => P a s' /\ Q a s').
Proof. unfold wp. by destruct (m s). Qed.

Lemma wp_Ok {A} (m : Go S A) s a s' (Q : A -> S -> Prop) :
  m s = Ok a s' -> Q a s' -> wp m s Q.
Proof. unfold wp. by intros ->. Qed.

Lemma wp_Ok_inv {A} (m : Go S A) s (Q : A -> S -> Prop) :
  wp m s Q -> exists a s', m s = Ok a s' /\ Q a s'.
Proof. unfold wp. destruct (m s) as [a s'|]; [eauto | done]. Qed.

Lemma wp_get s (Q : S -> S -> Prop) : Q s s -> wp get s Q.
Proof. done. Qed.

Lemma wp_gets {A} (f : S -> A) s (Q : A -> S -> Prop) : Q (f s) s -> wp (gets f) s Q.
Proof. done. Qed.

Lemma wp_put s s' (Q : unit -> S -> Prop) : Q tt s' -> wp (put s') s Q.
Proof. done. Qed.

Lemma wp_modify (f : S -> S) s (Q : unit -> S -> Prop) : Q tt (f s) -> wp (modify f) s Q.
Proof. done. Qed.

Lemma wp_not_panics {A} (m : Go S A) s (Q : A -> S -> Prop) :
  wp m s Q -> ~ panics m s.
Proof. unfold wp, panics. destruct (m s); tauto. Qed.

Lemma panics_bind_l {A B} (m : Go S A) (k : A -> Go S B) s :
  panics m s -> panics (bind m k) s.
Proof. unfold panics, bind. by destruct (m s). Qed.

End monad.

#[export] Instance Go_equivalence {S A} : Equivalence (≡@{Go S A}).
Proof.
  split; [by intros m s | by intros m m' H s | intros m1 m2 m3 H1 H2 s].
  by rewrite H1.
Qed.

#[export] Instance bind_proper {S A B} :
  Proper ((≡) ==> pointwise_relation A (≡) ==> (≡)) (@bind S A B).
Proof.
  intros m m' Hm k k' Hk s. unfold bind. rewrite Hm.
  destruct (m' s) as [a s'|]; [apply Hk | done].
Qed.

#[export] Instance wp_proper {S A} :
  Proper ((≡) ==> (=) ==> (=) ==> iff) (@wp S A).
Proof. intros m m' Hm s ? <- Q ? <-. unfold wp. by rewrite Hm. Qed.

Create HintDb go discriminated.
Create Rewrite HintDb go_rw.
#[export] Hint Resolve wp_ret wp_get wp_gets wp_put wp_modify : go.
#[export] Hint Rewrite @bind_ret_l @bind_ret_r @bind_assoc : go_rw.

(** [go_run] evaluates a monadic program on a state as far as its
    primitives compute; [wp_go] peels binds off a [wp] goal. *)
Ltac go_run :=
  repeat (progress (cbv beta delta [bind ret get put gets modify panic wp panics]; cbn)).

Ltac wp_go :=
  repeat first
    [ apply wp_bind
    | apply wp_ret
    | apply wp_get
    | apply wp_gets
    | apply wp_put
    | apply wp_modify ].

(** ** Lemmas on [HasPrefix] and [Contains] *)

Lemma append_String c p s : String c p +:+ s = String c (p +:+ s).
Proof. reflexivity. Qed.

Lemma append_nil_l s : "" +:+ s = s.
Proof. reflexivity. Qed.

Lemma append_nil_r s : s +:+ "" = s.
Proof. induction s as [|c s IH]; [done|]. by rewrite append_String, IH. Qed.

Lemma append_assoc s t u : (s +:+ t) +:+ u = s +:+ (t +:+ u).
Proof. induction s as [|c s IH]; [done|]. by rewrite !append_String, IH. Qed.

Lemma length_append s t : String.length (s +:+ t) = String.length s + String.length t.
Proof. induction s as [|c s IH]; [done|]. rewrite append_String. cbn. by rewrite IH. Qed.

(** A suffix can be cancelled. *)
Lemma append_inj_r s1 s2 t : s1 +:+ t = s2 +:+ t -> s1 = s2.
Proof.
  revert s2. induction s1 as [|c s1 IH]; intros [|c' s2] H; [done| | |].
  1,2: apply (f_equal String.length) in H; rewrite append_String, append_nil_l in H;
    cbn in H; rewrite length_append in H; lia.
  rewrite !append_String in H. injection H as -> H. f_equal. by apply IH.
Qed.

Lemma HasPrefix_nil s : HasPrefix s "" = true.
Proof. by destruct s. Qed.

Lemma HasPrefix_app p s : HasPrefix (p +:+ s) p = true.
Proof.
  induction p as [|c p IH]; [apply HasPrefix_nil|].
  rewrite append_String. cbn. by rewrite IH, bool_decide_true.
Qed.

Lemma HasPrefix_refl s : HasPrefix s s = true.
Proof. rewrite <- (append_nil_r s) at 1. apply HasPrefix_app. Qed.

Lemma HasPrefix_spec s p : HasPrefix s p = true <-> exists t, s = p +:+ t.
Proof.
  split; [|intros [t ->]; apply HasPrefix_app].
  revert s. induction p as [|c p IH]; intros s H; [by exists s|].
  destruct s as [|d s]; [done|]. cbn in H.
  apply andb_prop in H as [Hc Hp]. apply bool_decide_eq_true in Hc as ->.
  destruct (IH _ Hp) as [t ->]. by exists t.
Qed.

Lemma Contains_prefix s p : HasPrefix s p = true -> Contains s p = true.
Proof. intros H. destruct s; cbn in *; by rewrite H. Qed.

Lemma Contains_refl s : Contains s s = true.
Proof. apply Contains_prefix, HasPrefix_refl. Qed.

Lemma Contains_String c s sub :
  Contains (String c s) sub = HasPrefix (String c s) sub || Contains s sub.
Proof. reflexivity. Qed.

Lemma Contains_app_r p s sub : Contains s sub = true -> Contains (p +:+ s) sub = true.
Proof.
  intros H. induction p as [|c p IH]; [done|].
  rewrite append_String, Contains_String, IH. apply orb_true_r.
Qed.

Lemma Contains_app_l s q sub : Contains s sub = true -> Contains (s +:+ q) sub = true.
Proof.
  induction s as [|c s IH].
  - destruct sub; [intros; apply Contains_prefix, HasPrefix_nil | done].
  - rewrite append_String, !Contains_String. intros [H|H]%orb_prop.
    + apply HasPrefix_spec in H as [t H]. apply orb_true_intro. left.
      rewrite <- append_String, H, append_assoc. apply HasPrefix_app.
    + rewrite (IH H). apply orb_true_r.
Qed.

Lemma Contains_spec s sub : Contains s sub = true <-> exists a b, s = a +:+ sub +:+ b.
Proof.
  split.
  - induction s as [|c s IH].
    + destruct sub; [by exists "", "" | done].
    + rewrite Contains_String. intros [H|H]%orb_prop.
      * apply HasPrefix_spec in H as [t H]. by exists "", t.
      * destruct (IH H) as (a & b & ->). by exists (String c a), b.
  - intros (a & b & ->). apply Contains_app_r, Contains_app_l, Contains_refl.
Qed.

#[export] Hint Resolve Contains_refl Contains_app_r Contains_app_l : go.

(** ** Lemmas on lists *)

Section lists.
Context {A : Type} (P : A -> Prop) `{!forall x, Decision (P x)}.

Lemma filter_none (l : list A) : Forall (fun x => ~ P x) l -> filter P l = [].
Proof.
  induction 1 as [|x l Hx _ IH]; [done|]. by rewrite filter_cons, decide_False, IH.
Qed.

Lemma filter_all (l : list A) : Forall P l -> filter P l = l.
Proof.
  induction 1 as [|x l Hx _ IH]; [done|]. by rewrite filter_cons, decide_True, IH.
Qed.

End lists.
