(* ===== verification/GoRuntime.v ===== *)
(** * Go runtime values the program uses: errors and maps

    - Go's [error] interface: [error] is [option err], [None] for [nil];
      an [err] is built by [errors.New], by [fmt.Errorf] (with [%v], which
      keeps only the message, or with [%w], which keeps the wrapped error)
      or by the API machinery ([apierrors]).
    - Go maps of type [map[string]string]: a map value is [nil] or a
      reference into the heap of the [World]; [makemap], [mapaccess] and
      [mapassign] are the runtime's operations on them, and assignment to
      a nil map panics as it does in Go. *)

From Stdlib Require Import String.
From stdpp Require Import base tactics option gmap strings.
From S2P Require Import Prelude.

#[local] Open Scope go_scope.

(** ** Errors *)

Inductive StatusReason : Type :=
| StatusReasonUnknown
| StatusReasonNotFound
| StatusReasonAlreadyExists
| StatusReasonConflict
| StatusReasonInvalid
| StatusReasonBadRequest
| StatusReasonServiceUnavailable.

Inductive err : Type :=
| errorString (s : string)
| StatusError (reason : StatusReason) (message : string)
| wrapError (msg : string) (inner : err).

Abbreviation error := (option err).
Abbreviation nil := (@None err).

#[export] Instance StatusReason_eq_dec : EqDecision StatusReason.
Proof. solve_decision. Defined.

#[export] Instance err_eq_dec : EqDecision err.
Proof. solve_decision. Defined.

(** The [Error()] method. *)
Definition Error (e : err) : string :=
  match e with
  | errorString s => s
  | StatusError _ message => message
  | wrapError msg _ => msg
  end.

(** The [Unwrap()] method: only errors built with [%w] have one. *)
Definition Unwrap (e : err) : error :=
  match e with
  | wrapError _ inner => Some inner
  | _ => None
  end.

(** The double quote character, which a string literal cannot hold here. *)
Definition dquote : string := String (Ascii.ascii_of_nat 34) EmptyString.

Module errors.

Definition New (text : string) : error := Some (errorString text).

(** [errors.Is(e, target)] for comparable errors: [target] is on [e]'s
    [Unwrap] chain. *)
Fixpoint Is (e target : err) : bool :=
  bool_decide (e = target) ||
  match e with
  | wrapError _ inner => Is inner target
  | _ => false
  end.

End errors.

Module fmt.

(** [fmt.Errorf(prefix + "%v", e)]: a new error that holds the text only. *)
Definition Errorf_v (prefix : string) (e : err) : error :=
  Some (errorString (prefix +:+ Error e)).

(** [fmt.Errorf(prefix + "%w", e)]: the same text, and [e] stays reachable
    through [Unwrap]. *)
Definition Errorf_w (prefix : string) (e : err) : error :=
  Some (wrapError (prefix +:+ Error e) e).

End fmt.

Module apierrors.

(** The reason of the first API status error on the [Unwrap] chain. *)
Fixpoint ReasonForError (e : err) : StatusReason :=
  match e with
  | StatusError reason _ => reason
  | wrapError _ inner => ReasonForError inner
  | errorString _ => StatusReasonUnknown
  end.

Definition NewNotFound (resource name : string) : error :=
  Some (StatusError StatusReasonNotFound
          (resource +:+ " " +:+ dquote +:+ name +:+ dquote +:+ " not found")).

Definition NewAlreadyExists (resource name : string) : error :=
  Some (StatusError StatusReasonAlreadyExists
          (resource +:+ " " +:+ dquote +:+ name +:+ dquote +:+ " already exists")).

Definition NewServiceUnavailable (reason : string) : error :=
  Some (StatusError StatusReasonServiceUnavailable reason).

Definition IsNotFound (e : error) : bool :=
  match e with
  | None => false
  | Some e => bool_decide (ReasonForError e = StatusReasonNotFound)
  end.

End apierrors.

(** ** The heap of maps *)

Abbreviation loc := positive.
Abbreviation gomap := (option positive).
Abbreviation Heap := (gmap positive (gmap string string)).

Record World (C : Type) : Type := mkWorld {
  heap : Heap;
  cstate : C;
}.
Arguments mkWorld {C} heap cstate.
Arguments heap {C} w.
Arguments cstate {C} w.

Definition set_heap {C} (h : Heap) (w : World C) : World C :=
  mkWorld h (cstate w).

Definition set_cstate {C} (c : C) (w : World C) : World C :=
  mkWorld (heap w) c.

(** The contents of the map at [l]. *)
Definition deref (h : Heap) (l : loc) : gmap string string :=
  default ∅ (h !! l).

(** What a map value holds: [None] for a nil map. *)
Definition mapval (h : Heap) (m : gomap) : option (gmap string string) :=
  deref h <$> m.

Definition gomap_valid (h : Heap) (m : gomap) : Prop :=
  match m with
  | Some l => l ∈ dom h
  | None => True
  end.

(** A map value that is not allocated in [h]: nil, or a reference [h]
    does not hold. *)
Definition gomap_fresh (h : Heap) (m : gomap) : Prop :=
  match m with
  | Some l => l ∉ dom h
  | None => True
  end.

Section maps.
Context {C : Type}.

(** [make(map[string]string)] with the entries [init]. *)
Definition makemap (init : gmap string string) : Go (World C) gomap :=
  fun w =>
    let l := fresh (dom (heap w)) in
    Ok (Some l) (set_heap (<[l := init]> (heap w)) w).

(** [v, ok := m[k]]: a nil map reads as empty. *)
Definition mapaccess (m : gomap) (k : string) : Go (World C) (option string) :=
  gets (fun w => mapval (heap w) m ≫= (.!! k)).

(** [m[k] = v]. *)
Definition mapassign (m : gomap) (k v : string) : Go (World C) unit :=
  match m with
  | None => panic "assignment to entry in nil map"
  | Some l => modify (fun w => set_heap (<[l := <[k := v]> (deref (heap w) l)]> (heap w)) w)
  end.

(** Decoding a stored map into a zeroed field: a new map, or nil. *)
Definition thaw_map (m : option (gmap string string)) : Go (World C) gomap :=
  match m with
  | Some entries => makemap entries
  | None => ret None
  end.

Lemma wp_makemap init (w : World C) (Q : gomap -> World C -> Prop) :
  (forall l, l ∉ dom (heap w) -> Q (Some l) (set_heap (<[l := init]> (heap w)) w)) ->
  wp (makemap init) w Q.
Proof. intros H. apply H, is_fresh. Qed.

Lemma wp_mapassign l k v (w : World C) (Q : unit -> World C -> Prop) :
  Q tt (set_heap (<[l := <[k := v]> (deref (heap w) l)]> (heap w)) w) ->
  wp (mapassign (Some l) k v) w Q.
Proof. done. Qed.

Lemma wp_mapaccess m k (w : World C) (Q : option string -> World C -> Prop) :
  Q (mapval (heap w) m ≫= (.!! k)) w -> wp (mapaccess m k) w Q.
Proof. done. Qed.

Lemma mapassign_nil_panics k v (w : World C) : panics (mapassign None k v) w.
Proof. done. Qed.

End maps.

(** ** A component's state inside a larger one

    A component written against its own client state runs inside a
    program whose state has more parts: [zoom l m] runs [m] on the part
    the lens [l] selects and on the whole heap. *)

Record Lens (S T : Type) : Type := mkLens {
  view : S -> T;
  update : T -> S -> S;
}.
Arguments mkLens {S T} view update.
Arguments view {S T} l s.
Arguments update {S T} l t s.

Class LensLaws {S T} (l : Lens S T) : Prop := {
  view_update t s : view l (update l t s) = t;
  update_view s : update l (view l s) s = s;
  update_update t t' s : update l t (update l t' s) = update l t s;
}.

Definition focus {S T} (l : Lens S T) (w : World S) : World T :=
  mkWorld (heap w) (view l (cstate w)).

Definition unfocus {S T} (l : Lens S T) (w : World S) (w' : World T) : World S :=
  mkWorld (heap w') (update l (cstate w') (cstate w)).

Definition zoom {S T A} (l : Lens S T) (m : Go (World T) A) : Go (World S) A :=
  fun w => match m (focus l w) with
           | Ok a w' => Ok a (unfocus l w w')
           | Panic msg => Panic msg
           end.

(** ** Lemmas on errors *)

Lemma IsNotFound_nil : apierrors.IsNotFound nil = false.
Proof. done. Qed.

Lemma IsNotFound_NewNotFound resource name :
  apierrors.IsNotFound (apierrors.NewNotFound resource name) = true.
Proof. done. Qed.

Lemma IsNotFound_New text : apierrors.IsNotFound (errors.New text) = false.
Proof. done. Qed.

Lemma IsNotFound_Errorf_v prefix e : apierrors.IsNotFound (fmt.Errorf_v prefix e) = false.
Proof. done. Qed.

Lemma IsNotFound_Errorf_w prefix e :
  apierrors.IsNotFound (fmt.Errorf_w prefix e) = apierrors.IsNotFound (Some e).
Proof. done. Qed.

Lemma Is_refl e : errors.Is e e = true.
Proof. destruct e; cbn; by rewrite bool_decide_true. Qed.

Lemma Is_wrapError msg e target : errors.Is e target = true -> errors.Is (wrapError msg e) target = true.
Proof. cbn. intros ->. apply orb_true_r. Qed.

Lemma Error_Errorf_v prefix e e' :
  fmt.Errorf_v prefix e = Some e' -> Error e' = prefix +:+ Error e.
Proof. by intros [= <-]. Qed.

Lemma Error_Errorf_w prefix e e' :
  fmt.Errorf_w prefix e = Some e' -> Error e' = prefix +:+ Error e.
Proof. by intros [= <-]. Qed.

(** ** Lemmas on the heap *)

Lemma deref_insert_eq (h : Heap) l m : deref (<[l := m]> h) l = m.
Proof. unfold deref. by rewrite lookup_insert_eq. Qed.

Lemma deref_insert_ne (h : Heap) l l' m : l ≠ l' -> deref (<[l := m]> h) l' = deref h l'.
Proof. intros. unfold deref. by rewrite lookup_insert_ne. Qed.

Lemma set_heap_id {C} (w : World C) : set_heap (heap w) w = w.
Proof. by destruct w. Qed.

Lemma set_heap_set_heap {C} h h' (w : World C) : set_heap h (set_heap h' w) = set_heap h w.
Proof. done. Qed.

Lemma set_cstate_set_cstate {C} (c c' : C) (w : World C) :
  set_cstate c (set_cstate c' w) = set_cstate c w.
Proof. done. Qed.

Lemma mapval_subseteq (h h' : Heap) (g : gomap) :
  h ⊆ h' -> gomap_valid h g -> mapval h' g = mapval h g.
Proof.
  destruct g as [l|]; [|done]. cbn. intros Hsub [x Hx]%elem_of_dom.
  unfold deref. by rewrite Hx, (lookup_weaken _ _ _ _ Hx Hsub).
Qed.

Lemma gomap_valid_subseteq (h h' : Heap) (g : gomap) :
  h ⊆ h' -> gomap_valid h g -> gomap_valid h' g.
Proof.
  destruct g as [l|]; [|done]. cbn. intros Hsub Hl.
  by apply (subseteq_dom h h').
Qed.

Lemma wp_thaw_map {C} (m : option (gmap string string)) (w : World C)
  (Q : gomap -> World C -> Prop) :
  (forall g h', heap w ⊆ h' -> mapval h' g = m -> gomap_valid h' g ->
                gomap_fresh (heap w) g -> Q g (set_heap h' w)) ->
  wp (thaw_map m) w Q.
Proof.
  intros H. destruct m as [entries|]; cbn.
  - apply wp_makemap. intros l Hl. apply H; [| | |done].
    + by apply insert_subseteq, not_elem_of_dom.
    + cbn. by rewrite deref_insert_eq.
    + cbn. rewrite dom_insert_L. set_solver.
  - apply wp_ret. rewrite <- (set_heap_id w) at 1. by apply H.
Qed.

Lemma gomap_fresh_subseteq (h h' : Heap) (g : gomap) :
  h ⊆ h' -> gomap_fresh h' g -> gomap_fresh h g.
Proof.
  destruct g as [l|]; [|done]. cbn. intros Hsub Hl Hin. by apply Hl, (subseteq_dom h h').
Qed.

Lemma gomap_fresh_valid_ne (h : Heap) (g g' : gomap) l :
  gomap_fresh h g -> gomap_valid h g' -> g = Some l -> g' ≠ Some l.
Proof. intros Hf Hv -> ->. by apply Hf. Qed.

Lemma mapval_insert_ne (h : Heap) l m (g : gomap) :
  g ≠ Some l -> mapval (<[l := m]> h) g = mapval h g.
Proof.
  destruct g as [l'|]; [|done]. intros H. cbn.
  rewrite deref_insert_ne; [done | congruence].
Qed.

Lemma mapval_insert_fresh (h : Heap) l m (g : gomap) :
  gomap_valid h g -> l ∉ dom h -> mapval (<[l := m]> h) g = mapval h g.
Proof.
  intros Hv Hl. apply mapval_insert_ne. intros ->. by apply Hl.
Qed.

Lemma gomap_valid_insert (h : Heap) l m (g : gomap) :
  gomap_valid h g -> gomap_valid (<[l := m]> h) g.
Proof. destruct g; cbn; [|done]. rewrite dom_insert_L. set_solver. Qed.

#[export] Hint Resolve wp_makemap wp_mapassign wp_mapaccess wp_thaw_map : go.
#[export] Hint Resolve gomap_valid_subseteq gomap_fresh_subseteq : go.
#[export] Hint Rewrite @set_heap_id @set_heap_set_heap @set_cstate_set_cstate : go_rw.
#[export] Hint Resolve gomap_valid_insert : go.
#[export] Hint Rewrite deref_insert_eq IsNotFound_Errorf_w : go_rw.
#[export] Hint Rewrite deref_insert_ne mapval_insert_ne using congruence : go_rw.

(** ** Lemmas on [zoom] *)

Section zoom.
Context {S T : Type} (l : Lens S T) `{!LensLaws l}.

Lemma focus_unfocus (w : World S) (w' : World T) : focus l (unfocus l w w') = w'.
Proof. destruct w'. unfold focus, unfocus. cbn. by rewrite view_update. Qed.

Lemma unfocus_focus (w : World S) : unfocus l w (focus l w) = w.
Proof. destruct w. unfold focus, unfocus. cbn. by rewrite update_view. Qed.

Lemma unfocus_unfocus (w : World S) (w1 w2 : World T) :
  unfocus l (unfocus l w w1) w2 = unfocus l w w2.
Proof. unfold unfocus. cbn. by rewrite update_update. Qed.

Lemma unfocus_set_heap (w : World S) h : unfocus l w (set_heap h (focus l w)) = set_heap h w.
Proof. destruct w. unfold focus, unfocus, set_heap. cbn. by rewrite update_view. Qed.

Lemma wp_zoom {A} (m : Go (World T) A) (w : World S) (Q : A -> World S -> Prop) :
  wp m (focus l w) (fun a w' => Q a (unfocus l w w')) -> wp (zoom l m) w Q.
Proof. unfold wp, zoom. by destruct (m (focus l w)). Qed.

Lemma zoom_Ok {A} (m : Go (World T) A) (w : World S) a w' :
  m (focus l w) = Ok a w' -> zoom l m w = Ok a (unfocus l w w').
Proof. unfold zoom. by intros ->. Qed.

Lemma zoom_ret {A} (a : A) : zoom l (ret a) ≡ ret a.
Proof. intros w. unfold zoom, ret. by rewrite unfocus_focus. Qed.

Lemma zoom_bind {A B} (m : Go (World T) A) (k : A -> Go (World T) B) :
  zoom l (bind m k) ≡ bind (zoom l m) (fun a => zoom l (k a)).
Proof.
  intros w. unfold zoom, bind. destruct (m (focus l w)) as [a w1|]; [|done].
  rewrite focus_unfocus. destruct (k a w1) as [b w2|]; [|done].
  by rewrite unfocus_unfocus.
Qed.

(** A computation that reads and writes the heap only is the same inside
    the larger state. *)
Lemma zoom_gets_heap {A} (f : Heap -> A) :
  zoom l (gets (fun w => f (heap w))) ≡ gets (fun w => f (heap w)).
Proof. intros w. unfold zoom, gets. cbn. by rewrite unfocus_focus. Qed.

End zoom.
