(* ===== verification/ApiTypes.v ===== *)
(** * The API types the reconciler reads and writes

    One Rocq module per Go package ([types], [resource], [corev1],
    [metav1], [kmmv1beta1], [hlaiv1alpha1]) and, inside it, one module per
    struct with its record [t], its zero value and its setters.  Only the
    fields the sources under [src/] name are kept.

    A struct that holds a [map[string]string] is parameterised by the
    representation [M] of that map: [gomap] (nil or a heap reference) for
    the object in memory, [option (gmap string string)] for the object as
    the store holds it and as [ToUnstructured] renders it.  [map] changes
    the representation; [freeze] reads the references through a heap. *)

From Stdlib Require Import String ZArith.
From stdpp Require Import base tactics option list gmap strings.
From S2P Require Import Prelude GoRuntime.

#[local] Open Scope go_scope.
#[local] Set Implicit Arguments.

(** A map as the store holds it. *)
Abbreviation mapv := (option (gmap string string)).

(** One field of a merge patch computed from [before] and [after] and
    applied to [stored]: the field is replaced where the patch names it. *)
Definition pick {A} `{EqDecision A} (stored before after : A) : A :=
  if decide (before = after) then stored else after.

Module types.
Module NamespacedName.
Record t : Type := mk {
  Namespace : string;
  Name : string;
}.
End NamespacedName.
End types.

#[export] Instance NamespacedName_eq_dec : EqDecision types.NamespacedName.t.
Proof. solve_decision. Defined.

#[export] Instance NamespacedName_countable : Countable types.NamespacedName.t.
Proof.
  apply (inj_countable'
           (fun k => (types.NamespacedName.Namespace k, types.NamespacedName.Name k))
           (fun p => types.NamespacedName.mk p.1 p.2)).
  by intros [].
Defined.

(** ** [k8s.io/apimachinery/pkg/api/resource] *)

Module resource.

Inductive Format : Type := DecimalSI | BinarySI.

(** A quantity: its value in thousandths of the unit, and the family of
    suffixes it was written with. *)
Module Quantity.
Record t : Type := mk {
  milli : Z;
  format : Format;
}.
End Quantity.

(** The leading decimal digits of [s] as a number, and the rest of [s]. *)
Fixpoint digits (s : string) (acc : Z) (seen : bool) : option Z * string :=
  match s with
  | String c rest =>
      let n := (Z.of_nat (Ascii.nat_of_ascii c) - 48)%Z in
      if bool_decide (0 <= n <= 9)%Z then digits rest (10 * acc + n)%Z true
      else (if seen then Some acc else None, s)
  | EmptyString => (if seen then Some acc else None, s)
  end.

(** The multiplier of a suffix, in thousandths. *)
Definition suffix (s : string) : option (Z * Format) :=
  if bool_decide (s = "") then Some (1000%Z, DecimalSI)
  else if bool_decide (s = "m") then Some (1%Z, DecimalSI)
  else if bool_decide (s = "k") then Some ((1000 * 10 ^ 3)%Z, DecimalSI)
  else if bool_decide (s = "M") then Some ((1000 * 10 ^ 6)%Z, DecimalSI)
  else if bool_decide (s = "G") then Some ((1000 * 10 ^ 9)%Z, DecimalSI)
  else if bool_decide (s = "T") then Some ((1000 * 10 ^ 12)%Z, DecimalSI)
  else if bool_decide (s = "Ki") then Some ((1000 * 2 ^ 10)%Z, BinarySI)
  else if bool_decide (s = "Mi") then Some ((1000 * 2 ^ 20)%Z, BinarySI)
  else if bool_decide (s = "Gi") then Some ((1000 * 2 ^ 30)%Z, BinarySI)
  else if bool_decide (s = "Ti") then Some ((1000 * 2 ^ 40)%Z, BinarySI)
  else None.

Definition ParseQuantity (s : string) : option Quantity.t :=
  match digits s 0%Z false with
  | (Some n, rest) =>
      match suffix rest with
      | Some (mult, f) => Some (Quantity.mk (n * mult)%Z f)
      | None => None
      end
  | (None, _) => None
  end.

(** [resource.MustParse]: panics on a string that is no quantity. *)
Definition MustParse {S} (s : string) : Go S Quantity.t :=
  match ParseQuantity s with
  | Some q => ret q
  | None => panic ("cannot parse '" +:+ s +:+ "': quantities must match the regular expression")
  end.

(** [q.Cmp(r) <= 0]. *)
Definition le (q r : Quantity.t) : Prop := (Quantity.milli q <= Quantity.milli r)%Z.

End resource.

#[export] Instance Format_eq_dec : EqDecision resource.Format.
Proof. solve_decision. Defined.

#[export] Instance Quantity_eq_dec : EqDecision resource.Quantity.t.
Proof. solve_decision. Defined.

(** ** [k8s.io/apimachinery/pkg/apis/meta/v1] and [pkg/runtime/schema] *)

Module schema.
Module GroupVersionKind.
Record t : Type := mk {
  Group : string;
  Version : string;
  Kind : string;
}.
End GroupVersionKind.
End schema.

#[export] Instance GroupVersionKind_eq_dec : EqDecision schema.GroupVersionKind.t.
Proof. solve_decision. Defined.

Module metav1.

Module OwnerReference.
Record t : Type := mk {
  APIVersion : string;
  Kind : string;
  Name : string;
  UID : string;
  Controller : option bool;
  BlockOwnerDeletion : option bool;
}.
End OwnerReference.

Module Condition.
Record t : Type := mk {
  Type_ : string;
  Status : string;
  ObservedGeneration : Z;
  LastTransitionTime : Z;
  Reason : string;
  Message : string;
}.
End Condition.

Module ObjectMeta.
Record t (M : Type) : Type := mk {
  Name : string;
  Namespace : string;
  UID : string;
  ResourceVersion : string;
  Generation : Z;
  DeletionTimestamp : option Z;
  Finalizers : list string;
  OwnerReferences : list OwnerReference.t;
  Labels : M;
}.

Definition zero {M} (m0 : M) : t M := mk "" "" "" "" 0%Z None [] [] m0.

Definition map {M N} (f : M -> N) (o : t M) : t N :=
  mk (Name o) (Namespace o) (UID o) (ResourceVersion o) (Generation o)
     (DeletionTimestamp o) (Finalizers o) (OwnerReferences o) (f (Labels o)).

Definition mapM {S M N} (f : M -> Go S N) (o : t M) : Go S (t N) :=
  l <- f (Labels o);;
  ret (mk (Name o) (Namespace o) (UID o) (ResourceVersion o) (Generation o)
          (DeletionTimestamp o) (Finalizers o) (OwnerReferences o) l).

Definition with_OwnerReferences {M} (refs : list OwnerReference.t) (o : t M) : t M :=
  mk (Name o) (Namespace o) (UID o) (ResourceVersion o) (Generation o)
     (DeletionTimestamp o) (Finalizers o) refs (Labels o).

Definition with_Finalizers {M} (fs : list string) (o : t M) : t M :=
  mk (Name o) (Namespace o) (UID o) (ResourceVersion o) (Generation o)
     (DeletionTimestamp o) fs (OwnerReferences o) (Labels o).

Definition with_ResourceVersion {M} (rv : string) (o : t M) : t M :=
  mk (Name o) (Namespace o) (UID o) rv (Generation o)
     (DeletionTimestamp o) (Finalizers o) (OwnerReferences o) (Labels o).

Definition with_DeletionTimestamp {M} (ts : option Z) (o : t M) : t M :=
  mk (Name o) (Namespace o) (UID o) (ResourceVersion o) (Generation o)
     ts (Finalizers o) (OwnerReferences o) (Labels o).
End ObjectMeta.

End metav1.

#[export] Instance OwnerReference_eq_dec : EqDecision metav1.OwnerReference.t.
Proof. solve_decision. Defined.

#[export] Instance Condition_eq_dec : EqDecision metav1.Condition.t.
Proof. solve_decision. Defined.

#[export] Instance ObjectMeta_eq_dec `{EqDecision M} : EqDecision (metav1.ObjectMeta.t M).
Proof. solve_decision. Defined.

(** ** [k8s.io/api/core/v1] *)

Module corev1.

Definition PullAlways : string := "Always".

Abbreviation ResourceList := (gmap string resource.Quantity.t).

Module ResourceRequirements.
Record t : Type := mk {
  Limits : ResourceList;
  Requests : ResourceList;
}.
Definition zero : t := mk ∅ ∅.
End ResourceRequirements.

Module Node.
Record t (M : Type) : Type := mk {
  ObjectMeta : metav1.ObjectMeta.t M;
}.
Definition zero {M} (m0 : M) : t M := mk (metav1.ObjectMeta.zero m0).
Definition map {M N} (f : M -> N) (n : t M) : t N := mk (metav1.ObjectMeta.map f (ObjectMeta n)).
Definition mapM {S M N} (f : M -> Go S N) (n : t M) : Go S (t N) :=
  o <- metav1.ObjectMeta.mapM f (ObjectMeta n);; ret (mk o).
End Node.

End corev1.

#[export] Instance ResourceRequirements_eq_dec : EqDecision corev1.ResourceRequirements.t.
Proof. solve_decision. Defined.

#[export] Instance Node_eq_dec `{EqDecision M} : EqDecision (corev1.Node.t M).
Proof. solve_decision. Defined.

(** ** [kernel-module-management/api/v1beta1] *)

Module kmmv1beta1.

Module KernelMapping.
Record t : Type := mk {
  ContainerImage : string;
  Regexp : string;
}.
End KernelMapping.

Module ModprobeSpec.
Record t : Type := mk {
  ModuleName : string;
  FirmwarePath : string;
}.
Definition zero : t := mk "" "".
End ModprobeSpec.

Module ModuleLoaderContainerSpec.
Record t : Type := mk {
  ImagePullPolicy : string;
  KernelMappings : list KernelMapping.t;
  Modprobe : ModprobeSpec.t;
}.
Definition zero : t := mk "" [] ModprobeSpec.zero.
End ModuleLoaderContainerSpec.

Module ModuleLoaderSpec.
Record t : Type := mk {
  Container : ModuleLoaderContainerSpec.t;
  ServiceAccountName : string;
}.
Definition zero : t := mk ModuleLoaderContainerSpec.zero "".
End ModuleLoaderSpec.

Module DevicePluginContainerSpec.
Record t : Type := mk {
  Args : list string;
  Command : list string;
  Image : string;
  ImagePullPolicy : string;
  Resources : corev1.ResourceRequirements.t;
}.
End DevicePluginContainerSpec.

Module DevicePluginSpec.
Record t : Type := mk {
  Container : DevicePluginContainerSpec.t;
  ServiceAccountName : string;
}.
End DevicePluginSpec.

Module ModuleSpec.
Record t (M : Type) : Type := mk {
  DevicePlugin : option DevicePluginSpec.t;
  ModuleLoader : ModuleLoaderSpec.t;
  Selector : M;
}.
Definition zero {M} (m0 : M) : t M := mk None ModuleLoaderSpec.zero m0.
Definition map {M N} (f : M -> N) (s : t M) : t N :=
  mk (DevicePlugin s) (ModuleLoader s) (f (Selector s)).
End ModuleSpec.

Module Module.
Record t (M : Type) : Type := mk {
  ObjectMeta : metav1.ObjectMeta.t M;
  Spec : ModuleSpec.t M;
}.
Definition zero {M} (m0 : M) : t M := mk (metav1.ObjectMeta.zero m0) (ModuleSpec.zero m0).
Definition map {M N} (f : M -> N) (m : t M) : t N :=
  mk (metav1.ObjectMeta.map f (ObjectMeta m)) (ModuleSpec.map f (Spec m)).
Definition mapM {S M N} (f : M -> Go S N) (m : t M) : Go S (t N) :=
  o <- metav1.ObjectMeta.mapM f (ObjectMeta m);;
  sel <- f (ModuleSpec.Selector (Spec m));;
  ret (mk o (ModuleSpec.mk (ModuleSpec.DevicePlugin (Spec m))
                           (ModuleSpec.ModuleLoader (Spec m)) sel)).
Definition with_Spec {M} (s : ModuleSpec.t M) (m : t M) : t M := mk (ObjectMeta m) s.
Definition with_ObjectMeta {M} (o : metav1.ObjectMeta.t M) (m : t M) : t M := mk o (Spec m).
End Module.

End kmmv1beta1.

#[export] Instance KernelMapping_eq_dec : EqDecision kmmv1beta1.KernelMapping.t.
Proof. solve_decision. Defined.
#[export] Instance ModprobeSpec_eq_dec : EqDecision kmmv1beta1.ModprobeSpec.t.
Proof. solve_decision. Defined.
#[export] Instance ModuleLoaderContainerSpec_eq_dec :
  EqDecision kmmv1beta1.ModuleLoaderContainerSpec.t.
Proof. solve_decision. Defined.
#[export] Instance ModuleLoaderSpec_eq_dec : EqDecision kmmv1beta1.ModuleLoaderSpec.t.
Proof. solve_decision. Defined.
#[export] Instance DevicePluginContainerSpec_eq_dec :
  EqDecision kmmv1beta1.DevicePluginContainerSpec.t.
Proof. solve_decision. Defined.
#[export] Instance DevicePluginSpec_eq_dec : EqDecision kmmv1beta1.DevicePluginSpec.t.
Proof. solve_decision. Defined.
#[export] Instance ModuleSpec_eq_dec `{EqDecision M} : EqDecision (kmmv1beta1.ModuleSpec.t M).
Proof. solve_decision. Defined.
#[export] Instance Module_eq_dec `{EqDecision M} : EqDecision (kmmv1beta1.Module.t M).
Proof. solve_decision. Defined.

(** ** [habana-ai-operator/api/v1alpha1] *)

Module hlaiv1alpha1.

Module DeviceConfigSpec.
Record t (M : Type) : Type := mk {
  DriverImage : string;
  DriverVersion : string;
  NodeSelector : M;
}.
Definition map {M N} (f : M -> N) (s : t M) : t N :=
  mk (DriverImage s) (DriverVersion s) (f (NodeSelector s)).
End DeviceConfigSpec.

Module DeviceConfigStatus.
Record t : Type := mk {
  Conditions : list metav1.Condition.t;
}.
End DeviceConfigStatus.

Module DeviceConfig.
Record t (M : Type) : Type := mk {
  ObjectMeta : metav1.ObjectMeta.t M;
  Spec : DeviceConfigSpec.t M;
  Status : DeviceConfigStatus.t;
}.
Definition map {M N} (f : M -> N) (d : t M) : t N :=
  mk (metav1.ObjectMeta.map f (ObjectMeta d)) (DeviceConfigSpec.map f (Spec d)) (Status d).
Definition mapM {S M N} (f : M -> Go S N) (d : t M) : Go S (t N) :=
  o <- metav1.ObjectMeta.mapM f (ObjectMeta d);;
  sel <- f (DeviceConfigSpec.NodeSelector (Spec d));;
  ret (mk o (DeviceConfigSpec.mk (DeviceConfigSpec.DriverImage (Spec d))
                                 (DeviceConfigSpec.DriverVersion (Spec d)) sel)
          (Status d)).
Definition zero {M} (m0 : M) : t M :=
  mk (metav1.ObjectMeta.zero m0) (DeviceConfigSpec.mk "" "" m0) (DeviceConfigStatus.mk []).
Definition with_Status {M} (s : DeviceConfigStatus.t) (d : t M) : t M :=
  mk (ObjectMeta d) (Spec d) s.
End DeviceConfig.

(** The method [GetNodeSelector] of a [DeviceConfig]: the selector of the spec, or a new
    empty map when the spec has none; never nil. *)
Definition GetNodeSelector {C} (dc : DeviceConfig.t gomap) : Go (World C) gomap :=
  match DeviceConfigSpec.NodeSelector (DeviceConfig.Spec dc) with
  | Some l => ret (Some l)
  | None => makemap ∅
  end.

End hlaiv1alpha1.

#[export] Instance DeviceConfigSpec_eq_dec `{EqDecision M} :
  EqDecision (hlaiv1alpha1.DeviceConfigSpec.t M).
Proof. solve_decision. Defined.
#[export] Instance DeviceConfigStatus_eq_dec : EqDecision hlaiv1alpha1.DeviceConfigStatus.t.
Proof. solve_decision. Defined.
#[export] Instance DeviceConfig_eq_dec `{EqDecision M} :
  EqDecision (hlaiv1alpha1.DeviceConfig.t M).
Proof. solve_decision. Defined.

(** ** Merge patches, field by field *)

Definition patch_ObjectMeta (s b a : metav1.ObjectMeta.t mapv) : metav1.ObjectMeta.t mapv :=
  let f {A} `{EqDecision A} (p : metav1.ObjectMeta.t mapv -> A) := pick (p s) (p b) (p a) in
  metav1.ObjectMeta.mk
    (f (@metav1.ObjectMeta.Name _)) (f (@metav1.ObjectMeta.Namespace _)) (f (@metav1.ObjectMeta.UID _))
    (f (@metav1.ObjectMeta.ResourceVersion _)) (f (@metav1.ObjectMeta.Generation _))
    (f (@metav1.ObjectMeta.DeletionTimestamp _)) (f (@metav1.ObjectMeta.Finalizers _))
    (f (@metav1.ObjectMeta.OwnerReferences _)) (f (@metav1.ObjectMeta.Labels _)).

Definition patch_Module (s b a : kmmv1beta1.Module.t mapv) : kmmv1beta1.Module.t mapv :=
  let f {A} `{EqDecision A} (p : kmmv1beta1.ModuleSpec.t mapv -> A) :=
    pick (p (kmmv1beta1.Module.Spec s)) (p (kmmv1beta1.Module.Spec b))
         (p (kmmv1beta1.Module.Spec a)) in
  kmmv1beta1.Module.mk
    (patch_ObjectMeta (kmmv1beta1.Module.ObjectMeta s) (kmmv1beta1.Module.ObjectMeta b)
                      (kmmv1beta1.Module.ObjectMeta a))
    (kmmv1beta1.ModuleSpec.mk
       (f (@kmmv1beta1.ModuleSpec.DevicePlugin _)) (f (@kmmv1beta1.ModuleSpec.ModuleLoader _))
       (f (@kmmv1beta1.ModuleSpec.Selector _))).

Definition patch_DeviceConfig (s b a : hlaiv1alpha1.DeviceConfig.t mapv) :
  hlaiv1alpha1.DeviceConfig.t mapv :=
  let f {A} `{EqDecision A} (p : hlaiv1alpha1.DeviceConfigSpec.t mapv -> A) :=
    pick (p (hlaiv1alpha1.DeviceConfig.Spec s)) (p (hlaiv1alpha1.DeviceConfig.Spec b))
         (p (hlaiv1alpha1.DeviceConfig.Spec a)) in
  hlaiv1alpha1.DeviceConfig.mk
    (patch_ObjectMeta (hlaiv1alpha1.DeviceConfig.ObjectMeta s)
                      (hlaiv1alpha1.DeviceConfig.ObjectMeta b)
                      (hlaiv1alpha1.DeviceConfig.ObjectMeta a))
    (hlaiv1alpha1.DeviceConfigSpec.mk
       (f (@hlaiv1alpha1.DeviceConfigSpec.DriverImage _))
       (f (@hlaiv1alpha1.DeviceConfigSpec.DriverVersion _))
       (f (@hlaiv1alpha1.DeviceConfigSpec.NodeSelector _)))
    (pick (hlaiv1alpha1.DeviceConfig.Status s) (hlaiv1alpha1.DeviceConfig.Status b)
          (hlaiv1alpha1.DeviceConfig.Status a)).

(** ** Objects: what [client.Object] and [runtime.Object] give the library *)

(** [runtime.Scheme]: the Go types registered with their group, version
    and kind. *)
Abbreviation Scheme := (gmap string schema.GroupVersionKind.t).

Class Object (K : Type -> Type) : Type := {
  (** the Go type's name, the key of the scheme *)
  TypeName : string;
  (** the resource name in error messages *)
  Resource : string;
  GetObjectMeta : forall {M}, K M -> metav1.ObjectMeta.t M;
  SetObjectMeta : forall {M}, metav1.ObjectMeta.t M -> K M -> K M;
  (** change the representation of every map of the object *)
  omap : forall {M N}, (M -> N) -> K M -> K N;
  (** the same with an effectful change, labels first *)
  omapM : forall {S M N}, (M -> Go S N) -> K M -> Go S (K N);
  (** the references of the maps the object holds *)
  orefs : K gomap -> list gomap;
  (** the merge patch from [before] to [after], applied to [stored] *)
  opatch : K mapv -> K mapv -> K mapv -> K mapv;
  (** [stored] with the status of [new] and its resource version: what a
      write to the status sub-resource keeps of [new] *)
  ostatus : K mapv -> K mapv -> K mapv;
}.

#[export] Instance Module_Object : Object kmmv1beta1.Module.t := {
  TypeName := "v1beta1.Module";
  Resource := "modules.kmm.sigs.x-k8s.io";
  GetObjectMeta := @kmmv1beta1.Module.ObjectMeta;
  SetObjectMeta := @kmmv1beta1.Module.with_ObjectMeta;
  omap := @kmmv1beta1.Module.map;
  omapM := @kmmv1beta1.Module.mapM;
  orefs m := [metav1.ObjectMeta.Labels (kmmv1beta1.Module.ObjectMeta m);
              kmmv1beta1.ModuleSpec.Selector (kmmv1beta1.Module.Spec m)];
  opatch := patch_Module;
  ostatus new stored :=
    kmmv1beta1.Module.with_ObjectMeta
      (metav1.ObjectMeta.with_ResourceVersion
         (metav1.ObjectMeta.ResourceVersion (kmmv1beta1.Module.ObjectMeta new))
         (kmmv1beta1.Module.ObjectMeta stored)) stored;
}.

#[export] Instance DeviceConfig_Object : Object hlaiv1alpha1.DeviceConfig.t := {
  TypeName := "v1alpha1.DeviceConfig";
  Resource := "deviceconfigs.habana.ai";
  GetObjectMeta := @hlaiv1alpha1.DeviceConfig.ObjectMeta;
  SetObjectMeta M o d :=
    hlaiv1alpha1.DeviceConfig.mk o (hlaiv1alpha1.DeviceConfig.Spec d)
                                 (hlaiv1alpha1.DeviceConfig.Status d);
  omap := @hlaiv1alpha1.DeviceConfig.map;
  omapM := @hlaiv1alpha1.DeviceConfig.mapM;
  orefs d := [metav1.ObjectMeta.Labels (hlaiv1alpha1.DeviceConfig.ObjectMeta d);
              hlaiv1alpha1.DeviceConfigSpec.NodeSelector (hlaiv1alpha1.DeviceConfig.Spec d)];
  opatch := patch_DeviceConfig;
  ostatus new stored :=
    hlaiv1alpha1.DeviceConfig.mk
      (metav1.ObjectMeta.with_ResourceVersion
         (metav1.ObjectMeta.ResourceVersion (hlaiv1alpha1.DeviceConfig.ObjectMeta new))
         (hlaiv1alpha1.DeviceConfig.ObjectMeta stored))
      (hlaiv1alpha1.DeviceConfig.Spec stored)
      (hlaiv1alpha1.DeviceConfig.Status new);
}.

#[export] Instance Node_Object : Object corev1.Node.t := {
  TypeName := "v1.Node";
  Resource := "nodes";
  GetObjectMeta := @corev1.Node.ObjectMeta;
  SetObjectMeta M o n := corev1.Node.mk o;
  omap := @corev1.Node.map;
  omapM := @corev1.Node.mapM;
  orefs n := [metav1.ObjectMeta.Labels (corev1.Node.ObjectMeta n)];
  opatch s b a :=
    corev1.Node.mk (patch_ObjectMeta (corev1.Node.ObjectMeta s) (corev1.Node.ObjectMeta b)
                                     (corev1.Node.ObjectMeta a));
  ostatus new stored :=
    corev1.Node.mk
      (metav1.ObjectMeta.with_ResourceVersion
         (metav1.ObjectMeta.ResourceVersion (corev1.Node.ObjectMeta new))
         (corev1.Node.ObjectMeta stored));
}.

Section object.
Context {K : Type -> Type} `{!Object K}.

Definition GetName {M} (o : K M) : string := metav1.ObjectMeta.Name (GetObjectMeta o).
Definition GetNamespace {M} (o : K M) : string := metav1.ObjectMeta.Namespace (GetObjectMeta o).
Definition GetUID {M} (o : K M) : string := metav1.ObjectMeta.UID (GetObjectMeta o).
Definition GetOwnerReferences {M} (o : K M) : list metav1.OwnerReference.t :=
  metav1.ObjectMeta.OwnerReferences (GetObjectMeta o).
Definition SetOwnerReferences {M} (refs : list metav1.OwnerReference.t) (o : K M) : K M :=
  SetObjectMeta (metav1.ObjectMeta.with_OwnerReferences refs (GetObjectMeta o)) o.

Definition GetResourceVersion {M} (o : K M) : string :=
  metav1.ObjectMeta.ResourceVersion (GetObjectMeta o).

Definition SetResourceVersion {M} (rv : string) (o : K M) : K M :=
  SetObjectMeta (metav1.ObjectMeta.with_ResourceVersion rv (GetObjectMeta o)) o.

Definition SetDeletionTimestamp {M} (ts : option Z) (o : K M) : K M :=
  SetObjectMeta (metav1.ObjectMeta.with_DeletionTimestamp ts (GetObjectMeta o)) o.

Definition GetDeletionTimestamp {M} (o : K M) : option Z :=
  metav1.ObjectMeta.DeletionTimestamp (GetObjectMeta o).

Definition GetFinalizers {M} (o : K M) : list string :=
  metav1.ObjectMeta.Finalizers (GetObjectMeta o).

Definition SetFinalizers {M} (fs : list string) (o : K M) : K M :=
  SetObjectMeta (metav1.ObjectMeta.with_Finalizers fs (GetObjectMeta o)) o.

Definition GetGeneration {M} (o : K M) : Z :=
  metav1.ObjectMeta.Generation (GetObjectMeta o).

Definition GetLabels {M} (o : K M) : M :=
  metav1.ObjectMeta.Labels (GetObjectMeta o).

(** [client.ObjectKeyFromObject]. *)
Definition ObjectKeyFromObject {M} (o : K M) : types.NamespacedName.t :=
  types.NamespacedName.mk (GetNamespace o) (GetName o).

(** The object as [ToUnstructured] renders it and as the store holds it:
    every map read through the heap. *)
Definition freeze (h : Heap) (o : K gomap) : K mapv := omap (mapval h) o.

(** Decoding a stored object into a zeroed Go object: every map it holds
    is allocated anew. *)
Definition thaw {C} (v : K mapv) : Go (World C) (K gomap) :=
  omapM thaw_map v.

(** Every map the object holds is allocated. *)
Definition object_valid (h : Heap) (o : K gomap) : Prop :=
  Forall (gomap_valid h) (orefs o).

(** No map the object holds is allocated in [h]: the object was decoded
    after [h]. *)
Definition object_fresh (h : Heap) (o : K gomap) : Prop :=
  Forall (gomap_fresh h) (orefs o).

End object.

(** [hlaiv1alpha1.AddToScheme] and [kmmv1beta1.AddToScheme]. *)
Definition hlaiv1alpha1_AddToScheme (s : Scheme) : Scheme :=
  <[TypeName (K := hlaiv1alpha1.DeviceConfig.t) :=
      schema.GroupVersionKind.mk "habana.ai" "v1alpha1" "DeviceConfig"]> s.

Definition kmmv1beta1_AddToScheme (s : Scheme) : Scheme :=
  <[TypeName (K := kmmv1beta1.Module.t) :=
      schema.GroupVersionKind.mk "kmm.sigs.x-k8s.io" "v1beta1" "Module"]> s.

(** ** Lemmas *)

Lemma freeze_Module h (m : kmmv1beta1.Module.t gomap) :
  freeze h m = kmmv1beta1.Module.map (mapval h) m.
Proof. reflexivity. Qed.

Lemma wp_GetNodeSelector_Some {C} (dc : hlaiv1alpha1.DeviceConfig.t gomap) l (w : World C) Q :
  hlaiv1alpha1.DeviceConfigSpec.NodeSelector (hlaiv1alpha1.DeviceConfig.Spec dc) = Some l ->
  Q (Some l) w -> wp (hlaiv1alpha1.GetNodeSelector dc) w Q.
Proof. unfold hlaiv1alpha1.GetNodeSelector. by intros ->. Qed.

Lemma wp_GetNodeSelector_nil {C} (dc : hlaiv1alpha1.DeviceConfig.t gomap) (w : World C) Q :
  hlaiv1alpha1.DeviceConfigSpec.NodeSelector (hlaiv1alpha1.DeviceConfig.Spec dc) = None ->
  (forall l, l ∉ dom (heap w) -> Q (Some l) (set_heap (<[l := ∅]> (heap w)) w)) ->
  wp (hlaiv1alpha1.GetNodeSelector dc) w Q.
Proof. unfold hlaiv1alpha1.GetNodeSelector. intros ->. apply wp_makemap. Qed.

Lemma pick_same {A} `{EqDecision A} (b a : A) : pick b b a = a.
Proof. unfold pick. by case_decide. Qed.

Lemma pick_id {A} `{EqDecision A} (s b : A) : pick s b b = s.
Proof. unfold pick. by case_decide. Qed.

Lemma patch_ObjectMeta_same b a : patch_ObjectMeta b b a = a.
Proof. destruct a. unfold patch_ObjectMeta. by rewrite !pick_same. Qed.

(** ** The laws of objects

    What the library may assume of a kind of objects: the metadata is a
    field, [omap] changes the maps only and looks at no map outside
    [orefs], and decoding gives an object with new maps that freezes to
    what was decoded. *)

Class ObjectLaws (K : Type -> Type) `{!Object K} : Prop := {
  GetObjectMeta_SetObjectMeta {M} (om : metav1.ObjectMeta.t M) (o : K M) :
    GetObjectMeta (SetObjectMeta om o) = om;
  SetObjectMeta_SetObjectMeta {M} (om om' : metav1.ObjectMeta.t M) (o : K M) :
    SetObjectMeta om (SetObjectMeta om' o) = SetObjectMeta om o;
  SetObjectMeta_GetObjectMeta {M} (o : K M) : SetObjectMeta (GetObjectMeta o) o = o;
  omap_SetObjectMeta {M N} (f : M -> N) (om : metav1.ObjectMeta.t M) (o : K M) :
    omap f (SetObjectMeta om o) = SetObjectMeta (metav1.ObjectMeta.map f om) (omap f o);
  GetObjectMeta_omap {M N} (f : M -> N) (o : K M) :
    GetObjectMeta (omap f o) = metav1.ObjectMeta.map f (GetObjectMeta o);
  omap_ext (f g : gomap -> mapv) (o : K gomap) :
    Forall (fun r => f r = g r) (orefs o) -> omap f o = omap g o;
  opatch_same (b a : K mapv) : opatch b b a = a;
  GetObjectMeta_ostatus (new stored : K mapv) :
    GetObjectMeta (ostatus new stored) =
    metav1.ObjectMeta.with_ResourceVersion
      (metav1.ObjectMeta.ResourceVersion (GetObjectMeta new)) (GetObjectMeta stored);
  wp_thaw {C} (v : K mapv) (w : World C) (Q : K gomap -> World C -> Prop) :
    (forall o h', heap w ⊆ h' -> freeze h' o = v -> object_valid h' o ->
                object_fresh (heap w) o -> Q o (set_heap h' w)) ->
    wp (thaw v) w Q;
}.
Arguments ObjectLaws K {_}.

Lemma wp_thaw_Module {C} (v : kmmv1beta1.Module.t mapv) (w : World C) Q :
  (forall o h', heap w ⊆ h' -> freeze h' o = v -> object_valid h' o ->
                object_fresh (heap w) o -> Q o (set_heap h' w)) ->
  wp (thaw v) w Q.
Proof.
  intros H. destruct v as [[] []]. unfold thaw. cbn.
  unfold kmmv1beta1.Module.mapM, metav1.ObjectMeta.mapM. cbn.
  apply wp_bind, wp_bind, wp_thaw_map. intros g1 h1 Hsub1 Hg1 Hv1 Hf1.
  apply wp_ret, wp_bind, wp_thaw_map. cbn. intros g2 h2 Hsub2 Hg2 Hv2 Hf2.
  apply wp_ret. rewrite set_heap_set_heap. apply H.
  - by etrans.
  - unfold freeze. cbn. unfold kmmv1beta1.Module.map, metav1.ObjectMeta.map. cbn.
    fold (mapval h2 g1). rewrite (mapval_subseteq h1 h2), Hg1 by done.
    unfold kmmv1beta1.ModuleSpec.map. cbn. fold (mapval h2 g2). by rewrite Hg2.
  - repeat constructor; eauto using gomap_valid_subseteq.
  - repeat constructor; eauto using gomap_fresh_subseteq.
Qed.

Lemma wp_thaw_DeviceConfig {C} (v : hlaiv1alpha1.DeviceConfig.t mapv) (w : World C) Q :
  (forall o h', heap w ⊆ h' -> freeze h' o = v -> object_valid h' o ->
                object_fresh (heap w) o -> Q o (set_heap h' w)) ->
  wp (thaw v) w Q.
Proof.
  intros H. destruct v as [[] [] ?]. unfold thaw. cbn.
  unfold hlaiv1alpha1.DeviceConfig.mapM, metav1.ObjectMeta.mapM. cbn.
  apply wp_bind, wp_bind, wp_thaw_map. intros g1 h1 Hsub1 Hg1 Hv1 Hf1.
  apply wp_ret, wp_bind, wp_thaw_map. cbn. intros g2 h2 Hsub2 Hg2 Hv2 Hf2.
  apply wp_ret. rewrite set_heap_set_heap. apply H.
  - by etrans.
  - unfold freeze. cbn. unfold hlaiv1alpha1.DeviceConfig.map, metav1.ObjectMeta.map. cbn.
    fold (mapval h2 g1). rewrite (mapval_subseteq h1 h2), Hg1 by done.
    unfold hlaiv1alpha1.DeviceConfigSpec.map. cbn. fold (mapval h2 g2). by rewrite Hg2.
  - repeat constructor; eauto using gomap_valid_subseteq.
  - repeat constructor; eauto using gomap_fresh_subseteq.
Qed.

Lemma wp_thaw_Node {C} (v : corev1.Node.t mapv) (w : World C) Q :
  (forall o h', heap w ⊆ h' -> freeze h' o = v -> object_valid h' o ->
                object_fresh (heap w) o -> Q o (set_heap h' w)) ->
  wp (thaw v) w Q.
Proof.
  intros H. destruct v as [[]]. unfold thaw. cbn.
  unfold corev1.Node.mapM, metav1.ObjectMeta.mapM. cbn.
  apply wp_bind, wp_bind, wp_thaw_map. intros g1 h1 Hsub1 Hg1 Hv1 Hf1.
  apply wp_ret, wp_ret. apply H; [done| |by repeat constructor..].
  unfold freeze. cbn. unfold corev1.Node.map, metav1.ObjectMeta.map. cbn.
  fold (mapval h1 g1). by rewrite Hg1.
Qed.

#[export] Instance Node_ObjectLaws : ObjectLaws corev1.Node.t.
Proof.
  split; try done.
  - by intros M [].
  - intros f g [[]] H. cbn in *. inversion_clear H as [|?? H1 _].
    unfold corev1.Node.map, metav1.ObjectMeta.map. cbn. by rewrite H1.
  - intros b [?]. cbn. by rewrite patch_ObjectMeta_same.
  - intros. by apply wp_thaw_Node.
Qed.

#[export] Instance Module_ObjectLaws : ObjectLaws kmmv1beta1.Module.t.
Proof.
  split; try done.
  - by intros M [].
  - intros f g [[] []] H. cbn in *. inversion_clear H as [|?? H1 H2].
    inversion_clear H2 as [|?? H3 _].
    unfold kmmv1beta1.Module.map, metav1.ObjectMeta.map, kmmv1beta1.ModuleSpec.map. cbn.
    by rewrite H1, H3.
  - intros b [? []]. cbn. unfold patch_Module.
    by rewrite patch_ObjectMeta_same, !pick_same.
  - intros. by apply wp_thaw_Module.
Qed.

#[export] Instance DeviceConfig_ObjectLaws : ObjectLaws hlaiv1alpha1.DeviceConfig.t.
Proof.
  split; try done.
  - by intros M [].
  - intros f g [[] [] ?] H. cbn in *. inversion_clear H as [|?? H1 H2].
    inversion_clear H2 as [|?? H3 _].
    unfold hlaiv1alpha1.DeviceConfig.map, metav1.ObjectMeta.map,
      hlaiv1alpha1.DeviceConfigSpec.map. cbn.
    by rewrite H1, H3.
  - intros b [? [] ?]. cbn. unfold patch_DeviceConfig.
    by rewrite patch_ObjectMeta_same, !pick_same.
  - intros. by apply wp_thaw_DeviceConfig.
Qed.

Section object_lemmas.
Context {K : Type -> Type} `{!Object K, !ObjectLaws K}.

(** An object whose maps are allocated freezes to the same value in a
    larger heap. *)
Lemma freeze_subseteq (h h' : Heap) (o : K gomap) :
  h ⊆ h' -> object_valid h o -> freeze h' o = freeze h o.
Proof.
  intros Hsub Hv. apply omap_ext. eapply Forall_impl; [exact Hv|].
  intros g Hg. cbn. by rewrite (mapval_subseteq h h').
Qed.

Lemma object_valid_subseteq (h h' : Heap) (o : K gomap) :
  h ⊆ h' -> object_valid h o -> object_valid h' o.
Proof. intros Hsub Hv. eapply Forall_impl; eauto using gomap_valid_subseteq. Qed.

Lemma GetNamespace_omap {M N} (f : M -> N) (o : K M) : GetNamespace (omap f o) = GetNamespace o.
Proof. unfold GetNamespace. by rewrite GetObjectMeta_omap. Qed.

Lemma GetName_omap {M N} (f : M -> N) (o : K M) : GetName (omap f o) = GetName o.
Proof. unfold GetName. by rewrite GetObjectMeta_omap. Qed.

Lemma GetUID_omap {M N} (f : M -> N) (o : K M) : GetUID (omap f o) = GetUID o.
Proof. unfold GetUID. by rewrite GetObjectMeta_omap. Qed.

Lemma GetOwnerReferences_omap {M N} (f : M -> N) (o : K M) :
  GetOwnerReferences (omap f o) = GetOwnerReferences o.
Proof. unfold GetOwnerReferences. by rewrite GetObjectMeta_omap. Qed.

Lemma omap_SetOwnerReferences {M N} (f : M -> N) refs (o : K M) :
  omap f (SetOwnerReferences refs o) = SetOwnerReferences refs (omap f o).
Proof. unfold SetOwnerReferences. by rewrite omap_SetObjectMeta, GetObjectMeta_omap. Qed.

Lemma GetOwnerReferences_SetOwnerReferences {M} refs (o : K M) :
  GetOwnerReferences (SetOwnerReferences refs o) = refs.
Proof.
  unfold GetOwnerReferences, SetOwnerReferences. by rewrite GetObjectMeta_SetObjectMeta.
Qed.

Lemma ObjectKeyFromObject_SetOwnerReferences {M} refs (o : K M) :
  ObjectKeyFromObject (SetOwnerReferences refs o) = ObjectKeyFromObject o.
Proof.
  unfold ObjectKeyFromObject, GetNamespace, GetName, SetOwnerReferences.
  by rewrite GetObjectMeta_SetObjectMeta.
Qed.

Lemma SetOwnerReferences_SetOwnerReferences {M} refs refs' (o : K M) :
  SetOwnerReferences refs (SetOwnerReferences refs' o) = SetOwnerReferences refs o.
Proof.
  unfold SetOwnerReferences.
  by rewrite GetObjectMeta_SetObjectMeta, SetObjectMeta_SetObjectMeta.
Qed.

Lemma SetOwnerReferences_GetOwnerReferences {M} (o : K M) :
  SetOwnerReferences (GetOwnerReferences o) o = o.
Proof.
  unfold SetOwnerReferences, GetOwnerReferences.
  replace (metav1.ObjectMeta.with_OwnerReferences _ _) with (GetObjectMeta o)
    by by destruct (GetObjectMeta o).
  apply SetObjectMeta_GetObjectMeta.
Qed.

Lemma GetResourceVersion_freeze h obj : GetResourceVersion (freeze h obj) = GetResourceVersion obj.
Proof. unfold GetResourceVersion, freeze. by rewrite GetObjectMeta_omap. Qed.

Lemma freeze_SetResourceVersion h rv obj :
  freeze h (SetResourceVersion rv obj) = SetResourceVersion rv (freeze h obj).
Proof.
  unfold freeze, SetResourceVersion. by rewrite omap_SetObjectMeta, GetObjectMeta_omap.
Qed.

Lemma GetResourceVersion_SetResourceVersion {M} rv (o : K M) :
  GetResourceVersion (SetResourceVersion rv o) = rv.
Proof. unfold GetResourceVersion, SetResourceVersion. by rewrite GetObjectMeta_SetObjectMeta. Qed.

Lemma GetDeletionTimestamp_SetResourceVersion {M} rv (o : K M) :
  GetDeletionTimestamp (SetResourceVersion rv o) = GetDeletionTimestamp o.
Proof. unfold GetDeletionTimestamp, SetResourceVersion. by rewrite GetObjectMeta_SetObjectMeta. Qed.

Lemma GetFinalizers_SetResourceVersion {M} rv (o : K M) :
  GetFinalizers (SetResourceVersion rv o) = GetFinalizers o.
Proof. unfold GetFinalizers, SetResourceVersion. by rewrite GetObjectMeta_SetObjectMeta. Qed.

Lemma GetResourceVersion_SetDeletionTimestamp {M} ts (o : K M) :
  GetResourceVersion (SetDeletionTimestamp ts o) = GetResourceVersion o.
Proof. unfold GetResourceVersion, SetDeletionTimestamp. by rewrite GetObjectMeta_SetObjectMeta. Qed.

Lemma GetFinalizers_SetDeletionTimestamp {M} ts (o : K M) :
  GetFinalizers (SetDeletionTimestamp ts o) = GetFinalizers o.
Proof. unfold GetFinalizers, SetDeletionTimestamp. by rewrite GetObjectMeta_SetObjectMeta. Qed.

Lemma GetResourceVersion_SetOwnerReferences {M} refs (o : K M) :
  GetResourceVersion (SetOwnerReferences refs o) = GetResourceVersion o.
Proof. unfold GetResourceVersion, SetOwnerReferences. by rewrite GetObjectMeta_SetObjectMeta. Qed.

Lemma GetDeletionTimestamp_SetOwnerReferences {M} refs (o : K M) :
  GetDeletionTimestamp (SetOwnerReferences refs o) = GetDeletionTimestamp o.
Proof. unfold GetDeletionTimestamp, SetOwnerReferences. by rewrite GetObjectMeta_SetObjectMeta. Qed.

Lemma GetFinalizers_SetOwnerReferences {M} refs (o : K M) :
  GetFinalizers (SetOwnerReferences refs o) = GetFinalizers o.
Proof. unfold GetFinalizers, SetOwnerReferences. by rewrite GetObjectMeta_SetObjectMeta. Qed.

Lemma GetOwnerReferences_SetResourceVersion {M} rv (o : K M) :
  GetOwnerReferences (SetResourceVersion rv o) = GetOwnerReferences o.
Proof. unfold GetOwnerReferences, SetResourceVersion. by rewrite GetObjectMeta_SetObjectMeta. Qed.

Lemma SetResourceVersion_GetResourceVersion {M} (o : K M) :
  SetResourceVersion (GetResourceVersion o) o = o.
Proof.
  unfold SetResourceVersion, GetResourceVersion.
  replace (metav1.ObjectMeta.with_ResourceVersion _ _) with (GetObjectMeta o)
    by by destruct (GetObjectMeta o).
  apply SetObjectMeta_GetObjectMeta.
Qed.

Lemma GetNamespace_SetResourceVersion {M} rv (o : K M) :
  GetNamespace (SetResourceVersion rv o) = GetNamespace o.
Proof. unfold GetNamespace, SetResourceVersion. by rewrite GetObjectMeta_SetObjectMeta. Qed.

Lemma GetName_SetResourceVersion {M} rv (o : K M) :
  GetName (SetResourceVersion rv o) = GetName o.
Proof. unfold GetName, SetResourceVersion. by rewrite GetObjectMeta_SetObjectMeta. Qed.

Lemma SetOwnerReferences_SetResourceVersion {M} refs rv (o : K M) :
  SetOwnerReferences refs (SetResourceVersion rv o) =
  SetResourceVersion rv (SetOwnerReferences refs o).
Proof.
  unfold SetOwnerReferences, SetResourceVersion.
  by rewrite !GetObjectMeta_SetObjectMeta, !SetObjectMeta_SetObjectMeta.
Qed.

Lemma ObjectKeyFromObject_freeze (h : Heap) (o : K gomap) :
  ObjectKeyFromObject (freeze h o) = ObjectKeyFromObject o.
Proof.
  unfold ObjectKeyFromObject, GetNamespace, GetName, freeze.
  by rewrite GetObjectMeta_omap.
Qed.

(** [SetFinalizers] against the other accessors. *)
Lemma GetFinalizers_SetFinalizers {M} fs (o : K M) : GetFinalizers (SetFinalizers fs o) = fs.
Proof. unfold GetFinalizers, SetFinalizers. by rewrite GetObjectMeta_SetObjectMeta. Qed.

Lemma GetDeletionTimestamp_SetFinalizers {M} fs (o : K M) :
  GetDeletionTimestamp (SetFinalizers fs o) = GetDeletionTimestamp o.
Proof. unfold GetDeletionTimestamp, SetFinalizers. by rewrite GetObjectMeta_SetObjectMeta. Qed.

Lemma GetResourceVersion_SetFinalizers {M} fs (o : K M) :
  GetResourceVersion (SetFinalizers fs o) = GetResourceVersion o.
Proof. unfold GetResourceVersion, SetFinalizers. by rewrite GetObjectMeta_SetObjectMeta. Qed.

Lemma ObjectKeyFromObject_SetFinalizers {M} fs (o : K M) :
  ObjectKeyFromObject (SetFinalizers fs o) = ObjectKeyFromObject o.
Proof.
  unfold ObjectKeyFromObject, GetNamespace, GetName, SetFinalizers.
  by rewrite GetObjectMeta_SetObjectMeta.
Qed.

Lemma SetFinalizers_GetFinalizers {M} (o : K M) : SetFinalizers (GetFinalizers o) o = o.
Proof.
  unfold SetFinalizers, GetFinalizers.
  replace (metav1.ObjectMeta.with_Finalizers _ _) with (GetObjectMeta o)
    by by destruct (GetObjectMeta o).
  apply SetObjectMeta_GetObjectMeta.
Qed.

Lemma SetFinalizers_SetFinalizers {M} fs fs' (o : K M) :
  SetFinalizers fs (SetFinalizers fs' o) = SetFinalizers fs o.
Proof.
  unfold SetFinalizers. by rewrite GetObjectMeta_SetObjectMeta, SetObjectMeta_SetObjectMeta.
Qed.

Lemma freeze_SetFinalizers h fs obj :
  freeze h (SetFinalizers fs obj) = SetFinalizers fs (freeze h obj).
Proof. unfold freeze, SetFinalizers. by rewrite omap_SetObjectMeta, GetObjectMeta_omap. Qed.

Lemma GetFinalizers_freeze h obj : GetFinalizers (freeze h obj) = GetFinalizers obj.
Proof. unfold GetFinalizers, freeze. by rewrite GetObjectMeta_omap. Qed.

Lemma GetDeletionTimestamp_freeze h obj :
  GetDeletionTimestamp (freeze h obj) = GetDeletionTimestamp obj.
Proof. unfold GetDeletionTimestamp, freeze. by rewrite GetObjectMeta_omap. Qed.

Lemma ObjectKeyFromObject_SetResourceVersion {M} rv (o : K M) :
  ObjectKeyFromObject (SetResourceVersion rv o) = ObjectKeyFromObject o.
Proof.
  unfold ObjectKeyFromObject. by rewrite GetNamespace_SetResourceVersion, GetName_SetResourceVersion.
Qed.

Lemma SetFinalizers_SetResourceVersion {M} fs rv (o : K M) :
  SetFinalizers fs (SetResourceVersion rv o) = SetResourceVersion rv (SetFinalizers fs o).
Proof.
  unfold SetFinalizers, SetResourceVersion.
  by rewrite !GetObjectMeta_SetObjectMeta, !SetObjectMeta_SetObjectMeta.
Qed.

End object_lemmas.

#[export] Hint Resolve object_valid_subseteq : go.

(** The accessors of the metadata against its setters, as a rewrite
    database. *)
Create Rewrite HintDb meta_rw.
#[export] Hint Rewrite
  @GetOwnerReferences_SetOwnerReferences @ObjectKeyFromObject_SetOwnerReferences
  @GetResourceVersion_freeze @GetResourceVersion_SetResourceVersion
  @GetDeletionTimestamp_SetResourceVersion @GetFinalizers_SetResourceVersion
  @GetResourceVersion_SetDeletionTimestamp @GetFinalizers_SetDeletionTimestamp
  @GetResourceVersion_SetOwnerReferences @GetDeletionTimestamp_SetOwnerReferences
  @GetFinalizers_SetOwnerReferences @GetOwnerReferences_SetResourceVersion
  @GetNamespace_SetResourceVersion @GetName_SetResourceVersion @ObjectKeyFromObject_freeze
  @GetFinalizers_SetFinalizers @GetDeletionTimestamp_SetFinalizers
  @GetResourceVersion_SetFinalizers @ObjectKeyFromObject_SetFinalizers
  @GetFinalizers_freeze @GetDeletionTimestamp_freeze @ObjectKeyFromObject_SetResourceVersion
  using typeclasses eauto : meta_rw.
