(* ===== verification/Client.v ===== *)
(** * The object store's client

    [Client K C] is controller-runtime's [client.Client] at the objects of
    kind [K], over a client state [C]: the interface the reconcilers are
    written against.  An operation that fills or updates the object it is
    given returns the object.

    Two implementations:
    - [OracleClient]: every call is answered by an oracle that sees the
      calls made so far, and is logged.  Every behaviour a client can show
      is some oracle's, so a theorem for all oracles holds of every
      client, faults included; the log gives the order of the calls.
    - [FakeClient] (in [FakeClient.v]): an in-memory store.

    [Lister K C] is the [List] of the same interface, kept apart because
    only the node-selector validator calls it. *)

From Stdlib Require Import String ZArith.
From stdpp Require Import base tactics option list gmap strings.
From S2P Require Import Prelude GoRuntime ApiTypes.

#[local] Open Scope go_scope.

Class Client (K : Type -> Type) (C : Type) : Type := {
  (** [Get(ctx, key, obj)] *)
  Get : types.NamespacedName.t -> K gomap -> Go (World C) (error * K gomap);
  (** [Create(ctx, obj)] *)
  Create : K gomap -> Go (World C) (error * K gomap);
  (** [Delete(ctx, obj)] *)
  Delete : K gomap -> Go (World C) error;
  (** [Patch(ctx, obj, client.MergeFrom(before))] *)
  Patch : K gomap -> K mapv -> Go (World C) (error * K gomap);
  (** [Update(ctx, obj)] *)
  Update : K gomap -> Go (World C) (error * K gomap);
  (** [Status().Update(ctx, obj)] *)
  StatusUpdate : K gomap -> Go (World C) (error * K gomap);
}.

(** [List(ctx, list, client.MatchingLabels(labels))] of [client.Reader]:
    the objects whose labels have every entry of [labels], in every
    namespace; nil or empty [labels] select every object. *)
Class Lister (K : Type -> Type) (C : Type) : Type := {
  List : mapv -> Go (World C) (error * list (K gomap));
}.

(** A client of a component's state, inside a larger state. *)
Definition zoom_Client {K S T} (l : Lens S T) (c : Client K T) : Client K S := {|
  Get key obj := zoom l (Get key obj);
  Create obj := zoom l (Create obj);
  Delete obj := zoom l (Delete obj);
  Patch obj before := zoom l (Patch obj before);
  Update obj := zoom l (Update obj);
  StatusUpdate obj := zoom l (StatusUpdate obj);
|}.

Definition zoom_Lister {K S T} (l : Lens S T) (c : Lister K T) : Lister K S := {|
  List sel := zoom l (List sel);
|}.

(** ** The oracle client *)

Section oracle.
Context {K : Type -> Type} `{!Object K}.

(** A call as the client sees it: the objects as they are when it is made. *)
Inductive Call : Type :=
| CallGet (key : types.NamespacedName.t) (obj : K mapv)
| CallCreate (obj : K mapv)
| CallDelete (obj : K mapv)
| CallPatch (obj before : K mapv)
| CallUpdate (obj : K mapv)
| CallStatusUpdate (obj : K mapv).

(** An answer: the error returned, and the object written into the
    caller's, if any. *)
Record Response : Type := mkResponse {
  resp_err : error;
  resp_obj : option (K mapv);
}.

Definition Oracle : Type := list Call -> Call -> Response.

(** Log the call, ask the oracle, and decode the object it answers with. *)
Definition oracle_call (o : Oracle) (c : Call) (obj : K gomap) :
  Go (World (list Call)) (error * K gomap) :=
  log <- gets cstate;;
  modify (set_cstate (log ++ [c]));;;
  match resp_obj (o log c) with
  | Some v => obj' <- thaw v;; ret (resp_err (o log c), obj')
  | None => ret (resp_err (o log c), obj)
  end.

Definition OracleClient (o : Oracle) : Client K (list Call) := {|
  Get key obj :=
    h <- gets heap;; oracle_call o (CallGet key (freeze h obj)) obj;
  Create obj :=
    h <- gets heap;; oracle_call o (CallCreate (freeze h obj)) obj;
  Delete obj :=
    h <- gets heap;;
    r <- oracle_call o (CallDelete (freeze h obj)) obj;;
    ret r.1;
  Patch obj before :=
    h <- gets heap;; oracle_call o (CallPatch (freeze h obj) before) obj;
  Update obj :=
    h <- gets heap;; oracle_call o (CallUpdate (freeze h obj)) obj;
  StatusUpdate obj :=
    h <- gets heap;; oracle_call o (CallStatusUpdate (freeze h obj)) obj;
|}.

(** The oracle that answers the [n]-th call with the [n]-th response of a
    script, and with [nil] and no object once the script is used up. *)
Definition script_oracle (script : list Response) : Oracle :=
  fun log _ => default (mkResponse nil None) (script !! length log).

(** The operation a call asks for. *)
Inductive Verb : Type := VGet | VCreate | VDelete | VPatch | VUpdate | VStatusUpdate.

Definition verb (c : Call) : Verb :=
  match c with
  | CallGet _ _ => VGet
  | CallCreate _ => VCreate
  | CallDelete _ => VDelete
  | CallPatch _ _ => VPatch
  | CallUpdate _ => VUpdate
  | CallStatusUpdate _ => VStatusUpdate
  end.

(** What a call to the oracle client leaves: the call logged, the heap
    extended by the maps of the object answered, if any. *)
Definition answered (o : Oracle) (c : Call) (obj : K gomap) (w : World (list Call))
  (r : error * K gomap) (w' : World (list Call)) : Prop :=
  cstate w' = cstate w ++ [c] /\
  heap w ⊆ heap w' /\
  r.1 = resp_err (o (cstate w) c) /\
  match resp_obj (o (cstate w) c) with
  | None => r.2 = obj /\ heap w' = heap w
  | Some v => freeze (heap w') r.2 = v /\ object_valid (heap w') r.2
  end.

End oracle.

Arguments Call K : clear implicits.
Arguments Response K : clear implicits.
Arguments Oracle K : clear implicits.

#[export] Instance Verb_eq_dec : EqDecision Verb.
Proof. solve_decision. Defined.

(** ** The rules of the oracle client *)

Section oracle_lemmas.
Context {K : Type -> Type} `{!Object K, !ObjectLaws K}.
Implicit Types (o : Oracle K) (w : World (list (Call K))) (c : Call K) (obj : K gomap).

Lemma wp_oracle_call o c obj w Q :
  (forall r w', answered o c obj w r w' -> Q r w') -> wp (oracle_call o c obj) w Q.
Proof.
  intros H. unfold oracle_call.
  apply wp_bind, wp_gets, wp_bind, wp_modify.
  destruct (resp_obj (o (cstate w) c)) as [v|] eqn:E.
  - apply wp_bind, wp_thaw. intros obj' h' Hsub Hf Hv _. apply wp_ret, H.
    unfold answered. rewrite E. by cbn.
  - apply wp_ret, H. unfold answered. rewrite E. by cbn.
Qed.

Lemma wp_oracle_Get o key obj w Q :
  (forall r w', answered o (CallGet key (freeze (heap w) obj)) obj w r w' -> Q r w') ->
  wp (Get (Client := OracleClient o) key obj) w Q.
Proof. intros H. cbn. apply wp_bind, wp_gets. by apply wp_oracle_call. Qed.

Lemma wp_oracle_Create o obj w Q :
  (forall r w', answered o (CallCreate (freeze (heap w) obj)) obj w r w' -> Q r w') ->
  wp (Create (Client := OracleClient o) obj) w Q.
Proof. intros H. cbn. apply wp_bind, wp_gets. by apply wp_oracle_call. Qed.

Lemma wp_oracle_Patch o obj before w Q :
  (forall r w', answered o (CallPatch (freeze (heap w) obj) before) obj w r w' -> Q r w') ->
  wp (Patch (Client := OracleClient o) obj before) w Q.
Proof. intros H. cbn. apply wp_bind, wp_gets. by apply wp_oracle_call. Qed.

Lemma wp_oracle_Update o obj w Q :
  (forall r w', answered o (CallUpdate (freeze (heap w) obj)) obj w r w' -> Q r w') ->
  wp (Update (Client := OracleClient o) obj) w Q.
Proof. intros H. cbn. apply wp_bind, wp_gets. by apply wp_oracle_call. Qed.

Lemma wp_oracle_StatusUpdate o obj w Q :
  (forall r w', answered o (CallStatusUpdate (freeze (heap w) obj)) obj w r w' -> Q r w') ->
  wp (StatusUpdate (Client := OracleClient o) obj) w Q.
Proof. intros H. cbn. apply wp_bind, wp_gets. by apply wp_oracle_call. Qed.

Lemma wp_oracle_Delete o obj w Q :
  (forall r w', answered o (CallDelete (freeze (heap w) obj)) obj w r w' -> Q r.1 w') ->
  wp (Delete (Client := OracleClient o) obj) w Q.
Proof.
  intros H. cbn. apply wp_bind, wp_gets, wp_bind, wp_oracle_call.
  intros r w' Hr. by apply wp_ret, H.
Qed.

End oracle_lemmas.

#[export] Hint Resolve wp_oracle_Get wp_oracle_Create wp_oracle_Patch wp_oracle_Update
  wp_oracle_StatusUpdate wp_oracle_Delete : go.
