(* ===== verification/FakeClient.v ===== *)
(** * An in-memory object store and its client

    [FakeClient] is a [Client] over a [Store]: the objects of one kind by
    namespace and name, as controller-runtime's fake client keeps them.
    Every write goes through [tracker_update], which checks and increases
    the resource version and removes an object that is being deleted once
    it has no finalizer left.

    The merge patch of [Patch] is [opatch]: field by field, a field that
    differs between [before] and the object replaces the stored one.  It
    is the JSON merge patch whenever the stored object is the one the
    patch was computed from, which is the case in a run without
    concurrent writers. *)

From Stdlib Require Import String ZArith Decimal DecimalString.
From stdpp Require Import base tactics option list gmap strings.
From S2P Require Import Prelude GoRuntime ApiTypes Client.

#[local] Open Scope go_scope.

(** ** Definitions *)

(** Resource versions are decimal numbers; the next one is one more.  The
    empty string and a string with another character have none. *)
Definition next_version (rv : string) : option string :=
  if bool_decide (rv = "") then None
  else match NilEmpty.uint_of_string rv with
       | Some u => Some (NilZero.string_of_uint (N.to_uint (N.succ (N.of_uint u))))
       | None => None
       end.

Abbreviation Store K := (gmap (string * string) (K mapv)).

(** [k8s.io/apimachinery/pkg/labels]: a selector made from a set of labels
    matches the labels that have every entry of the set. *)
Module labels.
Definition Matches (selector : gmap string string) (ls : mapv) : bool :=
  bool_decide (selector ⊆ default ∅ ls).
End labels.

Section fake.
Context {K : Type -> Type} `{!Object K}.

Definition store_key (key : types.NamespacedName.t) : string * string :=
  (types.NamespacedName.Namespace key, types.NamespacedName.Name key).

Definition key_of {M} (o : K M) : string * string := store_key (ObjectKeyFromObject o).

(** An object that is being deleted and has no finalizer left: the store
    does not keep it. *)
Definition gone {M} (o : K M) : bool :=
  bool_decide (GetDeletionTimestamp o ≠ None) && bool_decide (GetFinalizers o = []).

(** Every object is stored under its own namespace and name, and none is
    [gone]. *)
Definition store_wf (st : Store K) : Prop :=
  forall k v, st !! k = Some v -> key_of v = k /\ gone v = false.

(** The write of [new] over the stored [old]: a resource version that is
    set must be the stored one, the deletion timestamp changes only on
    deletion, and an object left with a deletion timestamp and without
    GetFinalizers is removed. *)
Definition tracker_update (st : Store K) (old new : K mapv) (deleting : bool) :
  error * Store K * K mapv :=
  let rv := if bool_decide (GetResourceVersion new = "") then GetResourceVersion old
            else GetResourceVersion new in
  if bool_decide (rv ≠ GetResourceVersion old) then
    (Some (StatusError StatusReasonConflict
             ("Operation cannot be fulfilled on " +:+ Resource +:+ " " +:+ dquote +:+
              GetName new +:+ dquote +:+
              ": object was modified")), st, new)
  else if negb deleting && bool_decide (GetDeletionTimestamp new ≠ GetDeletionTimestamp old) then
    (Some (StatusError StatusReasonInvalid
             "metadata.deletionTimestamp: Invalid value: field is immutable"), st, new)
  else
    match next_version (GetResourceVersion old) with
    | None => (errors.New "can not convert GetResourceVersion", st, new)
    | Some rv' =>
        let new := SetResourceVersion rv' new in
        if gone new then (nil, delete (key_of new) st, new)
        else (nil, <[key_of new := new]> st, new)
    end.

Section client.
Context (now : Z).

Definition fake_Get (key : types.NamespacedName.t) (obj : K gomap) :
  Go (World (Store K)) (error * K gomap) :=
  st <- gets cstate;;
  match st !! store_key key with
  | None => ret (apierrors.NewNotFound Resource (types.NamespacedName.Name key), obj)
  | Some v => obj' <- thaw v;; ret (nil, obj')
  end.

Definition fake_Create (obj : K gomap) : Go (World (Store K)) (error * K gomap) :=
  h <- gets heap;;
  st <- gets cstate;;
  if bool_decide (GetResourceVersion obj ≠ "") then
    ret (Some (StatusError StatusReasonBadRequest
                 "GetResourceVersion can not be set for Create requests"), obj)
  else if gone obj then
    ret (Some (StatusError StatusReasonBadRequest
                 "refusing to create obj with metadata.deletionTimestamp but no GetFinalizers"), obj)
  else
    match st !! key_of obj with
    | Some _ => ret (apierrors.NewAlreadyExists Resource (GetName obj), obj)
    | None =>
        let obj := SetResourceVersion "1" obj in
        modify (set_cstate (<[key_of obj := freeze h obj]> st));;;
        ret (nil, obj)
    end.

Definition fake_Delete (obj : K gomap) : Go (World (Store K)) error :=
  st <- gets cstate;;
  match st !! key_of obj with
  | None => ret (apierrors.NewNotFound Resource (GetName obj))
  | Some old =>
      if bool_decide (GetFinalizers old ≠ []) then
        let new := if bool_decide (GetDeletionTimestamp old = None)
                   then SetDeletionTimestamp (Some now) old else old in
        let r := tracker_update st old new true in
        modify (set_cstate r.1.2);;;
        ret r.1.1
      else
        modify (set_cstate (delete (key_of obj) st));;;
        ret nil
  end.

(** What [Delete] of the object at [k] returns and leaves. *)
Definition store_delete (st : Store K) (k : string * string) : error * Store K :=
  match st !! k with
  | None => (apierrors.NewNotFound Resource k.2, st)
  | Some old =>
      if bool_decide (GetFinalizers old ≠ []) then
        let new := if bool_decide (GetDeletionTimestamp old = None)
                   then SetDeletionTimestamp (Some now) old else old in
        let r := tracker_update st old new true in (r.1.1, r.1.2)
      else (nil, delete k st)
  end.

Definition fake_Patch (obj : K gomap) (before : K mapv) :
  Go (World (Store K)) (error * K gomap) :=
  h <- gets heap;;
  st <- gets cstate;;
  match st !! key_of obj with
  | None => ret (apierrors.NewNotFound Resource (GetName obj), obj)
  | Some old =>
      let r := tracker_update st old (opatch old before (freeze h obj)) false in
      match r.1.1 with
      | Some e => ret (Some e, obj)
      | None =>
          modify (set_cstate r.1.2);;;
          obj' <- thaw r.2;;
          ret (nil, obj')
      end
  end.

Definition fake_Update (obj : K gomap) : Go (World (Store K)) (error * K gomap) :=
  h <- gets heap;;
  st <- gets cstate;;
  match st !! key_of obj with
  | None => ret (apierrors.NewNotFound Resource (GetName obj), obj)
  | Some old =>
      let r := tracker_update st old (freeze h obj) false in
      match r.1.1 with
      | Some e => ret (Some e, obj)
      | None =>
          modify (set_cstate r.1.2);;;
          ret (nil, SetResourceVersion (GetResourceVersion r.2) obj)
      end
  end.

(** A write to the status sub-resource: the stored object keeps its
    metadata and spec and takes the status. *)
Definition fake_StatusUpdate (obj : K gomap) : Go (World (Store K)) (error * K gomap) :=
  h <- gets heap;;
  st <- gets cstate;;
  match st !! key_of obj with
  | None => ret (apierrors.NewNotFound Resource (GetName obj), obj)
  | Some old =>
      let r := tracker_update st old (ostatus (freeze h obj) old) false in
      match r.1.1 with
      | Some e => ret (Some e, obj)
      | None =>
          modify (set_cstate r.1.2);;;
          ret (nil, SetResourceVersion (GetResourceVersion r.2) obj)
      end
  end.

(** The stored objects [List] answers with. *)
Definition selected (sel : mapv) (st : Store K) : list (K mapv) :=
  filter (fun v => labels.Matches (default ∅ sel) (GetLabels v)) (map_to_list st).*2.

(** Decoding a list of stored objects, one after the other. *)
Fixpoint thaw_all {C} (vs : list (K mapv)) : Go (World C) (list (K gomap)) :=
  match vs with
  | [] => ret []
  | v :: vs => o <- thaw v;; os <- thaw_all vs;; ret (o :: os)
  end.

Definition fake_List (sel : mapv) : Go (World (Store K)) (error * list (K gomap)) :=
  st <- gets cstate;;
  objs <- thaw_all (selected sel st);;
  ret (nil, objs).

Definition FakeLister : Lister K (Store K) := {| List := fake_List |}.

Definition FakeClient : Client K (Store K) := {|
  Get := fake_Get;
  Create := fake_Create;
  Delete := fake_Delete;
  Patch := fake_Patch;
  Update := fake_Update;
  StatusUpdate := fake_StatusUpdate;
|}.

End client.
End fake.

(** * Lemmas *)

Lemma next_version_1 : next_version "1" = Some "2".
Proof. reflexivity. Qed.

Lemma next_version_9 : next_version "999" = Some "1000".
Proof. reflexivity. Qed.

Lemma next_version_not_empty rv rv' : next_version rv = Some rv' -> rv ≠ "".
Proof. unfold next_version. by case_bool_decide. Qed.

Section fake_lemmas.
Context {K : Type -> Type} `{!Object K, !ObjectLaws K}.
Implicit Types (st : Store K) (w : World (Store K)) (obj : K gomap) (v old new : K mapv).

(** ** The metadata a write keeps *)

Lemma key_of_freeze h obj : key_of (freeze h obj) = key_of obj.
Proof. unfold key_of. by rewrite ObjectKeyFromObject_freeze. Qed.

Lemma key_of_SetResourceVersion {M} rv (o : K M) : key_of (SetResourceVersion rv o) = key_of o.
Proof.
  unfold key_of, ObjectKeyFromObject, GetNamespace, GetName, SetResourceVersion.
  by rewrite GetObjectMeta_SetObjectMeta.
Qed.

Lemma key_of_SetDeletionTimestamp {M} ts (o : K M) : key_of (SetDeletionTimestamp ts o) = key_of o.
Proof.
  unfold key_of, ObjectKeyFromObject, GetNamespace, GetName, SetDeletionTimestamp.
  by rewrite GetObjectMeta_SetObjectMeta.
Qed.

Lemma key_of_SetOwnerReferences {M} refs (o : K M) : key_of (SetOwnerReferences refs o) = key_of o.
Proof. unfold key_of. by rewrite ObjectKeyFromObject_SetOwnerReferences. Qed.

Lemma key_of_SetFinalizers {M} fs (o : K M) : key_of (SetFinalizers fs o) = key_of o.
Proof. unfold key_of. by rewrite ObjectKeyFromObject_SetFinalizers. Qed.

Lemma key_of_store_key {M} (o : K M) : store_key (ObjectKeyFromObject o) = key_of o.
Proof. done. Qed.

(** ** The store's invariant *)

Lemma store_wf_empty : store_wf (K := K) ∅.
Proof. by intros k v. Qed.

Lemma store_wf_insert st v :
  gone v = false -> store_wf st -> store_wf (<[key_of v := v]> st).
Proof.
  intros Hv Hwf k v'. destruct (decide (k = key_of v)) as [->|Hne].
  - rewrite lookup_insert_eq. by intros [= <-].
  - rewrite lookup_insert_ne by done. apply Hwf.
Qed.

Lemma store_wf_delete st k : store_wf st -> store_wf (delete k st).
Proof. intros Hwf k' v [_ H]%lookup_delete_Some. by apply Hwf. Qed.

Lemma tracker_update_wf st old new deleting :
  store_wf st -> store_wf (tracker_update st old new deleting).1.2.
Proof.
  intros Hwf. unfold tracker_update.
  repeat case_match; cbn; auto using store_wf_insert, store_wf_delete.
Qed.

Lemma gone_SetResourceVersion {M} rv (o : K M) : gone (SetResourceVersion rv o) = gone o.
Proof.
  unfold gone. by rewrite GetDeletionTimestamp_SetResourceVersion, GetFinalizers_SetResourceVersion.
Qed.

Lemma gone_freeze h obj : gone (freeze h obj) = gone obj.
Proof. unfold gone, GetDeletionTimestamp, GetFinalizers, freeze. by rewrite GetObjectMeta_omap. Qed.

(** A write that fails leaves the store as it is. *)
Lemma tracker_update_err st old new deleting e :
  (tracker_update st old new deleting).1.1 = Some e ->
  (tracker_update st old new deleting).1.2 = st.
Proof. unfold tracker_update. by repeat case_match. Qed.

(** What a write that succeeds stores. *)
Lemma tracker_update_nil st old new deleting :
  (tracker_update st old new deleting).1.1 = nil -> gone new = false ->
  exists rv, (tracker_update st old new deleting).1.2 =
             <[key_of new := SetResourceVersion rv new]> st.
Proof.
  intros H Hg. revert H. unfold tracker_update.
  repeat case_match; try done; intros _; cbn [fst snd].
  all: rewrite ?gone_SetResourceVersion in *; try congruence.
  all: rewrite key_of_SetResourceVersion; eauto.
Qed.

(** A write that succeeds: the stored version is the one the caller has,
    the object is not being deleted. *)
Lemma tracker_update_ok st old new rv' :
  GetResourceVersion new = GetResourceVersion old ->
  GetDeletionTimestamp new = GetDeletionTimestamp old -> gone new = false ->
  next_version (GetResourceVersion old) = Some rv' ->
  tracker_update st old new false =
  (nil, <[key_of new := SetResourceVersion rv' new]> st, SetResourceVersion rv' new).
Proof.
  intros Hrv Hn Hg Hnext. unfold tracker_update.
  rewrite Hrv, Hn, Hnext, gone_SetResourceVersion, Hg.
  rewrite (bool_decide_false (_ ≠ GetResourceVersion old)) by (case_bool_decide; congruence).
  rewrite (bool_decide_false (_ ≠ GetDeletionTimestamp old)) by naive_solver.
  cbn. by rewrite key_of_SetResourceVersion.
Qed.

End fake_lemmas.

(** ** The rules of the fake client *)

Section fake_rules.
Context {K : Type -> Type} `{!Object K, !ObjectLaws K} (now : Z).
Implicit Types (st : Store K) (w : World (Store K)) (obj : K gomap) (v old new : K mapv).

Lemma wp_fake_Get key obj w Q :
  match cstate w !! store_key key with
  | None => Q (apierrors.NewNotFound Resource (types.NamespacedName.Name key), obj) w
  | Some v => forall o h', heap w ⊆ h' -> freeze h' o = v -> object_valid h' o ->
                           object_fresh (heap w) o -> Q (nil, o) (set_heap h' w)
  end ->
  wp (Get (Client := FakeClient now) key obj) w Q.
Proof.
  intros H. cbn. unfold fake_Get. apply wp_bind, wp_gets.
  destruct (cstate w !! store_key key) as [v|]; [|by apply wp_ret].
  apply wp_bind, wp_thaw. intros o h' ? ? ? ?. by apply wp_ret, H.
Qed.

Lemma fake_Create_run obj w :
  GetResourceVersion obj = "" -> gone obj = false -> cstate w !! key_of obj = None ->
  Create (Client := FakeClient now) obj w =
  Ok (nil, SetResourceVersion "1" obj)
     (set_cstate (<[key_of obj := SetResourceVersion "1" (freeze (heap w) obj)]> (cstate w)) w).
Proof.
  intros Hrv Hg Hk. cbn. unfold fake_Create. cbn.
  rewrite Hrv, Hg, Hk, key_of_SetResourceVersion, freeze_SetResourceVersion. done.
Qed.

Lemma fake_Delete_run obj w :
  Delete (Client := FakeClient now) obj w =
  Ok (store_delete now (cstate w) (key_of obj)).1
     (set_cstate (store_delete now (cstate w) (key_of obj)).2 w).
Proof.
  cbn. unfold fake_Delete, store_delete. cbn.
  destruct (cstate w !! key_of obj) as [old|]; [|by destruct w].
  by case_bool_decide.
Qed.

Lemma store_delete_absent st k :
  st !! k = None -> store_delete now st k = (apierrors.NewNotFound Resource k.2, st).
Proof. unfold store_delete. by intros ->. Qed.

Lemma store_delete_removes st k old :
  st !! k = Some old -> GetFinalizers old = [] -> store_delete now st k = (nil, delete k st).
Proof. unfold store_delete. by intros -> ->. Qed.

(** [Delete] of an object with a finalizer marks it and keeps it. *)
Lemma store_delete_marks st k old rv' :
  st !! k = Some old -> key_of old = k -> GetFinalizers old ≠ [] ->
  GetDeletionTimestamp old = None -> next_version (GetResourceVersion old) = Some rv' ->
  store_delete now st k =
  (nil, <[k := SetResourceVersion rv' (SetDeletionTimestamp (Some now) old)]> st).
Proof.
  intros Hk Hkey Hf Hd Hnext. unfold store_delete.
  rewrite Hk, Hd, (bool_decide_true (_ ≠ [])), (bool_decide_true (None = None)) by done.
  unfold tracker_update.
  rewrite GetResourceVersion_SetDeletionTimestamp, Hnext, gone_SetResourceVersion.
  rewrite (bool_decide_false (_ ≠ GetResourceVersion old)) by (case_bool_decide; congruence).
  unfold gone. rewrite GetFinalizers_SetDeletionTimestamp, (bool_decide_false (_ = [])) by done.
  rewrite andb_false_r. cbn.
  by rewrite key_of_SetResourceVersion, key_of_SetDeletionTimestamp, Hkey.
Qed.

Lemma wp_fake_Patch obj before old w Q :
  cstate w !! key_of obj = Some old ->
  let r := tracker_update (cstate w) old (opatch old before (freeze (heap w) obj)) false in
  match r.1.1 with
  | Some e => Q (Some e, obj) w
  | None => forall o h', heap w ⊆ h' -> freeze h' o = r.2 -> object_valid h' o ->
                         object_fresh (heap w) o -> Q (nil, o) (mkWorld h' r.1.2)
  end ->
  wp (Patch (Client := FakeClient now) obj before) w Q.
Proof.
  intros Hk r H. cbn. unfold fake_Patch.
  apply wp_bind, wp_gets, wp_bind, wp_gets. rewrite Hk. fold r.
  destruct r.1.1; [by apply wp_ret|].
  apply wp_bind, wp_modify, wp_bind, wp_thaw. intros o h' ? ? ? ?. by apply wp_ret, H.
Qed.

Lemma fake_Get_absent key obj w :
  cstate w !! store_key key = None ->
  Get (Client := FakeClient now) key obj w =
  Ok (apierrors.NewNotFound Resource (types.NamespacedName.Name key), obj) w.
Proof. intros H. cbn. unfold fake_Get. cbn. by rewrite H. Qed.

Lemma fake_Update_absent obj w :
  cstate w !! key_of obj = None ->
  Update (Client := FakeClient now) obj w = Ok (apierrors.NewNotFound Resource (GetName obj), obj) w.
Proof. intros H. cbn. unfold fake_Update. cbn. by rewrite H. Qed.

Lemma fake_Update_run obj old w :
  cstate w !! key_of obj = Some old ->
  let r := tracker_update (cstate w) old (freeze (heap w) obj) false in
  Update (Client := FakeClient now) obj w =
  match r.1.1 with
  | Some e => Ok (Some e, obj) w
  | None => Ok (nil, SetResourceVersion (GetResourceVersion r.2) obj) (set_cstate r.1.2 w)
  end.
Proof.
  intros H r. cbn. unfold fake_Update. cbn. rewrite H. fold r. by destruct r.1.1.
Qed.

Lemma fake_StatusUpdate_run obj old w :
  cstate w !! key_of obj = Some old ->
  let r := tracker_update (cstate w) old (ostatus (freeze (heap w) obj) old) false in
  StatusUpdate (Client := FakeClient now) obj w =
  match r.1.1 with
  | Some e => Ok (Some e, obj) w
  | None => Ok (nil, SetResourceVersion (GetResourceVersion r.2) obj) (set_cstate r.1.2 w)
  end.
Proof.
  intros H r. cbn. unfold fake_StatusUpdate. cbn. rewrite H. fold r. by destruct r.1.1.
Qed.

(** A write that leaves an object with a deletion timestamp and no
    finalizer removes it. *)
Lemma tracker_update_gone st old new rv' :
  GetResourceVersion new = GetResourceVersion old ->
  GetDeletionTimestamp new = GetDeletionTimestamp old -> gone new = true ->
  next_version (GetResourceVersion old) = Some rv' ->
  tracker_update st old new false =
  (nil, delete (key_of new) st, SetResourceVersion rv' new).
Proof.
  intros Hrv Hn Hg Hnext. unfold tracker_update.
  rewrite Hrv, Hn, Hnext, gone_SetResourceVersion, Hg.
  rewrite (bool_decide_false (_ ≠ GetResourceVersion old)) by (case_bool_decide; congruence).
  rewrite (bool_decide_false (_ ≠ GetDeletionTimestamp old)) by naive_solver.
  cbn. by rewrite key_of_SetResourceVersion.
Qed.

Lemma wp_thaw_all {C} (vs : list (K mapv)) (w : World C) (Q : list (K gomap) -> World C -> Prop) :
  (forall (os : list (K gomap)) h', heap w ⊆ h' -> fmap (M := list) (freeze h') os = vs ->
                 Forall (object_valid h') os -> Q os (set_heap h' w)) ->
  wp (thaw_all vs) w Q.
Proof.
  revert w Q. induction vs as [|v vs IH]; intros w Q H; cbn.
  - apply wp_ret. rewrite <- (set_heap_id w). by apply H.
  - apply wp_bind, wp_thaw. intros o h1 Hsub1 Hf1 Hv1 _.
    apply wp_bind, IH. intros os h2 Hsub2 Hf2 Hv2. apply wp_ret.
    cbn in *. rewrite set_heap_set_heap. apply H; [by etrans| |].
    + cbn. by rewrite Hf2, (freeze_subseteq Hsub2), Hf1.
    + constructor; [by eapply object_valid_subseteq|done].
Qed.

Lemma wp_fake_List sel w Q :
  (forall (os : list (K gomap)) h', heap w ⊆ h' ->
                 fmap (M := list) (freeze h') os = selected sel (cstate w) ->
                 Forall (object_valid h') os -> Q (nil, os) (set_heap h' w)) ->
  wp (List (Lister := FakeLister) sel) w Q.
Proof.
  intros H. cbn. unfold fake_List. apply wp_bind, wp_gets, wp_bind, wp_thaw_all.
  intros os h' ? ? ?. by apply wp_ret, H.
Qed.

Lemma wp_zoom_fake_List {S} (l : Lens S (Store K)) `{!LensLaws l} sel (w : World S) Q :
  (forall (os : list (K gomap)) h', heap w ⊆ h' ->
                 fmap (M := list) (freeze h') os = selected sel (view l (cstate w)) ->
                 Forall (object_valid h') os -> Q (nil, os) (set_heap h' w)) ->
  wp (List (Lister := zoom_Lister l FakeLister) sel) w Q.
Proof.
  intros H. cbn. apply wp_zoom, wp_fake_List. intros os h' Hsub Hf Hv.
  rewrite unfocus_set_heap by done. by apply H.
Qed.

Lemma store_key_inj (k k' : types.NamespacedName.t) : store_key k = store_key k' -> k = k'.
Proof. destruct k, k'. by intros [= -> ->]. Qed.

End fake_rules.

(** * Theorems *)

Section fake_invariant.
Context {K : Type -> Type} `{!Object K, !ObjectLaws K} (now : Z).
Implicit Types (st : Store K) (w : World (Store K)) (obj : K gomap).

Lemma store_delete_wf st k : store_wf st -> store_wf (store_delete now st k).2.
Proof.
  intros Hwf. unfold store_delete. repeat case_match; cbn [snd];
    auto using store_wf_delete, tracker_update_wf.
Qed.

Lemma fake_Create_wf obj w :
  store_wf (cstate w) ->
  wp (Create (Client := FakeClient now) obj) w (fun _ w' => store_wf (cstate w')).
Proof.
  intros Hwf. cbn. unfold fake_Create.
  apply wp_bind, wp_gets, wp_bind, wp_gets.
  case_bool_decide; [by apply wp_ret|].
  destruct (gone obj) eqn:Hg; [by apply wp_ret|].
  destruct (cstate w !! key_of obj); [by apply wp_ret|].
  apply wp_bind, wp_modify, wp_ret. cbn [cstate set_cstate].
  rewrite <- (key_of_freeze (heap w)). apply store_wf_insert; [|done].
  by rewrite gone_freeze, gone_SetResourceVersion.
Qed.

Lemma fake_Patch_wf obj before w :
  store_wf (cstate w) ->
  wp (Patch (Client := FakeClient now) obj before) w (fun _ w' => store_wf (cstate w')).
Proof.
  intros Hwf. cbn. unfold fake_Patch.
  apply wp_bind, wp_gets, wp_bind, wp_gets.
  destruct (cstate w !! key_of obj) as [old|]; [|by apply wp_ret].
  destruct (tracker_update _ _ _ _).1.1 eqn:E; [by apply wp_ret|].
  apply wp_bind, wp_modify, wp_bind, wp_thaw. intros o h' _ _ _ _. apply wp_ret.
  by apply tracker_update_wf.
Qed.

Lemma fake_Update_wf obj w :
  store_wf (cstate w) ->
  wp (Update (Client := FakeClient now) obj) w (fun _ w' => store_wf (cstate w')).
Proof.
  intros Hwf. cbn. unfold fake_Update.
  apply wp_bind, wp_gets, wp_bind, wp_gets.
  destruct (cstate w !! key_of obj) as [old|]; [|by apply wp_ret].
  destruct (tracker_update _ _ _ _).1.1 eqn:E; [by apply wp_ret|].
  apply wp_bind, wp_modify, wp_ret. by apply tracker_update_wf.
Qed.

Lemma fake_StatusUpdate_wf obj w :
  store_wf (cstate w) ->
  wp (StatusUpdate (Client := FakeClient now) obj) w (fun _ w' => store_wf (cstate w')).
Proof.
  intros Hwf. cbn. unfold fake_StatusUpdate.
  apply wp_bind, wp_gets, wp_bind, wp_gets.
  destruct (cstate w !! key_of obj) as [old|]; [|by apply wp_ret].
  destruct (tracker_update _ _ _ _).1.1 eqn:E; [by apply wp_ret|].
  apply wp_bind, wp_modify, wp_ret. by apply tracker_update_wf.
Qed.

(** The store's invariant: every operation of the client keeps every
    object under its own namespace and name, and keeps no object that has
    a deletion timestamp and no finalizer. *)
Theorem FakeClient_preserves_store_wf w :
  store_wf (cstate w) ->
  let ok := fun (w' : World (Store K)) => store_wf (cstate w') in
  (forall key obj, wp (Get (Client := FakeClient now) key obj) w (fun _ => ok)) /\
  (forall obj, wp (Create (Client := FakeClient now) obj) w (fun _ => ok)) /\
  (forall obj, wp (Delete (Client := FakeClient now) obj) w (fun _ => ok)) /\
  (forall obj before, wp (Patch (Client := FakeClient now) obj before) w (fun _ => ok)) /\
  (forall obj, wp (Update (Client := FakeClient now) obj) w (fun _ => ok)) /\
  (forall obj, wp (StatusUpdate (Client := FakeClient now) obj) w (fun _ => ok)).
Proof.
  intros Hwf ok. repeat split; intros.
  - apply wp_fake_Get. destruct (_ !! _); [|done]. by intros.
  - by apply fake_Create_wf.
  - eapply wp_Ok; [apply fake_Delete_run|]. by apply store_delete_wf.
  - by apply fake_Patch_wf.
  - by apply fake_Update_wf.
  - by apply fake_StatusUpdate_wf.
Qed.

End fake_invariant.
