(* ===== verification/ControllerUtil.v ===== *)
(** * controller-runtime's [controllerutil]

    [SetControllerReference] (with [validateOwner], [GetControllerOf],
    [referSameObject] and [upsertOwnerRef], which it calls) and
    [CreateOrPatch] (with [mutate]), as the Module reconciler calls them.
    The mutate function of Go, a closure that updates the object in place,
    takes the object and returns it. *)

From Stdlib Require Import Ascii String ZArith.
From stdpp Require Import base tactics option list gmap strings.
From S2P Require Import Prelude GoRuntime ApiTypes Client.

#[local] Open Scope go_scope.

Module schema_util.

(** The text before the first slash of [s], and the text after it if
    there is a slash. *)
Fixpoint cut_slash (s : string) : string * option string :=
  match s with
  | EmptyString => (EmptyString, None)
  | String c rest =>
      if bool_decide (c = "/"%char) then (EmptyString, Some rest)
      else let (a, b) := cut_slash rest in (String c a, b)
  end.

(** [schema.ParseGroupVersion]: the group of ["group/version"], the empty
    group of ["version"]; more than one slash is an error. *)
Definition ParseGroup (apiVersion : string) : option string :=
  match cut_slash apiVersion with
  | (_, None) => Some EmptyString
  | (g, Some v) =>
      match cut_slash v with
      | (_, None) => Some g
      | (_, Some _) => None
      end
  end.

(** [gvk.GroupVersion().String()]. *)
Definition GroupVersionString (gvk : schema.GroupVersionKind.t) : string :=
  if bool_decide (schema.GroupVersionKind.Group gvk = "")
  then schema.GroupVersionKind.Version gvk
  else schema.GroupVersionKind.Group gvk +:+ "/" +:+ schema.GroupVersionKind.Version gvk.

End schema_util.

Module controllerutil.

Inductive OperationResult : Type :=
| OperationResultNone
| OperationResultCreated
| OperationResultUpdated.

(** [metav1.GetControllerOf]: the first owner reference that is a
    controller's. *)
Definition GetControllerOf (refs : list metav1.OwnerReference.t) :
  option metav1.OwnerReference.t :=
  List.find (fun r => bool_decide (metav1.OwnerReference.Controller r = Some true)) refs.

Definition referSameObject (a b : metav1.OwnerReference.t) : bool :=
  match schema_util.ParseGroup (metav1.OwnerReference.APIVersion a),
        schema_util.ParseGroup (metav1.OwnerReference.APIVersion b) with
  | Some ga, Some gb =>
      bool_decide (ga = gb)
      && bool_decide (metav1.OwnerReference.Kind a = metav1.OwnerReference.Kind b)
      && bool_decide (metav1.OwnerReference.Name a = metav1.OwnerReference.Name b)
  | _, _ => false
  end.

(** [upsertOwnerRef]: replace the first reference to the same object, or
    append. *)
Fixpoint upsertOwnerRef (ref : metav1.OwnerReference.t)
  (owners : list metav1.OwnerReference.t) : list metav1.OwnerReference.t :=
  match owners with
  | [] => [ref]
  | r :: rest => if referSameObject r ref then ref :: rest else r :: upsertOwnerRef ref rest
  end.

Section refs.
Context {KO KC : Type -> Type} `{!Object KO, !Object KC} {MO MC : Type}.

Definition validateOwner (owner : KO MO) (object : KC MC) : error :=
  let ownerNs := GetNamespace owner in
  if bool_decide (ownerNs ≠ "") then
    let objNs := GetNamespace object in
    if bool_decide (objNs = "") then
      errors.New ("cluster-scoped resource must not have a namespace-scoped owner, owner's namespace "
                  +:+ ownerNs)
    else if bool_decide (ownerNs ≠ objNs) then
      errors.New ("cross-namespace owner references are disallowed, owner's namespace "
                  +:+ ownerNs +:+ ", obj's namespace " +:+ objNs)
    else nil
  else nil.

(** [apiutil.GVKForObject]. *)
Definition GVKForObject (owner : KO MO) (scheme : Scheme) :
  option schema.GroupVersionKind.t :=
  scheme !! TypeName (K := KO).

Definition validateControllerRef (ref : metav1.OwnerReference.t) (controlled : KC MC) : error :=
  match GetControllerOf (GetOwnerReferences controlled) with
  | Some existing =>
      if negb (referSameObject existing ref) then
        errors.New ("Object " +:+ GetNamespace controlled +:+ "/" +:+ GetName controlled
                    +:+ " is already owned by another "
                    +:+ metav1.OwnerReference.Kind existing +:+ " controller "
                    +:+ metav1.OwnerReference.Name existing)
      else nil
  | None => nil
  end.

Definition SetControllerReference (owner : KO MO) (controlled : KC MC) (scheme : Scheme) :
  error * KC MC :=
  match validateOwner owner controlled with
  | Some e => (Some e, controlled)
  | None =>
      match GVKForObject owner scheme with
      | None =>
          (errors.New ("no kind is registered for the type " +:+ TypeName (K := KO)
                       +:+ " in scheme"), controlled)
      | Some gvk =>
          let ref := metav1.OwnerReference.mk
                       (schema_util.GroupVersionString gvk)
                       (schema.GroupVersionKind.Kind gvk)
                       (GetName owner) (GetUID owner) (Some true) (Some true) in
          match validateControllerRef ref controlled with
          | Some e => (Some e, controlled)
          | None =>
              (nil, SetOwnerReferences
                      (upsertOwnerRef ref (GetOwnerReferences controlled)) controlled)
          end
      end
  end.

End refs.

Section create_or_patch.
Context {K : Type -> Type} `{!Object K} `{!EqDecision (K mapv)} {C : Type}.

Definition MutateFn : Type := K gomap -> Go (World C) (error * K gomap).

Definition mutate (f : MutateFn) (key : types.NamespacedName.t) (obj : K gomap) :
  Go (World C) (error * K gomap) :=
  r <- f obj;;
  match r.1 with
  | Some e => ret (Some e, r.2)
  | None =>
      if bool_decide (key ≠ ObjectKeyFromObject r.2)
      then ret (errors.New "MutateFn cannot mutate object name and/or object namespace", r.2)
      else ret (nil, r.2)
  end.

Definition CreateOrPatch (c : Client K C) (obj : K gomap) (f : MutateFn) :
  Go (World C) (OperationResult * error * K gomap) :=
  let key := ObjectKeyFromObject obj in
  g <- Get key obj;;
  match g.1 with
  | Some e =>
      if negb (apierrors.IsNotFound (Some e)) then ret (OperationResultNone, Some e, g.2)
      else
        m <- mutate f key g.2;;
        match m.1 with
        | Some e => ret (OperationResultNone, Some e, m.2)
        | None =>
            cr <- Create m.2;;
            match cr.1 with
            | Some e => ret (OperationResultNone, Some e, cr.2)
            | None => ret (OperationResultCreated, nil, cr.2)
            end
        end
  | None =>
      before <- gets (fun w => freeze (heap w) g.2);;
      m <- mutate f key g.2;;
      match m.1 with
      | Some e => ret (OperationResultNone, Some e, m.2)
      | None =>
          after <- gets (fun w => freeze (heap w) m.2);;
          if bool_decide (before ≠ after) then
            p <- Patch m.2 before;;
            match p.1 with
            | Some e => ret (OperationResultNone, Some e, p.2)
            | None => ret (OperationResultUpdated, nil, p.2)
            end
          else ret (OperationResultNone, nil, m.2)
      end
  end.

End create_or_patch.

(** [for _, e := range f { if e == finalizer { return true } }]. *)
Fixpoint contains (f : list string) (finalizer : string) : bool :=
  match f with
  | [] => false
  | e :: f => if bool_decide (e = finalizer) then true else contains f finalizer
  end.

(** The loop of [RemoveFinalizer], which compacts the slice in place:
    from [i], every element that is not [finalizer] is copied down to
    [index]; [n] elements are left to look at. *)
Fixpoint compact (finalizer : string) (n i index : nat) (f : list string) :
  list string * nat :=
  match n with
  | 0 => (f, index)
  | S n =>
      match f !! i with
      | Some e =>
          if bool_decide (e = finalizer) then compact finalizer n (S i) index f
          else compact finalizer n (S i) (S index) (<[index := e]> f)
      | None => (f, index)
      end
  end.

Section finalizer.
Context {K : Type -> Type} `{!Object K} {M : Type}.

Definition ContainsFinalizer (o : K M) (finalizer : string) : bool :=
  contains (GetFinalizers o) finalizer.

(** [AddFinalizer]: appends the finalizer unless the object has it;
    returns whether the finalizers have changed. *)
Definition AddFinalizer (o : K M) (finalizer : string) : bool * K M :=
  let f := GetFinalizers o in
  if contains f finalizer then (false, o)
  else (true, SetFinalizers (f ++ [finalizer]) o).

(** [RemoveFinalizer]: removes every occurrence of the finalizer. *)
Definition RemoveFinalizer (o : K M) (finalizer : string) : bool * K M :=
  let f := GetFinalizers o in
  let r := compact finalizer (length f) 0 0 f in
  (bool_decide (length f ≠ r.2), SetFinalizers (take r.2 r.1) o).

End finalizer.

End controllerutil.

(** ** Owner references, as [SetControllerReference] leaves them *)

Section owner.
Import controllerutil.
Context {KO : Type -> Type} `{!Object KO}.

(** The reference [SetControllerReference] sets for [owner]. *)
Definition ownerRef {MO} (gvk : schema.GroupVersionKind.t) (owner : KO MO) :
  metav1.OwnerReference.t :=
  metav1.OwnerReference.mk (schema_util.GroupVersionString gvk)
    (schema.GroupVersionKind.Kind gvk) (GetName owner) (GetUID owner) (Some true) (Some true).

(** Two values of an object with the same namespace, name and UID. *)
Definition same_identity {MO MO'} (a : KO MO) (b : KO MO') : Prop :=
  GetNamespace a = GetNamespace b /\ GetName a = GetName b /\ GetUID a = GetUID b.

(** The references [validateControllerRef] lets [ref] be set on: those
    without a controller, or whose controller [ref] refers to. *)
Definition controllable (ref : metav1.OwnerReference.t)
  (refs : list metav1.OwnerReference.t) : bool :=
  match GetControllerOf refs with
  | Some existing => referSameObject existing ref
  | None => true
  end.

(** Every kind of the scheme has an API version [schema.ParseGroupVersion]
    accepts. *)
Definition scheme_wf (sch : Scheme) : Prop :=
  map_Forall (fun _ gvk => is_Some (schema_util.ParseGroup (schema_util.GroupVersionString gvk)))
             sch.

End owner.

(** ** What [CreateOrPatch] asks of the client *)

Section calls.
Import controllerutil.
Context {K : Type -> Type} `{!Object K}.

(** A mutate function that makes no client call. *)
Definition silent {C} (f : MutateFn (K := K) (C := C)) : Prop :=
  forall (obj : K gomap) (st : World C), wp (f obj) st (fun _ st' => cstate st' = cstate st).

(** The calls [CreateOrPatch] may make, by what it returns. *)
Definition CreateOrPatch_calls (res : OperationResult * error * K gomap)
  (verbs : list Verb) : Prop :=
  match res.1.1, res.1.2 with
  | OperationResultNone, None => verbs = [VGet]
  | OperationResultCreated, None => verbs = [VGet; VCreate]
  | OperationResultUpdated, None => verbs = [VGet; VPatch]
  | OperationResultNone, Some _ => verbs ∈ [[VGet]; [VGet; VCreate]; [VGet; VPatch]]
  | _, Some _ => False
  end.

End calls.

(** ** Lemmas on owner references *)

Section upsert.
Import controllerutil.

Lemma upsertOwnerRef_In ref owners : ref ∈ upsertOwnerRef ref owners.
Proof.
  induction owners as [|r rest IH]; cbn; [set_solver|].
  destruct (referSameObject r ref); set_solver.
Qed.

Lemma upsertOwnerRef_length ref owners :
  length owners <= length (upsertOwnerRef ref owners) <= S (length owners).
Proof.
  induction owners as [|r rest IH]; cbn; [lia|].
  destruct (referSameObject r ref); cbn; lia.
Qed.

Lemma referSameObject_refl ref :
  is_Some (schema_util.ParseGroup (metav1.OwnerReference.APIVersion ref)) ->
  referSameObject ref ref = true.
Proof.
  intros [g Hg]. unfold referSameObject. rewrite Hg.
  by rewrite !bool_decide_true.
Qed.

(** Setting the same reference again changes nothing. *)
Lemma upsertOwnerRef_idem ref owners :
  is_Some (schema_util.ParseGroup (metav1.OwnerReference.APIVersion ref)) ->
  upsertOwnerRef ref (upsertOwnerRef ref owners) = upsertOwnerRef ref owners.
Proof.
  intros Hg. induction owners as [|r rest IH]; cbn.
  - by rewrite referSameObject_refl.
  - destruct (referSameObject r ref) eqn:E; cbn.
    + by rewrite referSameObject_refl.
    + by rewrite E, IH.
Qed.

(** After [upsertOwnerRef] of a controller reference on references it may
    be set on, the controller is that reference. *)
Lemma GetControllerOf_upsertOwnerRef ref refs :
  metav1.OwnerReference.Controller ref = Some true ->
  controllable ref refs = true ->
  GetControllerOf (upsertOwnerRef ref refs) = Some ref.
Proof.
  intros Hc. unfold controllable, GetControllerOf.
  induction refs as [|r rest IH]; cbn.
  - by rewrite Hc.
  - destruct (referSameObject r ref) eqn:E; cbn.
    + by rewrite Hc.
    + case_bool_decide; cbn; [congruence|done].
Qed.

Lemma controllable_upsertOwnerRef ref refs :
  metav1.OwnerReference.Controller ref = Some true ->
  is_Some (schema_util.ParseGroup (metav1.OwnerReference.APIVersion ref)) ->
  controllable ref refs = true ->
  controllable ref (upsertOwnerRef ref refs) = true.
Proof.
  intros Hc Hg Hr. unfold controllable.
  rewrite (GetControllerOf_upsertOwnerRef ref refs Hc Hr). by apply referSameObject_refl.
Qed.

End upsert.

(** ** Lemmas on [SetControllerReference] *)

Section refs_lemmas.
Import controllerutil.
Context {KO KC : Type -> Type} `{!Object KO, !Object KC, !ObjectLaws KO, !ObjectLaws KC}.

Lemma same_identity_omap {M N} (f : M -> N) (o : KO M) : same_identity (omap f o) o.
Proof. unfold same_identity. by rewrite GetNamespace_omap, GetName_omap, GetUID_omap. Qed.

Lemma validateControllerRef_nil {MC} ref (m : KC MC) :
  validateControllerRef ref m = nil <-> controllable ref (GetOwnerReferences m) = true.
Proof.
  unfold validateControllerRef, controllable.
  destruct (GetControllerOf _); [|done]. by destruct (referSameObject _ _).
Qed.

(** [SetControllerReference] reads the owner's identity only, and commutes
    with a change of the representation of the object's maps. *)
Lemma SetControllerReference_omap {MO MO' MC MC'} (f : MC -> MC')
  (owner : KO MO) (owner' : KO MO') (m : KC MC) sch :
  same_identity owner' owner ->
  SetControllerReference owner' (omap f m) sch =
  ((SetControllerReference owner m sch).1, omap f (SetControllerReference owner m sch).2).
Proof.
  intros (Hns & Hn & Hu).
  unfold SetControllerReference, validateOwner, validateControllerRef, GVKForObject.
  rewrite Hns, Hn, Hu, GetNamespace_omap, GetName_omap, GetOwnerReferences_omap.
  repeat case_match; simplify_eq; cbn; try done.
  all: by rewrite omap_SetOwnerReferences.
Qed.

(** What a successful [SetControllerReference] leaves. *)
Lemma SetControllerReference_nil {MO MC} (owner : KO MO) (m m' : KC MC) sch :
  SetControllerReference owner m sch = (nil, m') ->
  exists gvk, sch !! TypeName (K := KO) = Some gvk /\
    validateOwner owner m = nil /\
    controllable (ownerRef gvk owner) (GetOwnerReferences m) = true /\
    m' = SetOwnerReferences (upsertOwnerRef (ownerRef gvk owner) (GetOwnerReferences m)) m.
Proof.
  unfold SetControllerReference, GVKForObject. intros H.
  repeat case_match; simplify_eq. eexists. by rewrite <- validateControllerRef_nil.
Qed.

(** [SetControllerReference] changes the owner references only. *)
Lemma SetControllerReference_refs {MO MC} (owner : KO MO) (m : KC MC) sch :
  exists refs, (SetControllerReference owner m sch).2 = SetOwnerReferences refs m.
Proof.
  unfold SetControllerReference. repeat case_match; cbn; eauto;
    exists (GetOwnerReferences m); by rewrite SetOwnerReferences_GetOwnerReferences.
Qed.

(** After a successful [SetControllerReference] the owner is the
    object's controller. *)
Lemma SetControllerReference_controller {MO MC} (owner : KO MO) (m m' : KC MC) sch :
  SetControllerReference owner m sch = (nil, m') ->
  exists gvk, sch !! TypeName (K := KO) = Some gvk /\
    GetControllerOf (GetOwnerReferences m') = Some (ownerRef gvk owner).
Proof.
  intros (gvk & Hgvk & _ & Hc & ->)%SetControllerReference_nil. exists gvk. split; [done|].
  rewrite GetOwnerReferences_SetOwnerReferences. by apply GetControllerOf_upsertOwnerRef.
Qed.

(** A failed [SetControllerReference] leaves the object as it is. *)
Lemma SetControllerReference_err {MO MC} (owner : KO MO) (m : KC MC) sch e :
  (SetControllerReference owner m sch).1 = Some e -> (SetControllerReference owner m sch).2 = m.
Proof. unfold SetControllerReference. by repeat case_match. Qed.

Lemma validateOwner_SetOwnerReferences {MO MC} (owner : KO MO) (m : KC MC) refs :
  validateOwner owner (SetOwnerReferences refs m) = validateOwner owner m.
Proof.
  unfold validateOwner, GetNamespace, SetOwnerReferences.
  by rewrite GetObjectMeta_SetObjectMeta.
Qed.

(** [SetControllerReference] does not read the resource version. *)
Lemma SetControllerReference_SetResourceVersion {MO MC} (owner : KO MO) (m : KC MC) sch rv :
  SetControllerReference owner (SetResourceVersion rv m) sch =
  ((SetControllerReference owner m sch).1,
   SetResourceVersion rv (SetControllerReference owner m sch).2).
Proof.
  unfold SetControllerReference, validateOwner, validateControllerRef, GVKForObject.
  rewrite GetNamespace_SetResourceVersion, GetName_SetResourceVersion,
    GetOwnerReferences_SetResourceVersion.
  repeat case_match; simplify_eq; cbn; try done.
  all: by rewrite SetOwnerReferences_SetResourceVersion.
Qed.

(** [SetControllerReference] reads the owner's identity only. *)
Lemma SetControllerReference_owner {MO MO' MC} (owner : KO MO) (owner' : KO MO')
  (m : KC MC) sch :
  same_identity owner' owner ->
  SetControllerReference owner' m sch = SetControllerReference owner m sch.
Proof.
  intros (Hns & Hn & Hu).
  unfold SetControllerReference, validateOwner, GVKForObject. by rewrite Hns, Hn, Hu.
Qed.

(** Setting the controller reference again changes nothing. *)
Lemma SetControllerReference_idem {MO MC} (owner : KO MO) (m m' : KC MC) sch :
  scheme_wf sch ->
  SetControllerReference owner m sch = (nil, m') ->
  SetControllerReference owner m' sch = (nil, m').
Proof.
  intros Hwf (gvk & Hgvk & Hvo & Hc & ->)%SetControllerReference_nil.
  pose proof (Hwf _ _ Hgvk) as Hg. cbn in Hg.
  unfold SetControllerReference, GVKForObject.
  rewrite validateOwner_SetOwnerReferences, Hvo, Hgvk.
  fold (ownerRef gvk owner).
  rewrite (proj2 (validateControllerRef_nil _ _)).
  - by rewrite GetOwnerReferences_SetOwnerReferences, upsertOwnerRef_idem,
      SetOwnerReferences_SetOwnerReferences.
  - rewrite GetOwnerReferences_SetOwnerReferences. by apply controllable_upsertOwnerRef.
Qed.

End refs_lemmas.

(** ** [CreateOrPatch] on the oracle client *)

Section create_or_patch_oracle.
Import controllerutil.
Context {K : Type -> Type} `{!Object K, !ObjectLaws K, !EqDecision (K mapv)}.
Implicit Types (o : Oracle K) (w : World (list (Call K))) (obj : K gomap).

Lemma wp_mutate_silent {C} (f : MutateFn (K := K) (C := C)) key obj (st : World C) :
  silent f -> wp (mutate f key obj) st (fun _ st' => cstate st' = cstate st).
Proof.
  intros Hf. unfold mutate. apply wp_bind. eapply wp_mono; [apply Hf|].
  intros r w' Hw'. cbn. destruct r.1; [by apply wp_ret|].
  case_bool_decide; by apply wp_ret.
Qed.

Lemma CreateOrPatch_oracle_calls o obj f w :
  silent f ->
  wp (CreateOrPatch (OracleClient o) obj f) w
     (fun res w' => exists calls,
        cstate w' = cstate w ++ calls /\ CreateOrPatch_calls res (verb <$> calls)).
Proof.
  intros Hf. unfold CreateOrPatch.
  apply wp_bind, wp_oracle_Get. intros g w1 (Hl1 & _ & _ & _).
  destruct g.1 as [e|].
  - destruct (apierrors.IsNotFound (Some e)); cbn.
    + apply wp_bind. eapply wp_mono; [by apply wp_mutate_silent|].
      intros m w2 Hl2. cbn. destruct m.1.
      * apply wp_ret. eexists [_]. rewrite Hl2, Hl1. split; [done|]. cbn. set_solver.
      * apply wp_bind, wp_oracle_Create. intros cr w3 (Hl3 & _ & _ & _).
        destruct cr.1; apply wp_ret; eexists [_; _];
          rewrite Hl3, Hl2, Hl1, <- app_assoc; (split; [done|]); cbn; set_solver.
    + eexists [_]. split; [done|]. cbn. set_solver.
  - apply wp_bind, wp_gets, wp_bind. eapply wp_mono; [by apply wp_mutate_silent|].
    intros m w2 Hl2. cbn. destruct m.1.
    + apply wp_ret. eexists [_]. rewrite Hl2, Hl1. split; [done|]. cbn. set_solver.
    + apply wp_bind, wp_gets. case_bool_decide.
      * apply wp_bind, wp_oracle_Patch. intros p w3 (Hl3 & _ & _ & _).
        destruct p.1; apply wp_ret; eexists [_; _];
          rewrite Hl3, Hl2, Hl1, <- app_assoc; (split; [done|]); cbn; set_solver.
      * apply wp_ret. eexists [_]. rewrite Hl2, Hl1. by split.
Qed.
End create_or_patch_oracle.

(** ** Finalizers *)

Section finalizer_lemmas.
Import controllerutil.

Lemma contains_spec f finalizer : contains f finalizer = bool_decide (finalizer ∈ f).
Proof.
  induction f as [|e f IH]; cbn; [done|]. rewrite IH.
  destruct (decide (e = finalizer)) as [->|Hne].
  - rewrite (bool_decide_true (_ = _)) by done. symmetry. apply bool_decide_eq_true. set_solver.
  - rewrite (bool_decide_false (_ = _)) by done. apply bool_decide_ext. set_solver.
Qed.

(** The invariant of the loop of [RemoveFinalizer]: below [index] the
    slice holds the elements kept so far, from [i] on it is untouched. *)
Lemma compact_spec finalizer n i index f0 f :
  i + n = length f0 -> length f = length f0 ->
  take index f = filter (.≠ finalizer) (take i f0) -> drop i f = drop i f0 -> index <= i ->
  let r := compact finalizer n i index f in
  take r.2 r.1 = filter (.≠ finalizer) f0 /\ length r.1 = length f0.
Proof.
  revert i index f. induction n as [|n IH]; intros i index f Hn Hlen Ht Hd Hi; cbn.
  - split; [|done]. rewrite Ht, take_ge; [done | lia].
  - assert (is_Some (f0 !! i)) as [e He] by (apply lookup_lt_is_Some; lia).
    assert (f !! i = Some e) as ->.
    { by rewrite <- (Nat.add_0_r i), <- lookup_drop, Hd, lookup_drop, Nat.add_0_r. }
    assert (drop (S i) f = drop (S i) f0) as Hd'
      by (replace (S i) with (i + 1) by lia; by rewrite <- !drop_drop, Hd).
    case_bool_decide as Hne; subst.
    + apply IH; [lia | done | | done | lia].
      rewrite (take_S_r _ _ _ He), filter_app, filter_cons, filter_nil.
      by rewrite decide_False, app_nil_r by naive_solver.
    + apply IH; [lia | by rewrite length_insert | | | lia].
      * rewrite (take_S_r _ _ _ He), filter_app, filter_cons, filter_nil, decide_True by done.
        rewrite (take_S_r _ _ e) by (apply list_lookup_insert_eq; lia).
        by rewrite take_insert_ge, Ht by lia.
      * by rewrite drop_insert_lt by lia.
Qed.

(** The loop computes the filter. *)
Lemma compact_filter finalizer f :
  let r := compact finalizer (length f) 0 0 f in
  take r.2 r.1 = filter (.≠ finalizer) f.
Proof. by apply compact_spec. Qed.

End finalizer_lemmas.

Section finalizer_object.
Import controllerutil.
Context {K : Type -> Type} `{!Object K, !ObjectLaws K} {M : Type}.
Implicit Types (o : K M) (finalizer : string).

Lemma ContainsFinalizer_spec o finalizer :
  ContainsFinalizer o finalizer = bool_decide (finalizer ∈ GetFinalizers o).
Proof. apply contains_spec. Qed.

(** [RemoveFinalizer] against its reference definition. *)
Lemma RemoveFinalizer_filter o finalizer :
  (RemoveFinalizer o finalizer).2 = SetFinalizers (filter (.≠ finalizer) (GetFinalizers o)) o.
Proof. unfold RemoveFinalizer. cbn. by rewrite compact_filter. Qed.

Lemma AddFinalizer_contains o finalizer :
  ContainsFinalizer (AddFinalizer o finalizer).2 finalizer = true.
Proof.
  rewrite ContainsFinalizer_spec. apply bool_decide_eq_true.
  unfold AddFinalizer. rewrite contains_spec. case_bool_decide; cbn; [done|].
  rewrite GetFinalizers_SetFinalizers. set_solver.
Qed.

Lemma RemoveFinalizer_contains o finalizer :
  ContainsFinalizer (RemoveFinalizer o finalizer).2 finalizer = false.
Proof.
  rewrite ContainsFinalizer_spec, RemoveFinalizer_filter, GetFinalizers_SetFinalizers.
  apply bool_decide_eq_false. rewrite list_elem_of_filter. naive_solver.
Qed.

(** Adding is idempotent. *)
Lemma AddFinalizer_idem o finalizer :
  AddFinalizer (AddFinalizer o finalizer).2 finalizer = (false, (AddFinalizer o finalizer).2).
Proof.
  pose proof (AddFinalizer_contains o finalizer) as H.
  unfold ContainsFinalizer in H. unfold AddFinalizer at 1. by rewrite H.
Qed.

(** Finalizer idempotence (I3): a finalizer that occurs at most once
    still does after [AddFinalizer]. *)
Lemma AddFinalizer_at_most_once o finalizer :
  length (filter (.= finalizer) (GetFinalizers o)) <= 1 ->
  length (filter (.= finalizer) (GetFinalizers (AddFinalizer o finalizer).2)) <= 1.
Proof.
  intros H. unfold AddFinalizer. rewrite contains_spec. case_bool_decide as Hin; [done|].
  cbn. rewrite GetFinalizers_SetFinalizers, filter_app, length_app.
  rewrite (filter_none _ (GetFinalizers o)) by (apply Forall_forall; set_solver).
  cbn. case_decide; cbn; lia.
Qed.

(** Removing what was added gives the object back, when it did not have
    the finalizer. *)
Lemma RemoveFinalizer_AddFinalizer o finalizer :
  ContainsFinalizer o finalizer = false ->
  (RemoveFinalizer (AddFinalizer o finalizer).2 finalizer).2 = o.
Proof.
  intros H. rewrite RemoveFinalizer_filter. unfold AddFinalizer.
  unfold ContainsFinalizer in H. rewrite H. cbn.
  rewrite GetFinalizers_SetFinalizers, SetFinalizers_SetFinalizers, filter_app.
  rewrite contains_spec in H. apply bool_decide_eq_false in H.
  rewrite filter_cons, decide_False, filter_nil, app_nil_r by naive_solver.
  rewrite filter_all; [apply SetFinalizers_GetFinalizers|].
  apply Forall_forall. set_solver.
Qed.

End finalizer_object.
