(* ===== verification/Finalizers.v ===== *)
(** * The finalizer manager: [internal/finalizers] (spec.md, section 4.8)

    The interface [Updater] as the tests of the controller mock it
    ([ContainsDeletionFinalizer], [AddDeletionFinalizer],
    [RemoveDeletionFinalizer]) and the updater over a client: add and
    remove change the finalizers of the DeviceConfig with
    [controllerutil.AddFinalizer] and [controllerutil.RemoveFinalizer] and
    issue one store update.  A write that loses against a concurrent
    writer returns the store's conflict error; the retry is the next tick,
    which reads the DeviceConfig again (spec.md, section 5).

    The specification gives the finalizer as a single well-known string
    without its text: it is the section variable [finalizer].  An
    operation that changes the DeviceConfig it is given returns it. *)

From Stdlib Require Import String ZArith.
From stdpp Require Import base tactics option list gmap strings.
From S2P Require Import Prelude GoRuntime ApiTypes Client FakeClient ControllerUtil.

Import metav1 hlaiv1alpha1.

#[local] Open Scope go_scope.

(** ** Definitions *)

Module finalizers.

Class Updater (C : Type) : Type := {
  ContainsDeletionFinalizer : DeviceConfig.t gomap -> Go (World C) bool;
  AddDeletionFinalizer : DeviceConfig.t gomap -> Go (World C) (error * DeviceConfig.t gomap);
  RemoveDeletionFinalizer : DeviceConfig.t gomap -> Go (World C) (error * DeviceConfig.t gomap);
}.

Record updater (C : Type) : Type := mkUpdater {
  client : Client DeviceConfig.t C;
}.
Arguments mkUpdater {C} client.
Arguments client {C} _.

Definition NewUpdater {C} (c : Client DeviceConfig.t C) : updater C := mkUpdater c.

Section updater.
Context (finalizer : string) {C : Type}.

Definition updater__ContainsDeletionFinalizer (u : updater C) (dc : DeviceConfig.t gomap) :
  Go (World C) bool :=
  ret (controllerutil.ContainsFinalizer dc finalizer).

Definition updater__AddDeletionFinalizer (u : updater C) (dc : DeviceConfig.t gomap) :
  Go (World C) (error * DeviceConfig.t gomap) :=
  let dc := (controllerutil.AddFinalizer dc finalizer).2 in
  Update (Client := client u) dc.

Definition updater__RemoveDeletionFinalizer (u : updater C) (dc : DeviceConfig.t gomap) :
  Go (World C) (error * DeviceConfig.t gomap) :=
  let dc := (controllerutil.RemoveFinalizer dc finalizer).2 in
  Update (Client := client u) dc.

#[export] Instance updater_Updater (u : updater C) : Updater C := {
  ContainsDeletionFinalizer := updater__ContainsDeletionFinalizer u;
  AddDeletionFinalizer := updater__AddDeletionFinalizer u;
  RemoveDeletionFinalizer := updater__RemoveDeletionFinalizer u;
}.

End updater.

End finalizers.

(** The stored DeviceConfig with the finalizer added, and with it removed. *)
Definition finalized (finalizer : string) (dc : DeviceConfig.t mapv) : DeviceConfig.t mapv :=
  (controllerutil.AddFinalizer dc finalizer).2.

Definition released (finalizer : string) (dc : DeviceConfig.t mapv) : DeviceConfig.t mapv :=
  (controllerutil.RemoveFinalizer dc finalizer).2.

(** * Theorems *)

Section finalizer_store.
Import finalizers.
Context (finalizer : string) (now : Z).
Implicit Types (st : Store DeviceConfig.t) (w : World (Store DeviceConfig.t))
  (dc : DeviceConfig.t gomap) (old : DeviceConfig.t mapv).

Let u := NewUpdater (FakeClient now).

Lemma freeze_AddFinalizer h dc :
  freeze h (controllerutil.AddFinalizer dc finalizer).2 = finalized finalizer (freeze h dc).
Proof.
  unfold finalized, controllerutil.AddFinalizer. rewrite GetFinalizers_freeze.
  destruct (controllerutil.contains _ _); cbn [snd]; [done|]. by rewrite freeze_SetFinalizers.
Qed.

Lemma freeze_RemoveFinalizer h dc :
  freeze h (controllerutil.RemoveFinalizer dc finalizer).2 = released finalizer (freeze h dc).
Proof.
  unfold released. by rewrite !RemoveFinalizer_filter, freeze_SetFinalizers, GetFinalizers_freeze.
Qed.

Lemma key_of_AddFinalizer {M} (o : DeviceConfig.t M) :
  key_of (controllerutil.AddFinalizer o finalizer).2 = key_of o.
Proof.
  unfold controllerutil.AddFinalizer. destruct (controllerutil.contains _ _); cbn [snd]; [done|].
  apply (key_of_SetFinalizers (K := DeviceConfig.t)).
Qed.

Lemma key_of_RemoveFinalizer {M} (o : DeviceConfig.t M) :
  key_of (controllerutil.RemoveFinalizer o finalizer).2 = key_of o.
Proof. rewrite RemoveFinalizer_filter. apply (key_of_SetFinalizers (K := DeviceConfig.t)). Qed.

(** [AddDeletionFinalizer] on the store: one write of the DeviceConfig
    with the finalizer added. *)
Lemma AddDeletionFinalizer_fake dc old w :
  cstate w !! key_of dc = Some old ->
  let r := tracker_update (cstate w) old (finalized finalizer (freeze (heap w) dc)) false in
  updater__AddDeletionFinalizer finalizer u dc w =
  match r.1.1 with
  | Some e => Ok (Some e, (controllerutil.AddFinalizer dc finalizer).2) w
  | None => Ok (nil, SetResourceVersion (GetResourceVersion r.2)
                       (controllerutil.AddFinalizer dc finalizer).2)
               (set_cstate r.1.2 w)
  end.
Proof.
  intros Hk r. unfold updater__AddDeletionFinalizer. cbn [client u NewUpdater].
  rewrite (fake_Update_run now _ old) by by rewrite key_of_AddFinalizer.
  by rewrite freeze_AddFinalizer.
Qed.

(** [RemoveDeletionFinalizer] on the store: one write of the DeviceConfig
    without the finalizer. *)
Lemma RemoveDeletionFinalizer_fake dc old w :
  cstate w !! key_of dc = Some old ->
  let r := tracker_update (cstate w) old (released finalizer (freeze (heap w) dc)) false in
  updater__RemoveDeletionFinalizer finalizer u dc w =
  match r.1.1 with
  | Some e => Ok (Some e, (controllerutil.RemoveFinalizer dc finalizer).2) w
  | None => Ok (nil, SetResourceVersion (GetResourceVersion r.2)
                       (controllerutil.RemoveFinalizer dc finalizer).2)
               (set_cstate r.1.2 w)
  end.
Proof.
  intros Hk r. unfold updater__RemoveDeletionFinalizer. cbn [client u NewUpdater].
  rewrite (fake_Update_run now _ old) by by rewrite key_of_RemoveFinalizer.
  by rewrite freeze_RemoveFinalizer.
Qed.

(** Releasing the last finalizer of a DeviceConfig that is being deleted
    removes it from the store. *)
Theorem RemoveDeletionFinalizer_releases dc w rv' :
  cstate w !! key_of dc = Some (freeze (heap w) dc) ->
  GetDeletionTimestamp dc ≠ None ->
  Forall (.= finalizer) (GetFinalizers dc) ->
  next_version (GetResourceVersion dc) = Some rv' ->
  wp (updater__RemoveDeletionFinalizer finalizer u dc) w
     (fun r w' => r.1 = nil /\ cstate w' = delete (key_of dc) (cstate w) /\ heap w' = heap w).
Proof.
  intros Hk Hd Hf Hnext. unfold wp.
  rewrite (RemoveDeletionFinalizer_fake dc _ w Hk). cbv zeta. unfold released.
  rewrite RemoveFinalizer_filter, (tracker_update_gone _ _ _ rv'); cbn [fst snd].
  - by rewrite key_of_SetFinalizers, key_of_freeze.
  - by autorewrite with meta_rw.
  - by autorewrite with meta_rw.
  - unfold gone. autorewrite with meta_rw.
    rewrite filter_none, !bool_decide_true; [done..|].
    eapply Forall_impl; [exact Hf|]. naive_solver.
  - by rewrite GetResourceVersion_freeze.
Qed.

End finalizer_store.
