(* ===== verification/Conditions.v ===== *)
(** * The conditions manager: [internal/conditions] (spec.md, section 4.7)

    [meta.SetStatusCondition] and [meta.FindStatusCondition] of the API
    machinery, the interface [Updater] as the tests of the controller mock
    it ([SetConditionsReady], [SetConditionsErrored]), the reasons of
    section 6, and the updater over a client.

    The conditions are keyed by type.  A write sets the condition it is
    named after to true with the reason and message given, sets the other
    of the two to false, and keeps every other condition; the transition
    time of a condition changes only when its status does.  The write goes
    to the status sub-resource.  The specification does not give the
    reason of the condition that is set to false: the model uses the type
    of the one that is set to true and no message; it does not set the
    observed generation. *)

From Stdlib Require Import String ZArith.
From stdpp Require Import base tactics option list gmap strings.
From S2P Require Import Prelude GoRuntime ApiTypes Client FakeClient.

Import metav1 hlaiv1alpha1.

#[local] Open Scope go_scope.

(** ** Definitions *)

Module meta.

(** [FindStatusCondition]: the first condition of the type, with its
    index in the slice. *)
Fixpoint FindStatusCondition (conditions : list Condition.t) (conditionType : string) :
  option (nat * Condition.t) :=
  match conditions with
  | [] => None
  | c :: rest =>
      if bool_decide (Condition.Type_ c = conditionType) then Some (0, c)
      else prod_map S id <$> FindStatusCondition rest conditionType
  end.

(** [SetStatusCondition] at the time [now]: a condition of a new type is
    appended; an existing one takes the status, reason, message and
    observed generation, and a new transition time when the status
    changes. *)
Definition SetStatusCondition (now : Z) (conditions : list Condition.t)
  (newCondition : Condition.t) : list Condition.t :=
  let stamp := if bool_decide (Condition.LastTransitionTime newCondition = 0%Z) then now
               else Condition.LastTransitionTime newCondition in
  match FindStatusCondition conditions (Condition.Type_ newCondition) with
  | None =>
      conditions ++ [Condition.mk (Condition.Type_ newCondition) (Condition.Status newCondition)
                       (Condition.ObservedGeneration newCondition) stamp
                       (Condition.Reason newCondition) (Condition.Message newCondition)]
  | Some (i, existing) =>
      let time := if bool_decide (Condition.Status existing ≠ Condition.Status newCondition)
                  then stamp else Condition.LastTransitionTime existing in
      <[i := Condition.mk (Condition.Type_ existing) (Condition.Status newCondition)
               (Condition.ObservedGeneration newCondition) time
               (Condition.Reason newCondition) (Condition.Message newCondition)]> conditions
  end.

Definition IsStatusConditionTrue (conditions : list Condition.t) (conditionType : string) :
  bool :=
  match FindStatusCondition conditions conditionType with
  | Some (_, c) => bool_decide (Condition.Status c = "True")
  | None => false
  end.

End meta.

Module conditions.

Definition Ready : string := "Ready".
Definition Errored : string := "Errored".

Definition ReasonReconciled : string := "Reconciled".
Definition ReasonModuleFailed : string := "ModuleFailed".
Definition ReasonNodeLabelerFailed : string := "NodeLabelerFailed".
Definition ReasonNodeMetricsFailed : string := "NodeMetricsFailed".
Definition ReasonNodeSelectorConflictErrored : string := "NodeSelectorConflictErrored".

Class Updater (C : Type) : Type := {
  SetConditionsReady :
    DeviceConfig.t gomap -> string -> string -> Go (World C) (error * DeviceConfig.t gomap);
  SetConditionsErrored :
    DeviceConfig.t gomap -> string -> string -> Go (World C) (error * DeviceConfig.t gomap);
}.

Record updater (C : Type) : Type := mkUpdater {
  client : Client DeviceConfig.t C;
}.
Arguments mkUpdater {C} client.
Arguments client {C} _.

Definition NewUpdater {C} (c : Client DeviceConfig.t C) : updater C := mkUpdater c.

(** The conditions after a write that sets [on] to true and [off] to
    false. *)
Definition switch (now : Z) (on off reason message : string)
  (conds : list Condition.t) : list Condition.t :=
  let conds := meta.SetStatusCondition now conds
                 (Condition.mk on "True" 0 0 reason message) in
  meta.SetStatusCondition now conds (Condition.mk off "False" 0 0 on "").

Definition with_Conditions {M} (conds : list Condition.t) (dc : DeviceConfig.t M) :
  DeviceConfig.t M :=
  DeviceConfig.with_Status (DeviceConfigStatus.mk conds) dc.

Definition GetConditions {M} (dc : DeviceConfig.t M) : list Condition.t :=
  DeviceConfigStatus.Conditions (DeviceConfig.Status dc).

Section updater.
Context (now : Z) {C : Type}.

Definition updater__SetConditionsReady (u : updater C) (dc : DeviceConfig.t gomap)
  (reason message : string) : Go (World C) (error * DeviceConfig.t gomap) :=
  let dc := with_Conditions (switch now Ready Errored reason message (GetConditions dc)) dc in
  StatusUpdate (Client := client u) dc.

Definition updater__SetConditionsErrored (u : updater C) (dc : DeviceConfig.t gomap)
  (reason message : string) : Go (World C) (error * DeviceConfig.t gomap) :=
  let dc := with_Conditions (switch now Errored Ready reason message (GetConditions dc)) dc in
  StatusUpdate (Client := client u) dc.

#[export] Instance updater_Updater (u : updater C) : Updater C := {
  SetConditionsReady := updater__SetConditionsReady u;
  SetConditionsErrored := updater__SetConditionsErrored u;
}.

End updater.

End conditions.

(** The conditions are keyed by type: no two of one type. *)
Definition keyed (conds : list Condition.t) : Prop := NoDup (Condition.Type_ <$> conds).

(** The condition of a type, if there is one. *)
Definition condition_of (conds : list Condition.t) (ty : string) : option Condition.t :=
  snd <$> meta.FindStatusCondition conds ty.

(** * Theorems *)

Section set_status_condition.
Import meta.
Implicit Types (conds : list Condition.t) (c new : Condition.t) (ty : string).

Lemma FindStatusCondition_Some conds ty i c :
  FindStatusCondition conds ty = Some (i, c) ->
  conds !! i = Some c /\ Condition.Type_ c = ty /\
  forall j c', j < i -> conds !! j = Some c' -> Condition.Type_ c' ≠ ty.
Proof.
  revert i. induction conds as [|c0 rest IH]; intros i; cbn; [done|].
  case_bool_decide as Hty.
  - intros [= <- <-]. repeat split; [done|]. intros; lia.
  - destruct (FindStatusCondition rest ty) as [[i' c1]|]; [|done]. cbn.
    intros [= <- <-]. destruct (IH i' eq_refl) as (Hi & Hc & Hlt). repeat split; [done..|].
    intros [|j] c' Hj; cbn; [by intros [= <-]|]. apply Hlt. lia.
Qed.

Lemma FindStatusCondition_None conds ty :
  FindStatusCondition conds ty = None <-> ty ∉ Condition.Type_ <$> conds.
Proof.
  induction conds as [|c0 rest IH]; cbn; [set_solver|].
  case_bool_decide as Hty; [set_solver|].
  destruct (FindStatusCondition rest ty) as [[i' c1]|]; cbn; [|set_solver].
  split; [done|]. intros Hn. assert (ty ∉ Condition.Type_ <$> rest) as H%IH by set_solver. done.
Qed.

(** [SetStatusCondition] keeps the types of the conditions it finds and
    adds the new type when it is not there. *)
Lemma SetStatusCondition_types now conds new :
  Condition.Type_ <$> SetStatusCondition now conds new =
  if bool_decide (Condition.Type_ new ∈ Condition.Type_ <$> conds)
  then Condition.Type_ <$> conds
  else (Condition.Type_ <$> conds) ++ [Condition.Type_ new].
Proof.
  unfold SetStatusCondition.
  destruct (FindStatusCondition conds _) as [[i c]|] eqn:E.
  - destruct (FindStatusCondition_Some _ _ _ _ E) as (Hi & Hc & _).
    rewrite (bool_decide_true (_ ∈ _))
      by (rewrite <- Hc; apply list_elem_of_fmap_2, (list_elem_of_lookup_2 _ i), Hi).
    rewrite list_fmap_insert. cbn. apply list_insert_id. by rewrite list_lookup_fmap, Hi.
  - apply FindStatusCondition_None in E. rewrite (bool_decide_false (_ ∈ _)) by done.
    by rewrite fmap_app.
Qed.

(** The conditions stay keyed by type. *)
Lemma SetStatusCondition_keyed now conds new :
  keyed conds -> keyed (SetStatusCondition now conds new).
Proof.
  unfold keyed. rewrite SetStatusCondition_types. case_bool_decide as Hin; [done|].
  intros H. apply NoDup_app. repeat split; [done | set_solver | apply NoDup_singleton].
Qed.

Lemma FindStatusCondition_app conds ty c :
  FindStatusCondition conds ty = None -> Condition.Type_ c = ty ->
  FindStatusCondition (conds ++ [c]) ty = Some (length conds, c).
Proof.
  intros H Hc. induction conds as [|c0 rest IH]; cbn in *.
  - by rewrite bool_decide_true.
  - case_bool_decide; [done|].
    destruct (FindStatusCondition rest ty); [done|]. by rewrite IH.
Qed.

Lemma FindStatusCondition_app_ne conds ty c :
  Condition.Type_ c ≠ ty ->
  FindStatusCondition (conds ++ [c]) ty = FindStatusCondition conds ty.
Proof.
  intros Hc. induction conds as [|c0 rest IH]; cbn.
  - by rewrite bool_decide_false.
  - case_bool_decide; [done|]. by rewrite IH.
Qed.

Lemma FindStatusCondition_insert conds ty i c c' :
  FindStatusCondition conds (Condition.Type_ c) = Some (i, c) ->
  Condition.Type_ c' = Condition.Type_ c ->
  FindStatusCondition (<[i := c']> conds) ty =
  if bool_decide (ty = Condition.Type_ c) then Some (i, c')
  else FindStatusCondition conds ty.
Proof.
  revert i. induction conds as [|c0 rest IH]; intros i; [done|]. cbn [FindStatusCondition].
  destruct (decide (Condition.Type_ c0 = Condition.Type_ c)) as [H0|H0].
  - rewrite (bool_decide_true _ H0). intros [= <- <-] Hc'. cbn. rewrite Hc'.
    destruct (decide (ty = Condition.Type_ c0)) as [->|H1].
    + by rewrite !bool_decide_true.
    + by rewrite !bool_decide_false by done.
  - rewrite (bool_decide_false _ H0).
    destruct (FindStatusCondition rest (Condition.Type_ c)) as [[i' c1]|] eqn:E; [|done].
    cbn. intros [= <- <-] Hc'.
    change (<[S i' := c']> (c0 :: rest)) with (c0 :: <[i' := c']> rest).
    cbn [FindStatusCondition]. rewrite (IH i' eq_refl Hc').
    destruct (decide (ty = Condition.Type_ c1)) as [->|H1].
    + by rewrite (bool_decide_false _ H0), !bool_decide_true.
    + rewrite (bool_decide_false (ty = _)) by done. done.
Qed.

(** Last write wins on the type written. *)
Lemma condition_of_SetStatusCondition now conds new :
  exists time,
    condition_of (SetStatusCondition now conds new) (Condition.Type_ new) =
    Some (Condition.mk (Condition.Type_ new) (Condition.Status new)
            (Condition.ObservedGeneration new) time (Condition.Reason new)
            (Condition.Message new)).
Proof.
  unfold condition_of, SetStatusCondition.
  destruct (FindStatusCondition conds _) as [[i c]|] eqn:E.
  - destruct (FindStatusCondition_Some _ _ _ _ E) as (Hi & Hc & _). eexists.
    rewrite <- Hc at 1. erewrite FindStatusCondition_insert; [|by rewrite Hc|done].
    rewrite bool_decide_true by done. cbn. by rewrite Hc.
  - eexists. by erewrite FindStatusCondition_app.
Qed.

(** Every other condition is kept. *)
Lemma condition_of_SetStatusCondition_ne now conds new ty :
  ty ≠ Condition.Type_ new ->
  condition_of (SetStatusCondition now conds new) ty = condition_of conds ty.
Proof.
  intros Hne. unfold condition_of, SetStatusCondition.
  destruct (FindStatusCondition conds (Condition.Type_ new)) as [[i c]|] eqn:E.
  - destruct (FindStatusCondition_Some _ _ _ _ E) as (Hi & Hc & _).
    rewrite <- Hc in E. erewrite FindStatusCondition_insert; [|done..].
    by rewrite bool_decide_false by congruence.
  - by rewrite FindStatusCondition_app_ne by done.
Qed.

(** The transition time of a condition changes only when its status
    does. *)
Lemma SetStatusCondition_transition now conds new c :
  condition_of conds (Condition.Type_ new) = Some c ->
  Condition.Status c = Condition.Status new ->
  exists c', condition_of (SetStatusCondition now conds new) (Condition.Type_ new) = Some c' /\
             Condition.LastTransitionTime c' = Condition.LastTransitionTime c.
Proof.
  unfold condition_of, SetStatusCondition.
  destruct (FindStatusCondition conds _) as [[i c0]|] eqn:E; [|done]. cbn. intros [= ->] Hs.
  destruct (FindStatusCondition_Some _ _ _ _ E) as (Hi & Hc & _). eexists.
  rewrite <- Hc at 1. erewrite FindStatusCondition_insert; [|by rewrite Hc|done].
  rewrite bool_decide_true by done. cbn. split; [done|]. cbn.
  by rewrite bool_decide_false by naive_solver.
Qed.

End set_status_condition.

Section switch.
Import meta conditions.
Implicit Types (conds : list Condition.t).

Lemma switch_keyed now on off reason message conds :
  keyed conds -> keyed (switch now on off reason message conds).
Proof. intros. by do 2 apply SetStatusCondition_keyed. Qed.

(** After a write, the condition switched on is true and the other is
    false. *)
Lemma switch_statuses now on off reason message conds :
  on ≠ off ->
  let conds' := switch now on off reason message conds in
  IsStatusConditionTrue conds' on = true /\ IsStatusConditionTrue conds' off = false.
Proof.
  intros Hne conds'. unfold conds', switch, IsStatusConditionTrue.
  set (r := Condition.mk on "True" 0 0 reason message).
  set (f := Condition.mk off "False" 0 0 on "").
  set (c1 := SetStatusCondition now conds r).
  destruct (condition_of_SetStatusCondition now c1 f) as (t2 & H2).
  destruct (condition_of_SetStatusCondition now conds r) as (t1 & H1).
  pose proof (condition_of_SetStatusCondition_ne now c1 f on Hne) as H3.
  change (Condition.Type_ r) with on in H1. change (Condition.Type_ f) with off in H2.
  fold c1 in H1. rewrite H1 in H3. unfold condition_of in H2, H3.
  destruct (FindStatusCondition (SetStatusCondition now c1 f) on) as [[? ?]|]; [|done].
  destruct (FindStatusCondition (SetStatusCondition now c1 f) off) as [[? ?]|]; [|done].
  by simplify_eq/=.
Qed.

(** A write keeps the conditions of every other type. *)
Lemma switch_other now on off reason message conds ty :
  ty ≠ on -> ty ≠ off ->
  condition_of (switch now on off reason message conds) ty = condition_of conds ty.
Proof.
  intros. unfold switch. by rewrite !condition_of_SetStatusCondition_ne.
Qed.

End switch.
