(* ===== verification/NodeSelector.v ===== *)
(** * The node-selector validator (spec.md, section 4.4)

    The interface [NodeSelectorValidator] as the tests of the controller
    mock it, and the validator over the lists of the store:
    [getDeviceConfigSelectedNodes] lists the nodes the selector of a
    DeviceConfig matches; [CheckDeviceConfigForConflictingNodeSelector]
    lists the DeviceConfigs and, for each one other than the candidate,
    gathers the names of the candidate's nodes and of its nodes and asks
    [containsDuplicates] whether a name occurs twice.

    A selector matches a node when the node has every label of the
    selector (glossary); the selector without labels matches every node.
    The specification does not give the text of the error: the theorems
    use only that there is one.

    After the code: [conflicts], the relation of section 4.4, and the
    theorems that [containsDuplicates] decides what it is named after,
    that [conflicts] is symmetric (P5), and that the validator returns an
    error exactly when the store holds another DeviceConfig in conflict
    with the candidate. *)

From Stdlib Require Import String ZArith.
From stdpp Require Import base tactics option list gmap strings.
From S2P Require Import Prelude GoRuntime ApiTypes Client FakeClient.

Import metav1 corev1 hlaiv1alpha1.

#[local] Open Scope go_scope.

(** ** Definitions *)

Class NodeSelectorValidator (C : Type) : Type := {
  CheckDeviceConfigForConflictingNodeSelector : DeviceConfig.t gomap -> Go (World C) error;
}.

(** [visited] holds the elements seen so far. *)
Fixpoint containsDuplicates_from (visited : gset string) (arr : list string) : bool :=
  match arr with
  | [] => false
  | e :: arr =>
      if bool_decide (e ∈ visited) then true
      else containsDuplicates_from ({[e]} ∪ visited) arr
  end.

Definition containsDuplicates (arr : list string) : bool := containsDuplicates_from ∅ arr.

Record nodeSelectorValidator (C : Type) : Type := mkNodeSelectorValidator {
  deviceConfigs : Lister DeviceConfig.t C;
  nodes : Lister Node.t C;
}.
Arguments mkNodeSelectorValidator {C} deviceConfigs nodes.
Arguments deviceConfigs {C} _.
Arguments nodes {C} _.

Definition NewNodeSelectorValidator {C} (dcs : Lister DeviceConfig.t C) (ns : Lister Node.t C) :
  nodeSelectorValidator C :=
  mkNodeSelectorValidator dcs ns.

(** The names of the items of a node list. *)
Definition node_names {M} (ns : list (Node.t M)) : list string :=
  GetName (K := Node.t) <$> ns.

Definition conflictError (dc other : string) : error :=
  errors.New ("DeviceConfig " +:+ dc +:+ " selects nodes that DeviceConfig " +:+ other
              +:+ " selects").

Section validator.
Context {C : Type}.

Definition nodeSelectorValidator__getDeviceConfigSelectedNodes (nsv : nodeSelectorValidator C)
  (dc : DeviceConfig.t gomap) : Go (World C) (error * list (Node.t gomap)) :=
  sel <- gets (fun w => mapval (heap w) (DeviceConfigSpec.NodeSelector (DeviceConfig.Spec dc)));;
  List (Lister := nodes nsv) sel.

(** The loop over the DeviceConfigs of the store: [names] are the nodes
    of the candidate. *)
Fixpoint nodeSelectorValidator__checkOthers (nsv : nodeSelectorValidator C)
  (dc : DeviceConfig.t gomap) (names : list string) (others : list (DeviceConfig.t gomap)) :
  Go (World C) error :=
  match others with
  | [] => ret nil
  | other :: rest =>
      if bool_decide (ObjectKeyFromObject other = ObjectKeyFromObject dc)
      then nodeSelectorValidator__checkOthers nsv dc names rest
      else
        r <- nodeSelectorValidator__getDeviceConfigSelectedNodes nsv other;;
        match r.1 with
        | Some e => ret (Some e)
        | None =>
            if containsDuplicates (names ++ node_names r.2)
            then ret (conflictError (GetName dc) (GetName other))
            else nodeSelectorValidator__checkOthers nsv dc names rest
        end
  end.

Definition nodeSelectorValidator__CheckDeviceConfigForConflictingNodeSelector
  (nsv : nodeSelectorValidator C) (dc : DeviceConfig.t gomap) : Go (World C) error :=
  l <- List (Lister := deviceConfigs nsv) None;;
  match l.1 with
  | Some e => ret (Some e)
  | None =>
      r <- nodeSelectorValidator__getDeviceConfigSelectedNodes nsv dc;;
      match r.1 with
      | Some e => ret (Some e)
      | None => nodeSelectorValidator__checkOthers nsv dc (node_names r.2) l.2
      end
  end.

#[export] Instance nodeSelectorValidator_NodeSelectorValidator (nsv : nodeSelectorValidator C) :
  NodeSelectorValidator C := {
  CheckDeviceConfigForConflictingNodeSelector :=
    nodeSelectorValidator__CheckDeviceConfigForConflictingNodeSelector nsv;
}.

End validator.

(** ** The relation of section 4.4 *)

(** The selector of a DeviceConfig matches the node. *)
Definition selects (dc : DeviceConfig.t mapv) (n : Node.t mapv) : bool :=
  labels.Matches (default ∅ (DeviceConfigSpec.NodeSelector (DeviceConfig.Spec dc)))
                 (GetLabels (K := Node.t) n).

(** A node of the store that both selectors match. *)
Definition conflicts (ns : Store Node.t) (a b : DeviceConfig.t mapv) : Prop :=
  exists n, n ∈ (map_to_list ns).*2 /\ selects a n = true /\ selects b n = true.

#[export] Instance conflicts_dec ns a b : Decision (conflicts ns a b).
Proof.
  refine (cast_if (decide (Exists (fun n => selects a n = true /\ selects b n = true)
                                  (map_to_list ns).*2)));
    unfold conflicts; rewrite Exists_exists in *; naive_solver.
Defined.

(** Selector uniqueness (I2): no two DeviceConfigs of the store are in
    conflict. *)
Definition conflict_free (ns : Store Node.t) (dcs : Store DeviceConfig.t) : Prop :=
  forall k k' a b, dcs !! k = Some a -> dcs !! k' = Some b -> k ≠ k' -> ~ conflicts ns a b.

(** The nodes have no namespace, so that a name is one node. *)
Definition cluster_scoped (ns : Store Node.t) : Prop :=
  forall k n, ns !! k = Some n -> k.1 = "".

(** The nodes the store lists for the selector of a DeviceConfig, by
    name. *)
Definition selected_names (ns : Store Node.t) (dc : DeviceConfig.t mapv) : list string :=
  node_names (selected (DeviceConfigSpec.NodeSelector (DeviceConfig.Spec dc)) ns).

(** What the loop of the validator computes: the first other DeviceConfig
    whose nodes, gathered with the candidate's, hold a duplicate. *)
Definition first_conflict (ns : Store Node.t) (dc : DeviceConfig.t mapv)
  (others : list (DeviceConfig.t mapv)) :
  option (DeviceConfig.t mapv) :=
  List.find (fun other =>
               negb (bool_decide (ObjectKeyFromObject other = ObjectKeyFromObject dc))
               && containsDuplicates (selected_names ns dc ++ selected_names ns other))
            others.

(** * Theorems *)

(** ** [containsDuplicates] *)

Lemma containsDuplicates_from_spec visited arr :
  containsDuplicates_from visited arr = true <->
  ~ NoDup arr \/ exists e, e ∈ arr /\ e ∈ visited.
Proof.
  revert visited. induction arr as [|e arr IH]; intros visited; cbn.
  - split; [done|]. intros [H|(e & He & _)]; [destruct H; constructor | set_solver].
  - case_bool_decide as Hv.
    + split; [|done]. intros _. right. exists e. set_solver.
    + rewrite IH, NoDup_cons. split.
      * intros [H|(x & Hx & [->%elem_of_singleton|Hxv]%elem_of_union)];
          [left; tauto | left; tauto | right; exists x; set_solver].
      * intros [H|(x & [->|Hx]%elem_of_cons & Hxv)]; [|done|right; exists x; set_solver].
        destruct (decide (e ∈ arr)); [right; exists e; set_solver | left; tauto].
Qed.

(** [containsDuplicates] against its reference definition: an element
    occurs twice exactly when the list is not [NoDup]. *)
Theorem containsDuplicates_NoDup arr : containsDuplicates arr = bool_decide (~ NoDup arr).
Proof.
  apply eq_true_iff_eq. rewrite bool_decide_eq_true.
  unfold containsDuplicates. rewrite containsDuplicates_from_spec. set_solver.
Qed.

(** The order of the elements does not matter. *)
#[export] Instance containsDuplicates_proper : Proper ((≡ₚ) ==> (=)) containsDuplicates.
Proof.
  intros l l' Hl. rewrite !containsDuplicates_NoDup. apply bool_decide_ext. by rewrite Hl.
Qed.

(** Two lists without duplicates gathered in one: a duplicate is a common
    element. *)
Lemma containsDuplicates_app a b :
  NoDup a -> NoDup b ->
  containsDuplicates (a ++ b) = true <-> exists e, e ∈ a /\ e ∈ b.
Proof.
  intros Ha Hb. rewrite containsDuplicates_NoDup, bool_decide_eq_true, NoDup_app.
  split.
  - intros H. destruct (decide (Exists (fun e => e ∈ b) a)) as [He|He].
    + apply Exists_exists in He. naive_solver.
    + destruct H. repeat split; [done| |done]. intros e Hea Heb. apply He, Exists_exists. eauto.
  - intros (e & Hea & Heb) (_ & H & _). by apply (H e).
Qed.

(** ** Conflicts *)

(** Conflict detection is symmetric (P5). *)
Theorem conflicts_sym ns a b : conflicts ns a b <-> conflicts ns b a.
Proof. unfold conflicts. naive_solver. Qed.

(** ** The validator on the store *)

Section names.
Implicit Types (ns : Store Node.t) (dc a b : DeviceConfig.t mapv) (sel : mapv).

Lemma elem_of_selected ns sel (n : Node.t mapv) :
  n ∈ selected sel ns <->
  n ∈ (map_to_list ns).*2 /\ labels.Matches (default ∅ sel) (GetLabels n) = true.
Proof. unfold selected. rewrite list_elem_of_filter, Is_true_true. tauto. Qed.

Lemma elem_of_selected_names ns dc name :
  name ∈ selected_names ns dc <->
  exists n, n ∈ (map_to_list ns).*2 /\ selects dc n = true /\ GetName n = name.
Proof.
  unfold selected_names, node_names. rewrite list_elem_of_fmap.
  setoid_rewrite elem_of_selected. unfold selects. naive_solver.
Qed.

(** In a store of cluster-scoped nodes a name is one node. *)
Lemma node_name_inj ns (n n' : Node.t mapv) :
  store_wf ns -> cluster_scoped ns ->
  n ∈ (map_to_list ns).*2 -> n' ∈ (map_to_list ns).*2 -> GetName n = GetName n' -> n = n'.
Proof.
  intros Hwf Hcs ([k ?] & -> & Hn%elem_of_map_to_list)%list_elem_of_fmap
    ([k' ?] & -> & Hn'%elem_of_map_to_list)%list_elem_of_fmap Hname. cbn in *.
  destruct (Hwf _ _ Hn) as [Hk _], (Hwf _ _ Hn') as [Hk' _].
  pose proof (Hcs _ _ Hn) as H1. pose proof (Hcs _ _ Hn') as H2.
  assert (k = k') as <-; [|congruence].
  destruct k as [ns1 n1], k' as [ns2 n2]. cbn in H1, H2. subst ns1 ns2.
  unfold key_of, store_key, ObjectKeyFromObject in Hk, Hk'. cbn in Hk, Hk'.
  congruence.
Qed.

Lemma selected_names_NoDup ns dc :
  store_wf ns -> cluster_scoped ns -> NoDup (selected_names ns dc).
Proof.
  intros Hwf Hcs. unfold selected_names, node_names, selected.
  apply NoDup_fmap_2_strong.
  - intros n n' [_ Hn]%list_elem_of_filter [_ Hn']%list_elem_of_filter.
    by apply (node_name_inj ns).
  - apply NoDup_filter, (NoDup_fmap_2_strong snd); [|apply NoDup_map_to_list].
    intros [k n] [k' n'] Hn%elem_of_map_to_list Hn'%elem_of_map_to_list. cbn. intros <-.
    destruct (Hwf _ _ Hn) as [<- _], (Hwf _ _ Hn') as [<- _]. done.
Qed.

(** A name both DeviceConfigs select is a node both select. *)
Lemma common_name_conflicts ns a b :
  store_wf ns -> cluster_scoped ns ->
  (exists e, e ∈ selected_names ns a /\ e ∈ selected_names ns b) <-> conflicts ns a b.
Proof.
  intros Hwf Hcs. unfold conflicts. setoid_rewrite elem_of_selected_names. split.
  - intros (e & (n & Hn & Ha & <-) & (n' & Hn' & Hb & Hname)).
    assert (n' = n) as -> by by apply (node_name_inj ns). eauto.
  - intros (n & Hn & Ha & Hb). exists (GetName n). eauto 10.
Qed.

Lemma first_conflict_spec ns dc others :
  store_wf ns -> cluster_scoped ns ->
  is_Some (first_conflict ns dc others) <->
  exists other, other ∈ others /\ ObjectKeyFromObject other ≠ ObjectKeyFromObject dc /\
                conflicts ns dc other.
Proof.
  intros Hwf Hcs. unfold first_conflict.
  induction others as [|o others IH]; cbn.
  - split; [by intros [? ?] | set_solver].
  - destruct (_ && _) eqn:E.
    + split; [|by eauto]. intros _. apply andb_prop in E as [Hk Hc]. exists o.
      apply negb_true_iff, bool_decide_eq_false in Hk.
      rewrite containsDuplicates_app, common_name_conflicts in Hc
        by auto using selected_names_NoDup. set_solver.
    + rewrite IH. split; [set_solver|].
      intros (other & [->|Hin]%elem_of_cons & Hk & Hc); [|eauto].
      apply andb_false_iff in E as [E|E].
      * apply negb_false_iff, bool_decide_eq_true in E. done.
      * apply not_true_iff_false in E. destruct E.
        rewrite containsDuplicates_app, common_name_conflicts
          by auto using selected_names_NoDup. done.
Qed.

End names.
Section validator_store.
Context {S : Type} (ld : Lens S (Store DeviceConfig.t)) (ln : Lens S (Store Node.t))
  `{!LensLaws ld, !LensLaws ln}.
Implicit Types (w : World S) (dc : DeviceConfig.t gomap).

Let nsv := NewNodeSelectorValidator (zoom_Lister ld FakeLister) (zoom_Lister ln FakeLister).

Lemma node_names_freeze h (ns : list (Node.t gomap)) :
  node_names (fmap (M := list) (freeze h) ns) = node_names ns.
Proof.
  unfold node_names. rewrite <- list_fmap_compose. apply list_fmap_ext.
  intros _ n _. apply (GetName_omap (K := Node.t)).
Qed.

(** The selector that is nil selects every object of the store. *)
Lemma selected_all {K} `{!Object K} (st : Store K) : selected None st = (map_to_list st).*2.
Proof.
  unfold selected. apply filter_all, Forall_forall. intros v _.
  apply bool_decide_pack, map_empty_subseteq.
Qed.

Lemma wp_getDeviceConfigSelectedNodes dc w Q :
  (forall ns h', heap w ⊆ h' ->
     node_names ns = selected_names (view ln (cstate w)) (freeze (heap w) dc) ->
     Q (nil, ns) (set_heap h' w)) ->
  wp (nodeSelectorValidator__getDeviceConfigSelectedNodes nsv dc) w Q.
Proof.
  intros H. unfold nodeSelectorValidator__getDeviceConfigSelectedNodes.
  apply wp_bind, wp_gets. cbn [nodes nsv NewNodeSelectorValidator].
  apply wp_zoom_fake_List; [done|]. intros ns h' Hsub Hf _. apply H; [done|].
  by rewrite <- (node_names_freeze h'), Hf.
Qed.

Lemma wp_checkOthers dc others w :
  object_valid (heap w) dc -> Forall (object_valid (heap w)) others ->
  wp (nodeSelectorValidator__checkOthers nsv dc
        (selected_names (view ln (cstate w)) (freeze (heap w) dc)) others) w
     (fun e w' =>
        cstate w' = cstate w /\ heap w ⊆ heap w' /\
        (is_Some e <->
         is_Some (first_conflict (view ln (cstate w)) (freeze (heap w) dc)
                    (freeze (heap w) <$> others)))).
Proof.
  revert w. induction others as [|other rest IH]; intros w Hdc Hv; cbn [nodeSelectorValidator__checkOthers].
  { apply wp_ret. split_and!; [done..|]. by split; intros [? ?]. }
  apply Forall_cons in Hv as [Hother Hrest].
  unfold first_conflict. cbn [fmap list_fmap List.find].
  rewrite !ObjectKeyFromObject_freeze. fold (first_conflict (view ln (cstate w))).
  case_bool_decide as Hk; cbn [negb andb]; [by apply IH|].
  apply wp_bind, wp_getDeviceConfigSelectedNodes. intros ns h' Hsub Hns. cbn [fst snd].
  rewrite Hns. destruct (containsDuplicates _) eqn:E.
  - apply wp_ret. split_and!; [done..|]. by split; eauto.
  - assert (freeze h' dc = freeze (heap w) dc) as Hfd by by apply freeze_subseteq.
    assert (fmap (M := list) (freeze h') rest = fmap (M := list) (freeze (heap w)) rest) as Hfr.
    { apply Forall_fmap_ext_1. eapply Forall_impl; [exact Hrest|].
      intros o Ho. by apply freeze_subseteq. }
    assert (Forall (object_valid h') rest) as Hrest'
      by (eapply Forall_impl; [exact Hrest|]; eauto using object_valid_subseteq).
    assert (object_valid h' dc) as Hdc' by eauto using object_valid_subseteq.
    pose proof (IH (set_heap h' w) Hdc' Hrest') as IH'.
    cbn [heap cstate set_heap] in IH'. rewrite Hfd, Hfr in IH'.
    eapply wp_mono; [exact IH'|]. cbn. intros e w' (Hc & Hh & He).
    split_and!; [done | by etrans | done].
Qed.

(** The validator refines the relation of section 4.4: it returns an
    error exactly when the store holds a DeviceConfig other than the
    candidate in conflict with it, and it writes nothing. *)
Theorem CheckDeviceConfigForConflictingNodeSelector_conflicts dc w :
  store_wf (view ln (cstate w)) -> cluster_scoped (view ln (cstate w)) ->
  object_valid (heap w) dc ->
  wp (nodeSelectorValidator__CheckDeviceConfigForConflictingNodeSelector nsv dc) w
     (fun e w' =>
        cstate w' = cstate w /\ heap w ⊆ heap w' /\
        (is_Some e <->
         exists other, other ∈ (map_to_list (view ld (cstate w))).*2 /\
                       ObjectKeyFromObject other ≠ ObjectKeyFromObject dc /\
                       conflicts (view ln (cstate w)) (freeze (heap w) dc) other)).
Proof.
  intros Hwf Hcs Hdc. unfold nodeSelectorValidator__CheckDeviceConfigForConflictingNodeSelector.
  apply wp_bind. cbn [deviceConfigs nsv NewNodeSelectorValidator].
  apply wp_zoom_fake_List; [done|]. intros dcs h1 Hsub1 Hf1 Hv1. cbn [fst snd].
  apply wp_bind, wp_getDeviceConfigSelectedNodes. intros ns h2 Hsub2 Hns. cbn [fst snd].
  rewrite Hns, set_heap_set_heap. cbn [heap set_heap] in *.
  assert (heap w ⊆ h2) as Hsub by by etrans.
  assert (freeze h2 dc = freeze (heap w) dc) as Hfd by by apply freeze_subseteq.
  assert (freeze h1 dc = freeze (heap w) dc) as Hfd1 by by apply freeze_subseteq.
  assert (fmap (M := list) (freeze h2) dcs = (map_to_list (view ld (cstate w))).*2) as Hfr.
  { rewrite <- (selected_all (view ld (cstate w))), <- Hf1. apply Forall_fmap_ext_1.
    eapply Forall_impl; [exact Hv1|]. intros o Ho. by apply freeze_subseteq. }
  assert (Forall (object_valid h2) dcs) as Hv2
    by (eapply Forall_impl; [exact Hv1|]; eauto using object_valid_subseteq).
  assert (object_valid h2 dc) as Hdc2 by eauto using object_valid_subseteq.
  pose proof (wp_checkOthers dc dcs (set_heap h2 w) Hdc2 Hv2) as Hloop.
  cbn [heap cstate set_heap] in Hloop. rewrite Hfd, Hfr in Hloop. rewrite Hfd1.
  eapply wp_mono; [exact Hloop|]. cbn. intros e w' (Hc & Hh & He).
  split_and!; [done | by etrans |]. by rewrite He, first_conflict_spec.
Qed.

End validator_store.
