(* ===== verification/ModuleReconciler.v ===== *)
(** * The Module reconciler: [src/internal/module/module.go]

    Constants, the [Reconciler] interface, the [moduleReconciler] struct
    and its methods, each under the name [moduleReconciler__Method].  The
    process-wide settings ([s.Settings]) are the section variable
    [Settings].

    After the code: the desired state of a Module as a value
    ([desiredSpec]), and the theorems on [SetDesiredModule] and on
    [ReconcileModule] and [DeleteModule] run against every client. *)

From Stdlib Require Import Ascii String ZArith.
From stdpp Require Import base tactics option list gmap strings.
From S2P Require Import Prelude GoRuntime ApiTypes Client ControllerUtil.

Import metav1 kmmv1beta1 hlaiv1alpha1.

#[local] Open Scope go_scope.

(** ** Definitions *)

Definition moduleSuffix : string := "module".

Definition driverServiceAccount : string := "driver-habana".

Definition devicePluginLimitsCpu : string := "200m".
Definition devicePluginLimitsMemory : string := "100Mi".
Definition devicePluginRequestsCpu : string := "100m".
Definition devicePluginRequestsMemory : string := "50Mi".
Definition devicePluginServiceAccount : string := "device-plugin".

(** The package [internal/settings]. *)
Module s.
Record SettingsT : Type := mk {
  DevicePluginImage : string;
}.
End s.

Class Reconciler (C : Type) : Type := {
  ReconcileModule : DeviceConfig.t gomap -> Go (World C) error;
  SetDesiredModule :
    option (Module.t gomap) -> DeviceConfig.t gomap ->
    Go (World C) (error * option (Module.t gomap));
  DeleteModule : DeviceConfig.t gomap -> Go (World C) error;
}.

Record moduleReconciler (C : Type) : Type := mkModuleReconciler {
  client : Client Module.t C;
  scheme : Scheme;
}.
Arguments mkModuleReconciler {C} client scheme.
Arguments client {C} _.
Arguments scheme {C} _.

Definition NewReconciler {C} (c : Client Module.t C) (s : Scheme) : moduleReconciler C :=
  mkModuleReconciler c s.

Definition GetModuleName (cr : DeviceConfig.t gomap) : string :=
  ObjectMeta.Name (DeviceConfig.ObjectMeta cr) +:+ "-" +:+ moduleSuffix.

Section module.
Context (Settings : s.SettingsT) {C : Type}.

Definition moduleReconciler__makeKernelMappings (r : moduleReconciler C)
  (cr : DeviceConfig.t gomap) : list KernelMapping.t :=
  [ KernelMapping.mk
      (DeviceConfigSpec.DriverImage (DeviceConfig.Spec cr) +:+ ":"
       +:+ DeviceConfigSpec.DriverVersion (DeviceConfig.Spec cr) +:+ "-${KERNEL_FULL_VERSION}")
      "^.*\.el\d_?\d?\..*$" ].

Definition moduleReconciler__makeDevicePlugin (r : moduleReconciler C)
  (cr : DeviceConfig.t gomap) (deviceType : string) : Go (World C) DevicePluginSpec.t :=
  limitsCpu <- resource.MustParse devicePluginLimitsCpu;;
  limitsMemory <- resource.MustParse devicePluginLimitsMemory;;
  requestsCpu <- resource.MustParse devicePluginRequestsCpu;;
  requestsMemory <- resource.MustParse devicePluginRequestsMemory;;
  ret (DevicePluginSpec.mk
         (DevicePluginContainerSpec.mk
            [ "--dev_type"; deviceType ]
            [ "habanalabs-device-plugin" ]
            (s.DevicePluginImage Settings)
            corev1.PullAlways
            (corev1.ResourceRequirements.mk
               {[ "cpu" := limitsCpu; "memory" := limitsMemory ]}
               {[ "cpu" := requestsCpu; "memory" := requestsMemory ]}))
         devicePluginServiceAccount).

Definition moduleReconciler__makeModuleLoader (r : moduleReconciler C)
  (cr : DeviceConfig.t gomap) : ModuleLoaderSpec.t :=
  ModuleLoaderSpec.mk
    (ModuleLoaderContainerSpec.mk
       corev1.PullAlways
       (moduleReconciler__makeKernelMappings r cr)
       (ModprobeSpec.mk "habanalabs" "/opt/lib/firmware/habanalabs"))
    driverServiceAccount.

Definition moduleReconciler__SetDesiredModule (r : moduleReconciler C)
  (m : option (Module.t gomap)) (cr : DeviceConfig.t gomap) :
  Go (World C) (error * option (Module.t gomap)) :=
  match m with
  | None => ret (errors.New "module cannot be nil", None)
  | Some m =>
      let deviceType := "gaudi" in
      devicePlugin <- moduleReconciler__makeDevicePlugin r cr deviceType;;
      let ModuleLoader := moduleReconciler__makeModuleLoader r cr in
      selector <- GetNodeSelector cr;;
      mapassign selector ("habana.ai/hpu." +:+ deviceType +:+ ".present") "true";;;
      let m := Module.with_Spec (ModuleSpec.mk (Some devicePlugin) ModuleLoader selector) m in
      match controllerutil.SetControllerReference cr m (scheme r) with
      | (Some err, m) => ret (Some err, Some m)
      | (None, m) => ret (nil, Some m)
      end
  end.

Definition moduleReconciler__ReconcileModule (r : moduleReconciler C)
  (cr : DeviceConfig.t gomap) : Go (World C) error :=
  let existingModule := Module.zero None in
  g <- Get (Client := client r)
         (types.NamespacedName.mk (ObjectMeta.Namespace (DeviceConfig.ObjectMeta cr))
                                  (GetModuleName cr))
         existingModule;;
  let err := g.1 in
  let existingModule := g.2 in
  let exists_ := negb (apierrors.IsNotFound err) in
  if bool_decide (err ≠ nil) && negb (apierrors.IsNotFound err) then ret err
  else
    let m := Module.with_ObjectMeta
               (ObjectMeta.mk (GetModuleName cr)
                  (ObjectMeta.Namespace (DeviceConfig.ObjectMeta cr))
                  "" "" 0%Z None [] [] None)
               (Module.zero None) in
    let m := if exists_ then existingModule else m in
    res <- controllerutil.CreateOrPatch (client r) m
             (fun m => x <- moduleReconciler__SetDesiredModule r (Some m) cr;;
                       ret (x.1, default m x.2));;
    match res.1.2 with
    | Some err => ret (fmt.Errorf_v "could not create or patch Module: " err)
    | None => ret nil
    end.

Definition moduleReconciler__DeleteModule (r : moduleReconciler C)
  (cr : DeviceConfig.t gomap) : Go (World C) error :=
  let m := Module.with_ObjectMeta
             (ObjectMeta.mk (GetModuleName cr)
                (ObjectMeta.Namespace (DeviceConfig.ObjectMeta cr))
                "" "" 0%Z None [] [] None)
             (Module.zero None) in
  err <- Delete (Client := client r) m;;
  match err with
  | Some e =>
      if negb (apierrors.IsNotFound (Some e)) then
        ret (fmt.Errorf_w ("failed to delete Module " +:+ GetName m +:+ ": ") e)
      else ret nil
  | None => ret nil
  end.

(** [*moduleReconciler] implements [Reconciler]. *)
#[export] Instance moduleReconciler_Reconciler (r : moduleReconciler C) : Reconciler C := {
  ReconcileModule := moduleReconciler__ReconcileModule r;
  SetDesiredModule := moduleReconciler__SetDesiredModule r;
  DeleteModule := moduleReconciler__DeleteModule r;
}.

End module.

(** ** What the reconciler promises (spec.md, section 4.3)

    The desired state of the Module of a DeviceConfig, on the stored form
    of the objects. *)

Definition presentLabel : string := "habana.ai/hpu.gaudi.present".

Definition desiredDevicePlugin (Settings : s.SettingsT) : DevicePluginSpec.t :=
  DevicePluginSpec.mk
    (DevicePluginContainerSpec.mk
       [ "--dev_type"; "gaudi" ] [ "habanalabs-device-plugin" ]
       (s.DevicePluginImage Settings) "Always"
       (corev1.ResourceRequirements.mk
          {[ "cpu" := resource.Quantity.mk 200 resource.DecimalSI;
             "memory" := resource.Quantity.mk (100 * 2 ^ 20 * 1000) resource.BinarySI ]}
          {[ "cpu" := resource.Quantity.mk 100 resource.DecimalSI;
             "memory" := resource.Quantity.mk (50 * 2 ^ 20 * 1000) resource.BinarySI ]}))
    "device-plugin".

Definition desiredModuleLoader (driverImage driverVersion : string) : ModuleLoaderSpec.t :=
  ModuleLoaderSpec.mk
    (ModuleLoaderContainerSpec.mk "Always"
       [ KernelMapping.mk (driverImage +:+ ":" +:+ driverVersion +:+ "-${KERNEL_FULL_VERSION}")
                          "^.*\.el\d_?\d?\..*$" ]
       (ModprobeSpec.mk "habanalabs" "/opt/lib/firmware/habanalabs"))
    "driver-habana".

Definition desiredSelector (nodeSelector : mapv) : gmap string string :=
  <[presentLabel := "true"]> (default ∅ nodeSelector).

Definition desiredSpec (Settings : s.SettingsT) (dc : DeviceConfig.t mapv) : ModuleSpec.t mapv :=
  ModuleSpec.mk
    (Some (desiredDevicePlugin Settings))
    (desiredModuleLoader (DeviceConfigSpec.DriverImage (DeviceConfig.Spec dc))
                         (DeviceConfigSpec.DriverVersion (DeviceConfig.Spec dc)))
    (Some (desiredSelector (DeviceConfigSpec.NodeSelector (DeviceConfig.Spec dc)))).

(** The map [SetDesiredModule] writes the label to: the DeviceConfig's own
    selector, or a new map when it has none. *)
Definition selector_ref (h : Heap) (cr : DeviceConfig.t gomap) : loc :=
  match DeviceConfigSpec.NodeSelector (DeviceConfig.Spec cr) with
  | Some l => l
  | None => fresh (dom h)
  end.

(** The Module [SetDesiredModule] hands to [SetControllerReference], and
    the heap it leaves. *)
Definition with_desired (Settings : s.SettingsT) (h : Heap) (cr : DeviceConfig.t gomap)
  (m : Module.t gomap) : Module.t gomap :=
  Module.with_Spec
    (ModuleSpec.mk (Some (desiredDevicePlugin Settings))
                   (desiredModuleLoader (DeviceConfigSpec.DriverImage (DeviceConfig.Spec cr))
                                        (DeviceConfigSpec.DriverVersion (DeviceConfig.Spec cr)))
                   (Some (selector_ref h cr))) m.

Definition heap_desired (h : Heap) (cr : DeviceConfig.t gomap) : Heap :=
  <[selector_ref h cr :=
      desiredSelector (mapval h (DeviceConfigSpec.NodeSelector (DeviceConfig.Spec cr)))]> h.

(** The key [ReconcileModule] reads the Module of [cr] at, and the Module
    that names it: what [DeleteModule] hands to [Delete], and what
    [ReconcileModule] starts from when there is none. *)
Definition module_key (cr : DeviceConfig.t gomap) : types.NamespacedName.t :=
  types.NamespacedName.mk (ObjectMeta.Namespace (DeviceConfig.ObjectMeta cr)) (GetModuleName cr).

Definition named_module (cr : DeviceConfig.t gomap) : Module.t mapv :=
  Module.with_ObjectMeta
    (ObjectMeta.mk (GetModuleName cr) (ObjectMeta.Namespace (DeviceConfig.ObjectMeta cr))
                   "" "" 0%Z None [] [] None)
    (Module.zero None).

(** The same Module in memory: the struct literal of [ReconcileModule]. *)
Definition new_module (cr : DeviceConfig.t gomap) : Module.t gomap :=
  Module.with_ObjectMeta
    (ObjectMeta.mk (GetModuleName cr) (ObjectMeta.Namespace (DeviceConfig.ObjectMeta cr))
                   "" "" 0%Z None [] [] None)
    (Module.zero None).

(** The mutate function [ReconcileModule] hands to [CreateOrPatch]. *)
Definition desire {C} (Settings : s.SettingsT) (r : moduleReconciler C)
  (cr : DeviceConfig.t gomap) : controllerutil.MutateFn (K := Module.t) (C := C) :=
  fun m => x <- moduleReconciler__SetDesiredModule Settings r (Some m) cr;;
           ret (x.1, default m x.2).

(** * Theorems *)

(** ** [SetDesiredModule] *)

Section SetDesiredModule.
Context (Settings : s.SettingsT) {C : Type}.
Implicit Types (r : moduleReconciler C) (cr : DeviceConfig.t gomap) (w : World C)
  (m : Module.t gomap).

Lemma makeDevicePlugin_Ok r cr w :
  moduleReconciler__makeDevicePlugin Settings r cr "gaudi" w = Ok (desiredDevicePlugin Settings) w.
Proof. reflexivity. Qed.

Lemma makeModuleLoader_desired r cr :
  moduleReconciler__makeModuleLoader r cr =
  desiredModuleLoader (DeviceConfigSpec.DriverImage (DeviceConfig.Spec cr))
                      (DeviceConfigSpec.DriverVersion (DeviceConfig.Spec cr)).
Proof. reflexivity. Qed.

Lemma SetControllerReference_Spec cr m sch :
  Module.Spec (controllerutil.SetControllerReference cr m sch).2 = Module.Spec m.
Proof. unfold controllerutil.SetControllerReference. by repeat case_match. Qed.

Lemma SetControllerReference_Name cr m sch :
  ObjectKeyFromObject (controllerutil.SetControllerReference cr m sch).2 = ObjectKeyFromObject m.
Proof. unfold controllerutil.SetControllerReference. by repeat case_match. Qed.

Lemma SetControllerReference_Labels cr m sch :
  ObjectMeta.Labels (Module.ObjectMeta (controllerutil.SetControllerReference cr m sch).2)
  = ObjectMeta.Labels (Module.ObjectMeta m).
Proof. unfold controllerutil.SetControllerReference. by repeat case_match. Qed.

(** The whole effect of [SetDesiredModule] on a Module that is not nil. *)
Lemma SetDesiredModule_run r m cr w :
  moduleReconciler__SetDesiredModule Settings r (Some m) cr w =
  Ok (let x := controllerutil.SetControllerReference cr
                 (with_desired Settings (heap w) cr m) (scheme r) in
      (x.1, Some x.2))
     (set_heap (heap_desired (heap w) cr) w).
Proof.
  unfold moduleReconciler__SetDesiredModule, with_desired, heap_desired, selector_ref,
    GetNodeSelector.
  erewrite bind_Ok by apply makeDevicePlugin_Ok.
  destruct (DeviceConfigSpec.NodeSelector (DeviceConfig.Spec cr)) as [l|] eqn:E; cbn.
  - by destruct (controllerutil.SetControllerReference _ _ _) as [[e|] m0].
  - unfold deref. rewrite lookup_insert_eq, insert_insert_eq. cbn.
    by destruct (controllerutil.SetControllerReference _ _ _) as [[e|] m0].
Qed.

(** One run of the mutate function on a Module: the key never changes. *)
Lemma mutate_desire_run r cr m w :
  controllerutil.mutate (desire Settings r cr) (ObjectKeyFromObject m) m w =
  Ok (controllerutil.SetControllerReference cr (with_desired Settings (heap w) cr m) (scheme r))
     (set_heap (heap_desired (heap w) cr) w).
Proof.
  unfold controllerutil.mutate, desire.
  erewrite bind_Ok; [|erewrite bind_Ok; [|apply SetDesiredModule_run]; reflexivity].
  cbn.
  pose proof (SetControllerReference_Name cr (with_desired Settings (heap w) cr m)
                (scheme r)) as Hk.
  destruct (controllerutil.SetControllerReference _ _ _) as [[e|] m']; cbn in *; [done|].
  by rewrite Hk, bool_decide_false by naive_solver.
Qed.

Lemma deref_heap_desired h cr :
  deref (heap_desired h cr) (selector_ref h cr) =
  desiredSelector (mapval h (DeviceConfigSpec.NodeSelector (DeviceConfig.Spec cr))).
Proof. apply deref_insert_eq. Qed.

Lemma heap_desired_frame h cr l :
  l ≠ selector_ref h cr -> heap_desired h cr !! l = h !! l.
Proof. intros. unfold heap_desired. by rewrite lookup_insert_ne. Qed.

Lemma selector_ref_Some h cr l :
  DeviceConfigSpec.NodeSelector (DeviceConfig.Spec cr) = Some l -> selector_ref h cr = l.
Proof. unfold selector_ref. by intros ->. Qed.

Lemma selector_ref_nil h cr :
  DeviceConfigSpec.NodeSelector (DeviceConfig.Spec cr) = None -> selector_ref h cr ∉ dom h.
Proof. unfold selector_ref. intros ->. apply is_fresh. Qed.


(** C19.  The device plugin's resources are consistent: the four quantity
    strings parse, and every resource requested (cpu 100m, memory 50Mi) has
    a limit that is not below the request (cpu 200m, memory 100Mi).
    [makeDevicePlugin] changes no state. *)
Theorem makeDevicePlugin_requests_within_limits r cr deviceType w :
  wp (moduleReconciler__makeDevicePlugin Settings r cr deviceType) w
     (fun dp w' =>
        w' = w /\
        let res := DevicePluginContainerSpec.Resources (DevicePluginSpec.Container dp) in
        map_Forall (fun name q =>
                      exists l, corev1.ResourceRequirements.Limits res !! name = Some l /\
                                resource.le q l)
                   (corev1.ResourceRequirements.Requests res)).
Proof.
  cbn. split; [done|].
  repeat apply map_Forall_insert_2; [| |apply map_Forall_empty];
    (eexists; split; [reflexivity|]; by vm_compute).
Qed.


(** C2.  Refinement of the desired state: whatever Module [SetDesiredModule]
    is given and whether or not the owner reference can be set, the Module
    it leaves has, read through the heap it leaves, exactly the desired
    spec of the DeviceConfig as it was before the call: the device plugin,
    the module loader with the kernel mapping of the driver image and
    version, and the DeviceConfig's node selector with the label
    [habana.ai/hpu.gaudi.present=true] added. *)
Theorem SetDesiredModule_desired r m cr w :
  wp (moduleReconciler__SetDesiredModule Settings r (Some m) cr) w
     (fun res w' => exists m',
        res.2 = Some m' /\
        ModuleSpec.map (mapval (heap w')) (Module.Spec m') =
        desiredSpec Settings (freeze (heap w) cr)).
Proof.
  eapply wp_Ok; [apply SetDesiredModule_run|]. cbn. eexists; split; [done|].
  rewrite SetControllerReference_Spec. unfold ModuleSpec.map, desiredSpec. cbn.
  by rewrite deref_heap_desired.
Qed.

(** C11.  Aliasing: when the DeviceConfig has a node selector,
    [SetDesiredModule] writes the device label into that very map.  The
    Module's selector is the same reference, and the DeviceConfig in memory
    now carries the label in its own [spec.nodeSelector]. *)
Theorem SetDesiredModule_mutates_DeviceConfig r m cr w l :
  DeviceConfigSpec.NodeSelector (DeviceConfig.Spec cr) = Some l ->
  wp (moduleReconciler__SetDesiredModule Settings r (Some m) cr) w
     (fun res w' =>
        (exists m', res.2 = Some m' /\ ModuleSpec.Selector (Module.Spec m') = Some l) /\
        DeviceConfigSpec.NodeSelector (DeviceConfig.Spec (freeze (heap w') cr)) =
        Some (<[presentLabel := "true"]> (deref (heap w) l))).
Proof.
  intros E. eapply wp_Ok; [apply SetDesiredModule_run|]. cbn. split.
  - eexists; split; [done|]. rewrite SetControllerReference_Spec. cbn.
    by rewrite (selector_ref_Some _ _ _ E).
  - rewrite E. cbn. rewrite <- (selector_ref_Some (heap w) _ _ E) at 1.
    rewrite deref_heap_desired, E. done.
Qed.

(** C18.  [SetDesiredModule] never panics: the four resource quantities
    parse, and the map it assigns to is never nil, for every Module (nil
    included), DeviceConfig and state. *)
Theorem SetDesiredModule_no_panic r om cr w :
  ~ panics (moduleReconciler__SetDesiredModule Settings r om cr) w.
Proof.
  destruct om as [m|]; [|cbn; tauto].
  unfold panics. rewrite SetDesiredModule_run. tauto.
Qed.

(** C20.  Frame: [SetDesiredModule] makes no client call and changes no map
    of the heap but the selector's. *)
Theorem SetDesiredModule_frame r m cr w :
  wp (moduleReconciler__SetDesiredModule Settings r (Some m) cr) w
     (fun _ w' => cstate w' = cstate w /\
                  forall l, l ≠ selector_ref (heap w) cr -> heap w' !! l = heap w !! l).
Proof.
  eapply wp_Ok; [apply SetDesiredModule_run|]. cbn. split; [done|].
  intros l Hl. by apply heap_desired_frame.
Qed.

End SetDesiredModule.

(** ** [ReconcileModule] and [DeleteModule] against every client

    The client is the oracle client: the theorems hold whatever the store
    answers, errors and conflicts included. *)

Section oracle.
Context (Settings : s.SettingsT) (o : Oracle Module.t) (sch : Scheme).
Implicit Types (cr : DeviceConfig.t gomap) (w : World (list (Call Module.t))).

Let r := NewReconciler (OracleClient o) sch.
Let first cr w := resp_err (o (cstate w) (CallGet (module_key cr) (Module.zero None))).

Lemma SetDesiredModule_silent {C} (r0 : moduleReconciler C) cr :
  silent (desire Settings r0 cr).
Proof.
  intros m st. apply wp_bind. eapply wp_Ok; [apply SetDesiredModule_run|]. by apply wp_ret.
Qed.

(** C6.  The calls of [ReconcileModule], whatever the store answers: a Get
    of the Module's key into an empty Module, then nothing more (the Get
    failed), or the Get of [CreateOrPatch] followed by nothing (it failed,
    or nothing changed), by one Create, or by one Patch.  It never deletes
    or updates, and never writes twice. *)
Theorem ReconcileModule_calls cr w :
  wp (moduleReconciler__ReconcileModule Settings r cr) w
     (fun _ w' => exists calls,
        cstate w' = cstate w ++ CallGet (module_key cr) (Module.zero None) :: calls /\
        verb <$> calls ∈ [[]; [VGet]; [VGet; VCreate]; [VGet; VPatch]]).
Proof.
  unfold moduleReconciler__ReconcileModule.
  apply wp_bind, wp_oracle_Get. intros g w1 (Hl1 & _ & _ & _).
  destruct (_ && _).
  { apply wp_ret. exists []. split; [done|]. set_solver. }
  apply wp_bind.
  eapply wp_mono; [apply CreateOrPatch_oracle_calls, SetDesiredModule_silent|].
  intros res w2 (calls & Hl2 & Hc). cbn beta.
  assert (verb <$> calls ∈ [[VGet]; [VGet; VCreate]; [VGet; VPatch]]) as Hv.
  { unfold CreateOrPatch_calls in Hc. repeat case_match; subst; set_solver. }
  destruct res.1.2; apply wp_ret; exists calls;
    (rewrite Hl2, Hl1, <- app_assoc; split; [done|set_solver]).
Qed.

(** C10.  An error of the first Get other than NotFound is returned as it
    is, and nothing more is asked of the store. *)
Theorem ReconcileModule_Get_error cr w e :
  first cr w = Some e ->
  apierrors.IsNotFound (Some e) = false ->
  wp (moduleReconciler__ReconcileModule Settings r cr) w
     (fun err w' =>
        err = Some e /\
        cstate w' = cstate w ++ [CallGet (module_key cr) (Module.zero None)]).
Proof.
  intros He Hnf. unfold moduleReconciler__ReconcileModule.
  apply wp_bind, wp_oracle_Get. intros g w1 (Hl1 & _ & Hg & _).
  fold (module_key cr) in *.
  change (freeze (heap w) (Module.zero None)) with (Module.zero (M := mapv) None) in *.
  fold (first cr w) in Hg. rewrite He in Hg.
  rewrite Hg, Hnf, bool_decide_true by done. by apply wp_ret.
Qed.


(** C13.  A Module deleted between the two reads: when the first Get
    finds the Module and the Get of [CreateOrPatch] answers NotFound,
    [ReconcileModule] makes no further call or one Create, and the object
    it asks to create carries the resource version of the Module it read
    first.  An API server refuses such a Create. *)
Theorem ReconcileModule_stale_create cr w v e :
  let c1 := CallGet (module_key cr) (Module.zero None) in
  let c2 := CallGet (module_key cr) v in
  ObjectKeyFromObject v = module_key cr ->
  o (cstate w) c1 = mkResponse nil (Some v) ->
  o (cstate w ++ [c1]) c2 = mkResponse (Some e) None ->
  apierrors.IsNotFound (Some e) = true ->
  wp (moduleReconciler__ReconcileModule Settings r cr) w
     (fun err w' =>
        cstate w' = cstate w ++ [c1; c2] \/
        exists obj, cstate w' = cstate w ++ [c1; c2; CallCreate obj] /\
                    GetResourceVersion obj = GetResourceVersion v).
Proof.
  intros c1 c2 Hkey H1 H2 Hnf. unfold moduleReconciler__ReconcileModule.
  apply wp_bind, wp_oracle_Get. fold (module_key cr).
  change (freeze (heap w) (Module.zero None)) with (Module.zero (M := mapv) None). fold c1.
  intros g w1 (Hl1 & _ & Hg1 & Hg2). rewrite H1 in Hg1, Hg2. cbn [resp_err resp_obj] in Hg1, Hg2.
  destruct Hg2 as [Hfz Hv]. rewrite Hg1. cbn [andb negb apierrors.IsNotFound].
  rewrite bool_decide_false by naive_solver. cbn [andb].
  assert (ObjectKeyFromObject g.2 = module_key cr) as Hk2
    by by rewrite <- (ObjectKeyFromObject_freeze (heap w1)), Hfz.
  apply wp_bind. unfold controllerutil.CreateOrPatch. rewrite Hk2.
  apply wp_bind, wp_oracle_Get. rewrite Hfz. fold c2.
  intros g' w2 (Hl2 & _ & Hg1' & Hg2'). rewrite Hl1, H2 in Hg1', Hg2'.
  cbn [resp_err resp_obj] in Hg1', Hg2'.
  destruct Hg2' as [Hobj Hheap]. rewrite Hg1', Hnf, Hobj. cbn [negb].
  rewrite <- Hk2. apply wp_bind. eapply wp_Ok; [apply mutate_desire_run|].
  destruct (SetControllerReference_refs cr (with_desired Settings (heap w2) cr g.2) (scheme r))
    as [refs Hrefs].
  destruct (controllerutil.SetControllerReference cr _ _) as [[e'|] m']; cbn [fst snd] in *.
  { apply wp_ret, wp_ret. left. cbn [cstate set_heap]. by rewrite Hl2, Hl1, <- app_assoc. }
  apply wp_bind, wp_oracle_Create. intros cr0 w3 (Hl3 & _ & _ & _).
  cbn [cstate heap set_heap] in Hl3.
  assert (cstate w3 = cstate w ++ [c1; c2; CallCreate (freeze (heap_desired (heap w2) cr) m')])
    as Hl by by rewrite Hl3, Hl2, Hl1, <- !app_assoc.
  assert (GetResourceVersion (freeze (heap_desired (heap w2) cr) m') = GetResourceVersion v)
    as Hrv.
  { rewrite GetResourceVersion_freeze, Hrefs, GetResourceVersion_SetOwnerReferences.
    by rewrite <- Hfz, GetResourceVersion_freeze. }
  destruct cr0.1; apply wp_ret, wp_ret; eauto.
Qed.

(** C9.  [DeleteModule] makes one call, the Delete of a Module that carries
    the name and the namespace of the DeviceConfig's Module and nothing
    else.  It returns nil when the Delete succeeds or answers NotFound, and
    otherwise an error that wraps the cause, with the message
    [failed to delete Module <name>: <cause>]. *)
Theorem DeleteModule_spec cr w :
  let answer := resp_err (o (cstate w) (CallDelete (named_module cr))) in
  wp (moduleReconciler__DeleteModule r cr) w
     (fun err w' =>
        cstate w' = cstate w ++ [CallDelete (named_module cr)] /\
        err = match answer with
              | Some e =>
                  if apierrors.IsNotFound (Some e) then nil
                  else Some (wrapError ("failed to delete Module " +:+ GetModuleName cr +:+ ": "
                                        +:+ Error e) e)
              | None => nil
              end).
Proof.
  intros answer. unfold moduleReconciler__DeleteModule.
  apply wp_bind, wp_oracle_Delete. intros ans w1 (Hl1 & _ & Hg & _).
  change (freeze (heap w) _) with (named_module cr) in *. fold answer in Hg. rewrite Hg.
  destruct answer as [e|]; [|by apply wp_ret].
  destruct (apierrors.IsNotFound (Some e)); apply wp_ret; split; try done.
  unfold fmt.Errorf_w. by rewrite <- !append_assoc.
Qed.

End oracle.
