(* ===== verification/ModuleStore.v ===== *)
(** * The Module reconciler on the object store

    [reconcile] is what [ReconcileModule] promises of the store: the
    Module of the DeviceConfig is there, with the desired spec and the
    controller reference, and is written only when it differs.  The
    theorems show that [ReconcileModule], run against the in-memory store,
    computes [reconcile], and what follows from it: the child exists after
    a successful run, a second run writes nothing, and [DeleteModule]
    removes the Module. *)

From Stdlib Require Import Ascii String ZArith.
From stdpp Require Import base tactics option list gmap strings.
From S2P Require Import Prelude GoRuntime ApiTypes Client FakeClient ControllerUtil.
From S2P Require Import ModuleReconciler.

Import metav1 kmmv1beta1 hlaiv1alpha1.

#[local] Open Scope go_scope.

(** ** Definitions *)

(** The DeviceConfig after [SetDesiredModule]: its selector, if it has
    one, carries the device label. *)
Definition labelled (dc : DeviceConfig.t mapv) : DeviceConfig.t mapv :=
  DeviceConfig.mk (DeviceConfig.ObjectMeta dc)
    (DeviceConfigSpec.mk
       (DeviceConfigSpec.DriverImage (DeviceConfig.Spec dc))
       (DeviceConfigSpec.DriverVersion (DeviceConfig.Spec dc))
       (insert presentLabel "true" <$> DeviceConfigSpec.NodeSelector (DeviceConfig.Spec dc)))
    (DeviceConfig.Status dc).

(** The Module [ReconcileModule] wants, from the one it starts with. *)
Definition desiredModule (Settings : s.SettingsT) (sch : Scheme) (dc : DeviceConfig.t mapv)
  (base : Module.t mapv) : error * Module.t mapv :=
  controllerutil.SetControllerReference dc (Module.with_Spec (desiredSpec Settings dc) base) sch.

(** The store's key of the Module of a DeviceConfig. *)
Definition child_key {M} (dc : DeviceConfig.t M) : string * string :=
  (ObjectMeta.Namespace (DeviceConfig.ObjectMeta dc),
   ObjectMeta.Name (DeviceConfig.ObjectMeta dc) +:+ "-" +:+ moduleSuffix).

(** The Module with the name and the namespace of the child, and nothing
    else. *)
Definition child_named {M} (dc : DeviceConfig.t M) : Module.t mapv :=
  Module.with_ObjectMeta
    (ObjectMeta.mk (ObjectMeta.Name (DeviceConfig.ObjectMeta dc) +:+ "-" +:+ moduleSuffix)
                   (ObjectMeta.Namespace (DeviceConfig.ObjectMeta dc))
                   "" "" 0%Z None [] [] None)
    (Module.zero None).

Definition wrap_error (e : error) : error :=
  match e with
  | Some e => fmt.Errorf_v "could not create or patch Module: " e
  | None => nil
  end.

(** The write of [CreateOrPatch] over the stored [old]: none when the
    Module [new] it wants is the stored one. *)
Definition patched (st : Store Module.t) (old new : Module.t mapv) : error * Store Module.t :=
  if decide (old = new) then (nil, st)
  else let r := tracker_update st old new false in (r.1.1, r.1.2).

(** What [CreateOrPatch] does to the store and the error it returns. *)
Definition upserted (Settings : s.SettingsT) (sch : Scheme) (dc : DeviceConfig.t mapv)
  (st : Store Module.t) : error * Store Module.t :=
  let old := st !! child_key dc in
  let d := desiredModule Settings sch dc (default (child_named dc) old) in
  match d.1, old with
  | Some e, _ => (Some e, st)
  | None, None => (nil, <[child_key dc := SetResourceVersion "1" d.2]> st)
  | None, Some old => patched st old d.2
  end.

(** What [ReconcileModule] does to the store and what it returns. *)
Definition reconcile (Settings : s.SettingsT) (sch : Scheme) (dc : DeviceConfig.t mapv)
  (st : Store Module.t) : error * Store Module.t :=
  let u := upserted Settings sch dc st in (wrap_error u.1, u.2).

(** The Module [ReconcileModule] creates for a DeviceConfig of the kind
    [gvk]. *)
Definition created_module (Settings : s.SettingsT) (gvk : schema.GroupVersionKind.t)
  (dc : DeviceConfig.t mapv) : Module.t mapv :=
  Module.mk
    (ObjectMeta.mk (ObjectMeta.Name (DeviceConfig.ObjectMeta dc) +:+ "-" +:+ moduleSuffix)
                   (ObjectMeta.Namespace (DeviceConfig.ObjectMeta dc))
                   "" "1" 0%Z None [] [ownerRef gvk dc] None)
    (desiredSpec Settings dc).

(** The error [DeleteModule] makes of the store's. *)
Definition delete_error (name : string) (e : error) : error :=
  match e with
  | Some e =>
      if apierrors.IsNotFound (Some e) then nil
      else fmt.Errorf_w ("failed to delete Module " +:+ name +:+ ": ") e
  | None => nil
  end.

(** The DeviceConfig's labels and its selector are not the same map. *)
Definition unaliased (cr : DeviceConfig.t gomap) : Prop :=
  match ObjectMeta.Labels (DeviceConfig.ObjectMeta cr),
        DeviceConfigSpec.NodeSelector (DeviceConfig.Spec cr) with
  | Some a, Some b => a ≠ b
  | _, _ => True
  end.

(** The DeviceConfig a reconciler is handed: its maps are allocated and
    not aliased, as those of a decoded object are. *)
Definition cr_ok (h : Heap) (cr : DeviceConfig.t gomap) : Prop :=
  object_valid h cr /\ unaliased cr.

(** ** Lemmas *)

Section store.
Context (Settings : s.SettingsT) (now : Z) (sch : Scheme).
Implicit Types (cr : DeviceConfig.t gomap) (m : Module.t gomap) (w : World (Store Module.t))
  (h : Heap) (st : Store Module.t).

Let r := NewReconciler (FakeClient now) sch.

Lemma GetModuleName_child_key cr : store_key (module_key cr) = child_key cr.
Proof. reflexivity. Qed.

Lemma named_module_child_named cr : named_module cr = child_named cr.
Proof. reflexivity. Qed.

Lemma desiredSelector_idem (sel : mapv) :
  desiredSelector (Some (desiredSelector sel)) = desiredSelector sel.
Proof. unfold desiredSelector. cbn. by rewrite insert_insert_eq. Qed.

Lemma desiredSpec_labelled dc : desiredSpec Settings (labelled dc) = desiredSpec Settings dc.
Proof.
  unfold desiredSpec, labelled, desiredSelector. cbn.
  destruct (DeviceConfigSpec.NodeSelector _); cbn; [|done]. by rewrite insert_insert_eq.
Qed.

(** The Module with the desired state, frozen in the heap
    [SetDesiredModule] leaves: the desired spec on the frozen Module, when
    the Module's labels are not the map the label is written to. *)
Lemma freeze_with_desired h cr m :
  ObjectMeta.Labels (Module.ObjectMeta m) ≠ Some (selector_ref h cr) ->
  freeze (heap_desired h cr) (with_desired Settings h cr m) =
  Module.with_Spec (desiredSpec Settings (freeze h cr)) (freeze h m).
Proof.
  intros Hl. unfold freeze, with_desired, heap_desired. cbn.
  unfold Module.map, Module.with_Spec, ObjectMeta.map, ModuleSpec.map, desiredSpec. cbn.
  fold (mapval h (ObjectMeta.Labels (Module.ObjectMeta m))).
  rewrite mapval_insert_ne by done. by rewrite deref_insert_eq.
Qed.

Lemma cr_ok_selector_valid h cr :
  cr_ok h cr -> gomap_valid h (DeviceConfigSpec.NodeSelector (DeviceConfig.Spec cr)).
Proof. intros [Hv _]. by inversion_clear Hv as [|?? _ Hs]; inversion_clear Hs. Qed.

Lemma cr_ok_labels_valid h cr :
  cr_ok h cr -> gomap_valid h (ObjectMeta.Labels (DeviceConfig.ObjectMeta cr)).
Proof. intros [Hv _]. by inversion_clear Hv. Qed.

Lemma cr_ok_labels_ne h cr :
  cr_ok h cr -> ObjectMeta.Labels (DeviceConfig.ObjectMeta cr) ≠ Some (selector_ref h cr).
Proof.
  intros Hok Hl. pose proof (cr_ok_labels_valid _ _ Hok) as Hv. destruct Hok as [_ Hu].
  unfold unaliased, selector_ref in *. rewrite Hl in Hu, Hv.
  destruct (DeviceConfigSpec.NodeSelector _); [done|]. by apply (is_fresh (dom h)).
Qed.

(** [SetDesiredModule] leaves the DeviceConfig [labelled]. *)
Lemma freeze_heap_desired h cr :
  cr_ok h cr -> freeze (heap_desired h cr) cr = labelled (freeze h cr).
Proof.
  intros Hok. pose proof (cr_ok_labels_ne _ _ Hok) as Hl.
  unfold freeze, heap_desired, labelled. cbn.
  unfold DeviceConfig.map, ObjectMeta.map, DeviceConfigSpec.map. cbn.
  fold (mapval h (ObjectMeta.Labels (DeviceConfig.ObjectMeta cr))).
  rewrite mapval_insert_ne by done. f_equal. f_equal. unfold selector_ref.
  destruct (DeviceConfigSpec.NodeSelector _) as [l|]; [|done].
  cbn. by rewrite deref_insert_eq.
Qed.

Lemma cr_ok_heap_desired h cr : cr_ok h cr -> cr_ok (heap_desired h cr) cr.
Proof.
  intros [Hv Hu]. split; [|done]. eapply Forall_impl; [exact Hv|].
  intros g Hg. by apply gomap_valid_insert.
Qed.

Lemma cr_ok_subseteq h h' cr : h ⊆ h' -> cr_ok h cr -> cr_ok h' cr.
Proof. intros Hsub [Hv Hu]. split; [|done]. by eapply object_valid_subseteq. Qed.

(** The DeviceConfig in every heap after [SetDesiredModule] has run. *)
Lemma cr_after h h1 h3 cr :
  cr_ok h cr -> h ⊆ h1 -> heap_desired h1 cr ⊆ h3 ->
  freeze h3 cr = labelled (freeze h cr) /\ cr_ok h3 cr.
Proof.
  intros Hok Hsub Hsub3. pose proof (cr_ok_subseteq _ _ _ Hsub Hok) as Hok1.
  pose proof (cr_ok_heap_desired _ _ Hok1) as Hok2. split; [|by eapply cr_ok_subseteq].
  rewrite (freeze_subseteq (o := cr) Hsub3) by apply Hok2.
  rewrite freeze_heap_desired by done. by rewrite (freeze_subseteq (o := cr) Hsub) by apply Hok.
Qed.

(** A DeviceConfig decoded from its stored form is one a reconciler can
    be handed: its maps are allocated, and they are two. *)
Lemma wp_thaw_cr_ok {C} (dc : DeviceConfig.t mapv) (x : World C) :
  wp (thaw dc) x
     (fun cr y => cr_ok (heap y) cr /\ freeze (heap y) cr = dc /\ cstate y = cstate x).
Proof.
  destruct dc as [[] [] ?]. unfold thaw. cbn.
  unfold DeviceConfig.mapM, ObjectMeta.mapM. cbn.
  apply wp_bind, wp_bind, wp_thaw_map. intros g1 h1 Hsub1 Hg1 Hv1 Hf1.
  apply wp_ret, wp_bind, wp_thaw_map. cbn. intros g2 h2 Hsub2 Hg2 Hv2 Hf2.
  apply wp_ret. cbn. split; [|split; [|done]].
  - split; [repeat constructor; eauto using gomap_valid_subseteq|].
    unfold unaliased. cbn. destruct g1 as [l1|], g2 as [l2|]; try done.
    intros ->. by apply Hf2.
  - unfold freeze. cbn. unfold DeviceConfig.map, ObjectMeta.map, DeviceConfigSpec.map. cbn.
    fold (mapval h2 g1). fold (mapval h2 g2).
    by rewrite (mapval_subseteq h1 h2), Hg1, Hg2.
Qed.

(** A Module decoded after the DeviceConfig does not share its labels
    with the map the device label is written to. *)
Lemma decoded_labels_ne h h1 cr (o : Module.t gomap) :
  cr_ok h cr -> h ⊆ h1 -> object_valid h1 o -> object_fresh h o ->
  ObjectMeta.Labels (Module.ObjectMeta o) ≠ Some (selector_ref h1 cr).
Proof.
  intros Hok Hsub Hv Hf Hl. pose proof (cr_ok_selector_valid _ _ Hok) as Hs.
  inversion_clear Hv as [|?? Hv1 _]. inversion_clear Hf as [|?? Hf1 _].
  rewrite Hl in Hv1, Hf1. unfold selector_ref in *. cbn in *.
  destruct (DeviceConfigSpec.NodeSelector _); [done|]. by apply (is_fresh (dom h1)).
Qed.

(** The outcome of the mutate function, frozen, is [desiredModule]. *)
Lemma freeze_desired h cr m :
  ObjectMeta.Labels (Module.ObjectMeta m) ≠ Some (selector_ref h cr) ->
  let x := controllerutil.SetControllerReference cr (with_desired Settings h cr m) sch in
  (x.1, freeze (heap_desired h cr) x.2) = desiredModule Settings sch (freeze h cr) (freeze h m).
Proof.
  intros Hl x. unfold desiredModule. rewrite <- (freeze_with_desired _ _ _ Hl).
  unfold freeze.
  rewrite (SetControllerReference_omap (mapval (heap_desired h cr)) cr); [done|].
  apply same_identity_omap.
Qed.

(** [desiredModule] changes the spec and the owner references only. *)
Lemma desiredModule_refs dc (base : Module.t mapv) :
  exists refs, (desiredModule Settings sch dc base).2 =
               SetOwnerReferences refs (Module.with_Spec (desiredSpec Settings dc) base).
Proof. apply SetControllerReference_refs. Qed.

Lemma desiredModule_key dc (base : Module.t mapv) :
  key_of (desiredModule Settings sch dc base).2 = key_of base.
Proof. destruct (desiredModule_refs dc base) as [refs ->]. by rewrite key_of_SetOwnerReferences. Qed.

Lemma desiredModule_resourceVersion dc (base : Module.t mapv) :
  GetResourceVersion (desiredModule Settings sch dc base).2 = GetResourceVersion base.
Proof.
  destruct (desiredModule_refs dc base) as [refs ->].
  by rewrite GetResourceVersion_SetOwnerReferences.
Qed.

Lemma desiredModule_deletionTimestamp dc (base : Module.t mapv) :
  GetDeletionTimestamp (desiredModule Settings sch dc base).2 = GetDeletionTimestamp base.
Proof.
  destruct (desiredModule_refs dc base) as [refs ->].
  by rewrite GetDeletionTimestamp_SetOwnerReferences.
Qed.

Lemma desiredModule_gone dc (base : Module.t mapv) :
  gone (desiredModule Settings sch dc base).2 = gone base.
Proof.
  destruct (desiredModule_refs dc base) as [refs ->]. unfold gone.
  by rewrite GetDeletionTimestamp_SetOwnerReferences, GetFinalizers_SetOwnerReferences.
Qed.

Lemma desiredModule_finalizers dc (base : Module.t mapv) :
  GetFinalizers (desiredModule Settings sch dc base).2 = GetFinalizers base.
Proof.
  destruct (desiredModule_refs dc base) as [refs ->].
  by rewrite GetFinalizers_SetOwnerReferences.
Qed.

Lemma desiredModule_Spec dc (base : Module.t mapv) :
  Module.Spec (desiredModule Settings sch dc base).2 = desiredSpec Settings dc.
Proof. destruct (desiredModule_refs dc base) as [refs ->]. done. Qed.

(** [CreateOrPatch] when the store has no Module of the DeviceConfig. *)
Lemma CreateOrPatch_absent cr w :
  cstate w !! child_key cr = None -> cr_ok (heap w) cr ->
  wp (controllerutil.CreateOrPatch (FakeClient now) (new_module cr) (desire Settings r cr)) w
     (fun res w' =>
        (freeze (heap w') cr = labelled (freeze (heap w) cr) /\ cr_ok (heap w') cr) /\
        (res.1.2, cstate w') = upserted Settings sch (freeze (heap w) cr) (cstate w)).
Proof.
  intros Hk Hok. unfold upserted. change (child_key (freeze (heap w) cr)) with (child_key cr).
  rewrite Hk. cbn [default].
  pose proof (freeze_desired (heap w) cr (new_module cr) ltac:(done)) as Hd. cbv zeta in Hd.
  change (freeze (heap w) (new_module cr)) with (child_named (freeze (heap w) cr)) in Hd.
  destruct (desiredModule _ _ _ _) as [e d]. cbn [fst snd].
  unfold controllerutil.CreateOrPatch.
  apply wp_bind, wp_fake_Get. change (store_key _) with (child_key cr). rewrite Hk.
  cbn -[controllerutil.mutate].
  apply wp_bind. eapply wp_Ok; [apply mutate_desire_run|]. change (scheme r) with sch.
  destruct (SetControllerReference_refs cr (with_desired Settings (heap w) cr (new_module cr))
              sch) as [refs Hrefs].
  destruct (controllerutil.SetControllerReference cr _ sch) as [e' m'].
  injection Hd as -> Hd. change (freeze (heap_desired (heap w) cr) m' = d) in Hd.
  cbn [fst snd] in *.
  pose proof (cr_after _ _ _ _ Hok (reflexivity _) (reflexivity _)) as Hheap.
  destruct e as [e|]; [by apply wp_ret|].
  assert (key_of m' = child_key cr) as Hkey by by rewrite Hrefs, key_of_SetOwnerReferences.
  apply wp_bind. eapply wp_Ok.
  { apply (fake_Create_run now); rewrite ?Hkey; [| |done].
    - by rewrite Hrefs, GetResourceVersion_SetOwnerReferences.
    - rewrite Hrefs. unfold gone.
      by rewrite GetDeletionTimestamp_SetOwnerReferences, GetFinalizers_SetOwnerReferences. }
  apply wp_ret. cbn [fst snd heap cstate set_cstate set_heap]. by rewrite Hkey, Hd.
Qed.

(** [CreateOrPatch] when the store has a Module of the DeviceConfig. *)
Lemma CreateOrPatch_present cr m v w :
  cstate w !! child_key cr = Some v -> key_of m = child_key cr ->
  ObjectKeyFromObject v = ObjectKeyFromObject m -> cr_ok (heap w) cr ->
  wp (controllerutil.CreateOrPatch (FakeClient now) m (desire Settings r cr)) w
     (fun res w' =>
        (freeze (heap w') cr = labelled (freeze (heap w) cr) /\ cr_ok (heap w') cr) /\
        (res.1.2, cstate w') = upserted Settings sch (freeze (heap w) cr) (cstate w)).
Proof.
  intros Hk Hm Hkey Hok. unfold upserted.
  change (child_key (freeze (heap w) cr)) with (child_key cr). rewrite Hk. cbn [default].
  unfold controllerutil.CreateOrPatch.
  apply wp_bind, wp_fake_Get. fold (key_of m). rewrite Hm, Hk.
  intros o h1 Hsub <- Hv Hfresh. cbn -[controllerutil.mutate freeze].
  rewrite <- Hkey, ObjectKeyFromObject_freeze.
  apply wp_bind, wp_gets. cbn [heap set_heap].
  apply wp_bind. eapply wp_Ok; [apply mutate_desire_run|]. change (scheme r) with sch.
  cbn [heap set_heap].
  pose proof (decoded_labels_ne _ _ _ _ Hok Hsub Hv Hfresh) as Hl.
  pose proof (freeze_desired _ _ _ Hl) as Hd. cbv zeta in Hd.
  rewrite (freeze_subseteq (o := cr) Hsub) in Hd by apply Hok.
  destruct (SetControllerReference_refs cr (with_desired Settings h1 cr o) sch) as [refs Hrefs].
  destruct (controllerutil.SetControllerReference cr _ sch) as [e' m'].
  destruct (desiredModule _ _ _ _) as [e d]. injection Hd as -> Hd.
  change (freeze (heap_desired h1 cr) m' = d) in Hd. cbn [fst snd] in *.
  pose proof (cr_after _ _ _ _ Hok Hsub (reflexivity _)) as Hheap.
  destruct e as [e|]; [by apply wp_ret|].
  apply wp_bind, wp_gets. cbn [heap set_heap]. rewrite Hd. unfold patched.
  destruct (decide (freeze h1 o = d)) as [Heq|Hne];
    [rewrite bool_decide_false by naive_solver; by apply wp_ret|].
  rewrite bool_decide_true by done.
  apply wp_bind, (wp_fake_Patch now _ _ (freeze h1 o)).
  { rewrite Hrefs, key_of_SetOwnerReferences.
    change (key_of (with_desired _ _ _ _)) with (key_of o).
    rewrite <- (key_of_freeze h1 o). unfold key_of. rewrite Hkey. fold (key_of m).
    by rewrite Hm. }
  cbn [heap cstate set_heap]. rewrite opatch_same, Hd.
  destruct (tracker_update _ _ _ _).1.1 eqn:Hr.
  - apply wp_ret. split; [done|]. by rewrite (tracker_update_err _ _ _ _ _ Hr).
  - intros o3 h3 Hsub3 _ _ _. apply wp_ret. split; [|done]. by eapply cr_after.
Qed.

(** [ReconcileModule] on the store computes [reconcile], and leaves the
    DeviceConfig [labelled]. *)
Lemma ReconcileModule_fake cr w :
  store_wf (cstate w) -> cr_ok (heap w) cr ->
  wp (moduleReconciler__ReconcileModule Settings r cr) w
     (fun err w' =>
        (freeze (heap w') cr = labelled (freeze (heap w) cr) /\ cr_ok (heap w') cr) /\
        (err, cstate w') = reconcile Settings sch (freeze (heap w) cr) (cstate w)).
Proof.
  intros Hwf Hok. unfold moduleReconciler__ReconcileModule, reconcile.
  apply wp_bind, wp_fake_Get. change (store_key _) with (child_key cr).
  destruct (cstate w !! child_key cr) as [v|] eqn:Hk.
  - intros o h1 Hsub Hfz Hv Hfresh. cbn [fst snd negb andb apierrors.IsNotFound].
    rewrite bool_decide_false by naive_solver. cbn [andb].
    apply wp_bind. eapply wp_mono.
    { apply (CreateOrPatch_present cr o v); cbn [cstate heap set_heap].
      - done.
      - rewrite <- (key_of_freeze h1), Hfz. by apply Hwf.
      - by rewrite <- Hfz, ObjectKeyFromObject_freeze.
      - by eapply cr_ok_subseteq. }
    cbn [cstate heap set_heap]. intros res w' [[Hf Hok'] Hres].
    rewrite (freeze_subseteq (o := cr) Hsub) in Hf, Hres by apply Hok.
    rewrite <- Hres. cbn [fst snd]. by destruct res.1.2; apply wp_ret.
  - cbn [fst snd]. rewrite IsNotFound_NewNotFound, andb_false_r. cbn [negb].
    apply wp_bind. eapply wp_mono; [by apply (CreateOrPatch_absent cr w)|].
    intros res w' [Hheap Hres]. rewrite <- Hres. cbn [fst snd].
    by destruct res.1.2; apply wp_ret.
Qed.

(** [DeleteModule] on the store is [store_delete] of the child's key. *)
Lemma DeleteModule_fake cr w :
  wp (moduleReconciler__DeleteModule r cr) w
     (fun err w' =>
        let d := store_delete now (cstate w) (child_key cr) in
        heap w' = heap w /\ cstate w' = d.2 /\ err = delete_error (GetModuleName cr) d.1).
Proof.
  unfold moduleReconciler__DeleteModule.
  apply wp_bind. eapply wp_Ok; [apply (fake_Delete_run now)|].
  change (key_of _) with (child_key cr).
  destruct (store_delete _ _ _).1 as [e|]; cbn [delete_error]; [|by apply wp_ret].
  destruct (apierrors.IsNotFound (Some e)); by apply wp_ret.
Qed.

End store.

(** ** What [reconcile] leaves in the store *)

Section pure.
Context (Settings : s.SettingsT) (sch : Scheme).
Implicit Types (dc : DeviceConfig.t mapv) (st : Store Module.t) (v base : Module.t mapv).

Lemma desiredModule_labelled dc base :
  desiredModule Settings sch (labelled dc) base = desiredModule Settings sch dc base.
Proof.
  unfold desiredModule. rewrite desiredSpec_labelled.
  by apply SetControllerReference_owner.
Qed.

Lemma desiredModule_SetResourceVersion dc base rv :
  desiredModule Settings sch dc (SetResourceVersion rv base) =
  ((desiredModule Settings sch dc base).1,
   SetResourceVersion rv (desiredModule Settings sch dc base).2).
Proof.
  unfold desiredModule.
  exact (SetControllerReference_SetResourceVersion dc
           (Module.with_Spec (desiredSpec Settings dc) base) sch rv).
Qed.

(** The desired Module of a desired Module is itself. *)
Lemma desiredModule_idem dc base m :
  scheme_wf sch ->
  desiredModule Settings sch dc base = (nil, m) ->
  desiredModule Settings sch dc m = (nil, m).
Proof.
  intros Hwf Hd. unfold desiredModule in *.
  pose proof (SetControllerReference_idem _ _ _ _ Hwf Hd) as Hi.
  destruct (SetControllerReference_refs dc (Module.with_Spec (desiredSpec Settings dc) base) sch)
    as [refs Hrefs].
  rewrite Hd in Hrefs. cbn in Hrefs. by rewrite Hrefs in Hi |- *.
Qed.

(** What a successful [upserted] leaves at the child's key: the desired
    Module, at some resource version. *)
Lemma upserted_nil dc st st' :
  store_wf st -> upserted Settings sch dc st = (nil, st') ->
  exists rv m,
    desiredModule Settings sch dc (default (child_named dc) (st !! child_key dc)) = (nil, m) /\
    st' !! child_key dc = Some (SetResourceVersion rv m) /\
    (st' = st \/ st' = <[child_key dc := SetResourceVersion rv m]> st).
Proof.
  intros Hwf. unfold upserted.
  destruct (st !! child_key dc) as [old|] eqn:Hk; cbn [default from_option id];
    (destruct (desiredModule _ _ _ _) as [[e|] d] eqn:Hd; cbn [fst snd]; [done|]).
  - destruct (Hwf _ _ Hk) as [Hkey Hgone]. unfold patched. case_decide as Heq.
    + intros [= <-]. subst d. exists (GetResourceVersion old), old.
      rewrite SetResourceVersion_GetResourceVersion. eauto.
    + intros [= Hr <-].
      pose proof (desiredModule_key Settings sch dc old) as Hdk.
      pose proof (desiredModule_gone Settings sch dc old) as Hdg.
      rewrite Hd in Hdk, Hdg. cbn in Hdk, Hdg.
      destruct (tracker_update_nil st old d false Hr) as [rv ->]; [congruence|].
      rewrite Hdk, Hkey, lookup_insert_eq. eauto 10.
  - intros [= <-]. rewrite lookup_insert_eq. eauto 10.
Qed.

(** [reconcile] succeeds exactly when [upserted] does. *)
Lemma reconcile_nil dc st st' :
  reconcile Settings sch dc st = (nil, st') <-> upserted Settings sch dc st = (nil, st').
Proof.
  unfold reconcile. destruct (upserted _ _ _ _) as [[e|] u]; cbn; naive_solver.
Qed.

(** After a successful [upserted], another one changes nothing. *)
Lemma upserted_idem dc st st' :
  scheme_wf sch -> store_wf st ->
  upserted Settings sch dc st = (nil, st') ->
  upserted Settings sch (labelled dc) st' = (nil, st').
Proof.
  intros Hsch Hwf (rv & m & Hd & Hk & _)%upserted_nil; [|done].
  unfold upserted. change (child_key (labelled dc)) with (child_key dc).
  rewrite Hk. cbn [default from_option id].
  rewrite desiredModule_labelled, desiredModule_SetResourceVersion,
    (desiredModule_idem _ _ _ Hsch Hd).
  cbn [fst snd]. unfold patched. by rewrite decide_True.
Qed.

Lemma upserted_wf dc st : store_wf st -> store_wf (upserted Settings sch dc st).2.
Proof.
  intros Hwf. unfold upserted.
  destruct (st !! child_key dc) as [old|] eqn:Hk; cbn [default from_option id];
    (destruct (desiredModule _ _ _ _) as [[e|] d] eqn:Hd; cbn [fst snd]; [done|]).
  - unfold patched. case_decide; [done|]. by apply tracker_update_wf.
  - pose proof (desiredModule_key Settings sch dc (child_named dc)) as Hdk.
    pose proof (desiredModule_gone Settings sch dc (child_named dc)) as Hdg.
    rewrite Hd in Hdk, Hdg. cbn [fst snd] in Hdk, Hdg.
    change (key_of (child_named dc)) with (child_key dc) in Hdk.
    rewrite <- Hdk, <- (key_of_SetResourceVersion "1" d).
    apply store_wf_insert; [|done]. by rewrite gone_SetResourceVersion, Hdg.
Qed.

End pure.

(** * Theorems *)

Section theorems.
Context (Settings : s.SettingsT) (now : Z) (sch : Scheme).
Implicit Types (cr : DeviceConfig.t gomap) (w : World (Store Module.t)).

Let r := NewReconciler (FakeClient now) sch.

(** C1.  Refinement: run against the object store, [ReconcileModule]
    returns the error and leaves the store that [reconcile] computes from
    the DeviceConfig and the store it starts with.  It reads the Module at
    the child's key, creates the desired Module when there is none, writes
    it over the stored one when the two differ, and writes nothing when
    they are equal. *)
Theorem ReconcileModule_refines_reconcile cr w :
  store_wf (cstate w) -> cr_ok (heap w) cr ->
  wp (moduleReconciler__ReconcileModule Settings r cr) w
     (fun err w' => (err, cstate w') = reconcile Settings sch (freeze (heap w) cr) (cstate w)).
Proof.
  intros Hwf Hok. eapply wp_mono; [by apply ReconcileModule_fake|]. by intros ?? [_ ?].
Qed.

(** C3.  Child existence (P3): after a [ReconcileModule] that returns nil,
    the store holds the Module of the DeviceConfig, and its spec is the
    desired one: the DeviceConfig's node selector with the device label,
    the module loader of the driver image and version, the device plugin. *)
Theorem ReconcileModule_child_exists cr w :
  store_wf (cstate w) -> cr_ok (heap w) cr ->
  wp (moduleReconciler__ReconcileModule Settings r cr) w
     (fun err w' =>
        err = nil ->
        exists m, cstate w' !! child_key cr = Some m /\
                  Module.Spec m = desiredSpec Settings (freeze (heap w) cr)).
Proof.
  intros Hwf Hok. eapply wp_mono; [by apply ReconcileModule_fake|].
  intros err w' [_ Hr] ->. symmetry in Hr. apply reconcile_nil in Hr.
  destruct (upserted_nil _ _ _ _ _ Hwf Hr) as (rv & m & Hd & Hk & _).
  eexists. split; [exact Hk|].
  pose proof (desiredModule_Spec Settings sch (freeze (heap w) cr)
                (default (child_named (freeze (heap w) cr))
                   (cstate w !! child_key (freeze (heap w) cr)))) as Hs.
  by rewrite Hd in Hs.
Qed.

(** C5.  Child ownership (I1): after a [ReconcileModule] that returns nil,
    the controller of the stored Module is the DeviceConfig: the first
    controller reference of the Module carries the DeviceConfig's kind,
    name and UID. *)
Theorem ReconcileModule_sets_controller cr w :
  store_wf (cstate w) -> cr_ok (heap w) cr ->
  wp (moduleReconciler__ReconcileModule Settings r cr) w
     (fun err w' =>
        err = nil ->
        exists m gvk,
          cstate w' !! child_key cr = Some m /\
          sch !! TypeName (K := DeviceConfig.t) = Some gvk /\
          controllerutil.GetControllerOf (GetOwnerReferences m) = Some (ownerRef gvk cr)).
Proof.
  intros Hwf Hok. eapply wp_mono; [by apply ReconcileModule_fake|].
  intros err w' [_ Hr] ->. symmetry in Hr. apply reconcile_nil in Hr.
  destruct (upserted_nil _ _ _ _ _ Hwf Hr) as (rv & m & Hd & Hk & _).
  destruct (SetControllerReference_controller _ _ _ _ Hd) as (gvk & Hgvk & Hc).
  exists (SetResourceVersion rv m), gvk.
  by rewrite GetOwnerReferences_SetResourceVersion.
Qed.

(** C4.  Idempotence (P1): after a [ReconcileModule] that returns nil, a
    second one on the same DeviceConfig returns nil and leaves the store as
    it is, although the first has added the device label to the
    DeviceConfig's selector in memory. *)
Theorem ReconcileModule_idempotent cr w :
  scheme_wf sch -> store_wf (cstate w) -> cr_ok (heap w) cr ->
  wp (moduleReconciler__ReconcileModule Settings r cr) w
     (fun err1 w1 =>
        err1 = nil ->
        wp (moduleReconciler__ReconcileModule Settings r cr) w1
           (fun err2 w2 => err2 = nil /\ cstate w2 = cstate w1)).
Proof.
  intros Hsch Hwf Hok. eapply wp_mono; [by apply ReconcileModule_fake|].
  intros err1 w1 [[Hf Hok1] Hr] ->. symmetry in Hr. apply reconcile_nil in Hr.
  pose proof (upserted_wf Settings sch (freeze (heap w) cr) _ Hwf) as Hwf1.
  rewrite Hr in Hwf1.
  eapply wp_mono; [by apply ReconcileModule_fake|].
  intros err2 w2 [_ Hr2]. rewrite Hf in Hr2. unfold reconcile in Hr2.
  rewrite (upserted_idem _ _ _ _ _ Hsch Hwf Hr) in Hr2. by injection Hr2.
Qed.


(** C8.  Repair: when the store holds a Module of the DeviceConfig, a
    [ReconcileModule] that returns nil leaves that Module with the desired
    spec and changes nothing else of it but the owner references and the
    resource version: its labels, finalizers, UID and deletion timestamp
    are kept. *)
Theorem ReconcileModule_repairs cr w old :
  store_wf (cstate w) -> cr_ok (heap w) cr ->
  cstate w !! child_key cr = Some old ->
  wp (moduleReconciler__ReconcileModule Settings r cr) w
     (fun err w' =>
        err = nil ->
        exists rv refs,
          cstate w' !! child_key cr =
          Some (SetResourceVersion rv
                  (SetOwnerReferences refs
                     (Module.with_Spec (desiredSpec Settings (freeze (heap w) cr)) old)))).
Proof.
  intros Hwf Hok Hk. eapply wp_mono; [by apply ReconcileModule_fake|].
  intros err w' [_ Hr] ->. symmetry in Hr. apply reconcile_nil in Hr.
  destruct (upserted_nil _ _ _ _ _ Hwf Hr) as (rv & m & Hd & Hk' & _).
  change (child_key (freeze (heap w) cr)) with (child_key cr) in *.
  rewrite Hk in Hd. cbn [default from_option id] in Hd.
  destruct (desiredModule_refs Settings sch (freeze (heap w) cr) old) as [refs Hrefs].
  rewrite Hd in Hrefs. cbn [snd] in Hrefs. exists rv, refs. by rewrite Hk', Hrefs.
Qed.

(** C17.  From the stored DeviceConfig: decoding a DeviceConfig from its
    stored form, as a Get does, and handing it to [ReconcileModule] leaves
    the store that [reconcile] computes from the stored DeviceConfig.  No
    assumption on the heap is left. *)
Theorem ReconcileModule_on_decoded (dc : DeviceConfig.t mapv) w :
  store_wf (cstate w) ->
  wp (cr <- thaw dc;; moduleReconciler__ReconcileModule Settings r cr) w
     (fun err w' => (err, cstate w') = reconcile Settings sch dc (cstate w)).
Proof.
  intros Hwf. apply wp_bind. eapply wp_mono; [apply wp_thaw_cr_ok|].
  intros cr w1 (Hok & Hfz & Hst). rewrite <- Hst in Hwf.
  eapply wp_mono; [by apply ReconcileModule_fake|].
  intros err w' [_ Hr]. by rewrite Hr, Hfz, Hst.
Qed.

(** C7.  Creation: when the scheme knows the DeviceConfig's kind and the
    store has no Module at the child's key, [ReconcileModule] returns nil
    and the store gains exactly [created_module]: the child's name and
    namespace, resource version 1, the controller reference and the
    desired spec. *)
Theorem ReconcileModule_creates cr w gvk :
  store_wf (cstate w) -> cr_ok (heap w) cr ->
  sch !! TypeName (K := DeviceConfig.t) = Some gvk ->
  cstate w !! child_key cr = None ->
  wp (moduleReconciler__ReconcileModule Settings r cr) w
     (fun err w' =>
        err = nil /\
        cstate w' = <[child_key cr := created_module Settings gvk (freeze (heap w) cr)]>
                      (cstate w)).
Proof.
  intros Hwf Hok Hgvk Hk. eapply wp_mono; [by apply ReconcileModule_fake|].
  intros err w' [_ Hr]. revert Hr. unfold reconcile, upserted.
  change (child_key (freeze (heap w) cr)) with (child_key cr). rewrite Hk.
  unfold desiredModule, controllerutil.SetControllerReference, controllerutil.GVKForObject,
    controllerutil.validateOwner.
  rewrite Hgvk. cbn. case_bool_decide; [rewrite !bool_decide_false by naive_solver|];
    cbn; by intros [= -> ->].
Qed.

(** C14.  [DeleteModule] removes the Module: when the store holds the
    DeviceConfig's Module and it has no finalizer, [DeleteModule] returns
    nil and the Module is gone; the rest of the store is as it was. *)
Theorem DeleteModule_removes cr w old :
  cstate w !! child_key cr = Some old -> GetFinalizers old = [] ->
  wp (moduleReconciler__DeleteModule r cr) w
     (fun err w' => err = nil /\ cstate w' = delete (child_key cr) (cstate w)).
Proof.
  intros Hk Hf. eapply wp_mono; [apply DeleteModule_fake|].
  intros err w' (_ & -> & ->). by rewrite (store_delete_removes now _ _ _ Hk Hf).
Qed.

(** C22.  Not found is success: when the store has no Module of the
    DeviceConfig, [DeleteModule] returns nil and changes nothing. *)
Theorem DeleteModule_absent cr w :
  cstate w !! child_key cr = None ->
  wp (moduleReconciler__DeleteModule r cr) w
     (fun err w' => err = nil /\ cstate w' = cstate w).
Proof.
  intros Hk. eapply wp_mono; [apply DeleteModule_fake|].
  intros err w' (_ & -> & ->). by rewrite store_delete_absent.
Qed.

(** C15.  The deletion barrier is not [DeleteModule]'s: when the Module
    has a finalizer, [DeleteModule] returns nil and the Module is still in
    the store, marked with a deletion timestamp.  A caller that takes nil
    for "the child is gone" removes its own finalizer too early. *)
Theorem DeleteModule_keeps_finalized cr w old rv :
  store_wf (cstate w) ->
  cstate w !! child_key cr = Some old -> GetFinalizers old ≠ [] ->
  GetDeletionTimestamp old = None -> next_version (GetResourceVersion old) = Some rv ->
  wp (moduleReconciler__DeleteModule r cr) w
     (fun err w' =>
        err = nil /\
        cstate w' !! child_key cr =
        Some (SetResourceVersion rv (SetDeletionTimestamp (Some now) old))).
Proof.
  intros Hwf Hk Hf Hd Hrv. destruct (Hwf _ _ Hk) as [Hkey _].
  eapply wp_mono; [apply DeleteModule_fake|].
  intros err w' (_ & -> & ->).
  rewrite (store_delete_marks now _ _ _ _ Hk Hkey Hf Hd Hrv). cbn [fst snd delete_error].
  by rewrite lookup_insert_eq.
Qed.

(** C16.  Round trip: when the store has no Module of the DeviceConfig,
    [ReconcileModule] followed by [DeleteModule] leaves the store as it
    was before, whether or not the Module could be created. *)
Theorem ReconcileModule_DeleteModule cr w :
  store_wf (cstate w) -> cr_ok (heap w) cr ->
  cstate w !! child_key cr = None ->
  wp (moduleReconciler__ReconcileModule Settings r cr;;;
      moduleReconciler__DeleteModule r cr) w
     (fun err w' => err = nil /\ cstate w' = cstate w).
Proof.
  intros Hwf Hok Hk. apply wp_bind.
  eapply wp_mono; [by apply ReconcileModule_fake|].
  intros err w1 [_ Hr]. revert Hr. unfold reconcile, upserted.
  change (child_key (freeze (heap w) cr)) with (child_key cr). rewrite Hk.
  pose proof (desiredModule_finalizers Settings sch (freeze (heap w) cr)
                (child_named (freeze (heap w) cr))) as Hfin.
  destruct (desiredModule _ _ _ _) as [[e|] d]; cbn [fst snd wrap_error] in *;
    intros [= _ Hst]; (eapply wp_mono; [apply DeleteModule_fake|]);
    intros ? w' (_ & -> & ->); rewrite Hst.
  - by rewrite store_delete_absent.
  - erewrite store_delete_removes; [|apply lookup_insert_eq|].
    + cbn [fst snd delete_error]. by rewrite delete_insert_id.
    + exact Hfin.
Qed.

End theorems.
