(* ===== verification/Controller.v ===== *)
(** * The top-level reconciler (spec.md, sections 4.1 and 4.2)

    [controllers.Reconciler] holds the client and the collaborators the
    tests of the controller hand to [NewReconciler]: the event recorder,
    the Module, node-metrics and node-labeler sub-reconcilers, the
    finalizer and conditions updaters and the node-selector validator.
    Each is an interface value and may be nil, as some are in the tests; a
    call through nil panics.

    [Reconciler__Reconcile] is one tick: fetch the DeviceConfig, then the
    deletion path ([Reconciler__reconcileDelete]) when it has a deletion
    timestamp and the normal path ([Reconciler__reconcileNormal])
    otherwise.  The DeviceConfig is one Go object that every collaborator
    is handed by pointer: a collaborator that changes it returns it, and
    the maps it holds are shared through the heap.

    The specification does not give the reason of the conflict event nor
    the messages of the conditions: they are the fields of [Wording]. *)

From Stdlib Require Import String ZArith.
From stdpp Require Import base tactics option list gmap strings.
From S2P Require Import Prelude GoRuntime ApiTypes Client ControllerUtil ModuleReconciler.
From S2P Require Import Finalizers Conditions NodeSelector.

Import metav1 hlaiv1alpha1.

#[local] Open Scope go_scope.

(** ** Definitions *)

(** [sigs.k8s.io/controller-runtime/pkg/reconcile]. *)
Module reconcile.
Record Request : Type := mkRequest {
  NamespacedName : types.NamespacedName.t;
}.
Record Result : Type := mkResult {
  Requeue : bool;
}.
End reconcile.

(** [k8s.io/client-go/tools/record]. *)
Module record.
Class EventRecorder (C : Type) : Type := {
  Event : DeviceConfig.t gomap -> string -> string -> string -> Go (World C) unit;
}.
End record.

Module nodeLabeler.
Class Reconciler (C : Type) : Type := {
  ReconcileNodeLabeler : DeviceConfig.t gomap -> Go (World C) error;
}.
End nodeLabeler.

Module nodeMetrics.
Class Reconciler (C : Type) : Type := {
  ReconcileNodeMetrics : DeviceConfig.t gomap -> Go (World C) error;
}.
End nodeMetrics.

(** A method call through an interface value. *)
Definition invoke {C I A} (i : option I) (f : I -> Go (World C) A) : Go (World C) A :=
  match i with
  | Some x => f x
  | None => panic "invalid memory address or nil pointer dereference"
  end.

Module controllers.

Definition EventTypeWarning : string := "Warning".
Definition conflictMessage : string := "Conflicting DeviceConfig NodeSelectors found".
Definition deleteFailed : string := "failed to delete DeviceConfig resources: ".

Record Wording : Type := mkWording {
  ConflictReason : string;
  ReadyMessage : Z -> string;
  FailureMessage : err -> string;
}.

Record Reconciler (C : Type) : Type := mkReconciler {
  Client_ : option (Client DeviceConfig.t C);
  Scheme_ : Scheme;
  recorder : option (record.EventRecorder C);
  mr : option (ModuleReconciler.Reconciler C);
  nmr : option (nodeMetrics.Reconciler C);
  nlr : option (nodeLabeler.Reconciler C);
  fu : option (finalizers.Updater C);
  cu : option (conditions.Updater C);
  nsv : option (NodeSelectorValidator C);
}.
Arguments mkReconciler {C}.
Arguments Client_ {C} _.
Arguments Scheme_ {C} _.
Arguments recorder {C} _.
Arguments mr {C} _.
Arguments nmr {C} _.
Arguments nlr {C} _.
Arguments fu {C} _.
Arguments cu {C} _.
Arguments nsv {C} _.

Definition NewReconciler {C} c s rec mr nmr nlr fu cu nsv : Reconciler C :=
  mkReconciler c s rec mr nmr nlr fu cu nsv.

Section reconciler.
Context (W : Wording) {C : Type}.
Implicit Types (r : Reconciler C) (dc : DeviceConfig.t gomap).

(** No tick asks for a requeue. *)
Definition result (err : error) : Go (World C) (reconcile.Result * error) :=
  ret (reconcile.mkResult false, err).

(** Section 4.2. *)
Definition Reconciler__reconcileDelete r dc : Go (World C) (reconcile.Result * error) :=
  has <- invoke (fu r) (fun fu => finalizers.ContainsDeletionFinalizer dc);;
  if negb has then result nil
  else
    err <- invoke (mr r) (fun mr => DeleteModule dc);;
    if bool_decide (err ≠ nil) && negb (apierrors.IsNotFound err) then
      result (err ≫= fmt.Errorf_w deleteFailed)
    else
      x <- invoke (fu r) (fun fu => finalizers.RemoveDeletionFinalizer dc);;
      result x.1.

(** Section 4.1, step 4c: the first sub-reconciler that fails ends the
    tick with an Errored condition. *)
Definition Reconciler__fail r dc (reason : string) (e : err) :
  Go (World C) (reconcile.Result * error) :=
  invoke (cu r) (fun cu => conditions.SetConditionsErrored dc reason (FailureMessage W e));;;
  result (Some e).

(** Section 4.1, steps 4c and 4d: the sub-reconcilers in their order,
    then the Ready condition. *)
Definition Reconciler__reconcileChildren r dc : Go (World C) (reconcile.Result * error) :=
  err <- invoke (mr r) (fun mr => ReconcileModule dc);;
  match err with
  | Some e => Reconciler__fail r dc conditions.ReasonModuleFailed e
  | None =>
      err <- invoke (nlr r) (fun nlr => nodeLabeler.ReconcileNodeLabeler dc);;
      match err with
      | Some e => Reconciler__fail r dc conditions.ReasonNodeLabelerFailed e
      | None =>
          err <- invoke (nmr r) (fun nmr => nodeMetrics.ReconcileNodeMetrics dc);;
          match err with
          | Some e => Reconciler__fail r dc conditions.ReasonNodeMetricsFailed e
          | None =>
              invoke (cu r)
                (fun cu => conditions.SetConditionsReady dc conditions.ReasonReconciled
                             (ReadyMessage W (GetGeneration dc)));;;
              result nil
          end
      end
  end.

(** Section 4.1, steps 4a and 4b, then the children. *)
Definition Reconciler__reconcileNormal r dc : Go (World C) (reconcile.Result * error) :=
  err <- invoke (nsv r) (fun nsv => CheckDeviceConfigForConflictingNodeSelector dc);;
  match err with
  | Some _ =>
      invoke (recorder r)
        (fun rec => record.Event dc EventTypeWarning (ConflictReason W) conflictMessage);;;
      result nil
  | None =>
      has <- invoke (fu r) (fun fu => finalizers.ContainsDeletionFinalizer dc);;
      if has then Reconciler__reconcileChildren r dc
      else
        x <- invoke (fu r) (fun fu => finalizers.AddDeletionFinalizer dc);;
        match x.1 with
        | Some e => result (Some e)
        | None => Reconciler__reconcileChildren r x.2
        end
  end.

(** Section 4.1: one tick. *)
Definition Reconciler__Reconcile r (req : reconcile.Request) :
  Go (World C) (reconcile.Result * error) :=
  g <- invoke (Client_ r)
         (fun c => Get (reconcile.NamespacedName req) (DeviceConfig.zero None));;
  match g.1 with
  | Some e => if apierrors.IsNotFound (Some e) then result nil else result (Some e)
  | None =>
      let dc := g.2 in
      if bool_decide (GetDeletionTimestamp dc ≠ None)
      then Reconciler__reconcileDelete r dc
      else Reconciler__reconcileNormal r dc
  end.

End reconciler.

End controllers.

(** * Theorems *)
