(* ===== verification/Mocks.v ===== *)
(** * Mocks of the collaborators of the top-level reconciler

    The tests of the controller run the reconciler against generated
    mocks.  A mock logs the call it receives, with the DeviceConfig as it
    is at that moment, and answers as its [Responder] says; an answer may
    carry an object, which is written into the caller's (the [DoAndReturn]
    of the tests' [Get]).

    Two responders:
    - [oracle o]: the answer is a function of the calls made so far and of
      the call.  Every behaviour a collaborator can show in one tick is
      some oracle's, so a theorem for all oracles holds of every
      implementation of the interfaces.
    - [gomock]: the expectations of a test, in the groups [gomock.InOrder]
      makes of them.  A call is answered by the first group whose next
      expectation matches it; a call no group expects fails the test, and
      [Finish] says whether every expectation was met. *)

From Stdlib Require Import String ZArith.
From stdpp Require Import base tactics option list gmap strings.
From S2P Require Import Prelude GoRuntime ApiTypes Client ControllerUtil ModuleReconciler.
From S2P Require Import Finalizers Conditions NodeSelector Controller.

Import metav1 kmmv1beta1 hlaiv1alpha1.

#[local] Open Scope go_scope.

(** ** Definitions *)

Module mock.

Inductive Call : Type :=
| CallClient (c : Client.Call DeviceConfig.t)
| CallEvent (dc : DeviceConfig.t mapv) (eventtype reason message : string)
| CallCheckDeviceConfigForConflictingNodeSelector (dc : DeviceConfig.t mapv)
| CallContainsDeletionFinalizer (dc : DeviceConfig.t mapv)
| CallAddDeletionFinalizer (dc : DeviceConfig.t mapv)
| CallRemoveDeletionFinalizer (dc : DeviceConfig.t mapv)
| CallReconcileModule (dc : DeviceConfig.t mapv)
| CallSetDesiredModule (m : option (Module.t mapv)) (dc : DeviceConfig.t mapv)
| CallDeleteModule (dc : DeviceConfig.t mapv)
| CallReconcileNodeLabeler (dc : DeviceConfig.t mapv)
| CallReconcileNodeMetrics (dc : DeviceConfig.t mapv)
| CallSetConditionsReady (dc : DeviceConfig.t mapv) (reason message : string)
| CallSetConditionsErrored (dc : DeviceConfig.t mapv) (reason message : string).

(** What a mock returns: an error, a boolean, and the object it writes
    into the DeviceConfig of the caller, if it does. *)
Record Answer : Type := mkAnswer {
  ans_err : error;
  ans_bool : bool;
  ans_obj : option (DeviceConfig.t mapv);
}.

(** [Return(err)], [Return(b)] and the [DoAndReturn] of the tests. *)
Definition Return (err : error) : Answer := mkAnswer err false None.
Definition ReturnBool (b : bool) : Answer := mkAnswer nil b None.
Definition DoAndReturn (obj : DeviceConfig.t mapv) (err : error) : Answer :=
  mkAnswer err false (Some obj).

Definition Responder (S : Type) : Type := Call -> Go (World S) Answer.

Section mocks.
Context {S : Type} (respond : Responder S).

(** One call of a mock about the DeviceConfig [dc]. *)
Definition ask (c : Heap -> Call) (dc : DeviceConfig.t gomap) :
  Go (World S) (Answer * DeviceConfig.t gomap) :=
  h <- gets heap;;
  a <- respond (c h);;
  match ans_obj a with
  | Some v => dc' <- thaw v;; ret (a, dc')
  | None => ret (a, dc)
  end.

Definition ask_err (c : Heap -> Call) (dc : DeviceConfig.t gomap) : Go (World S) error :=
  x <- ask c dc;; ret (ans_err x.1).

Definition ask_obj (c : Heap -> Call) (dc : DeviceConfig.t gomap) :
  Go (World S) (error * DeviceConfig.t gomap) :=
  x <- ask c dc;; ret (ans_err x.1, x.2).

#[export] Instance MockClient : Client DeviceConfig.t S := {|
  Get key obj := ask_obj (fun h => CallClient (CallGet key (freeze h obj))) obj;
  Create obj := ask_obj (fun h => CallClient (CallCreate (freeze h obj))) obj;
  Delete obj := ask_err (fun h => CallClient (CallDelete (freeze h obj))) obj;
  Patch obj before := ask_obj (fun h => CallClient (CallPatch (freeze h obj) before)) obj;
  Update obj := ask_obj (fun h => CallClient (CallUpdate (freeze h obj))) obj;
  StatusUpdate obj := ask_obj (fun h => CallClient (CallStatusUpdate (freeze h obj))) obj;
|}.

#[export] Instance MockRecorder : record.EventRecorder S := {|
  record.Event dc eventtype reason message :=
    ask (fun h => CallEvent (freeze h dc) eventtype reason message) dc;;; ret tt;
|}.

#[export] Instance MockNodeSelectorValidator : NodeSelectorValidator S := {|
  CheckDeviceConfigForConflictingNodeSelector dc :=
    ask_err (fun h => CallCheckDeviceConfigForConflictingNodeSelector (freeze h dc)) dc;
|}.

#[export] Instance MockFinalizerUpdater : finalizers.Updater S := {|
  finalizers.ContainsDeletionFinalizer dc :=
    x <- ask (fun h => CallContainsDeletionFinalizer (freeze h dc)) dc;; ret (ans_bool x.1);
  finalizers.AddDeletionFinalizer dc :=
    ask_obj (fun h => CallAddDeletionFinalizer (freeze h dc)) dc;
  finalizers.RemoveDeletionFinalizer dc :=
    ask_obj (fun h => CallRemoveDeletionFinalizer (freeze h dc)) dc;
|}.

#[export] Instance MockModuleReconciler : ModuleReconciler.Reconciler S := {|
  ReconcileModule dc := ask_err (fun h => CallReconcileModule (freeze h dc)) dc;
  SetDesiredModule m dc :=
    x <- ask (fun h => CallSetDesiredModule (freeze h <$> m) (freeze h dc)) dc;;
    ret (ans_err x.1, m);
  DeleteModule dc := ask_err (fun h => CallDeleteModule (freeze h dc)) dc;
|}.

#[export] Instance MockNodeLabeler : nodeLabeler.Reconciler S := {|
  nodeLabeler.ReconcileNodeLabeler dc :=
    ask_err (fun h => CallReconcileNodeLabeler (freeze h dc)) dc;
|}.

#[export] Instance MockNodeMetrics : nodeMetrics.Reconciler S := {|
  nodeMetrics.ReconcileNodeMetrics dc :=
    ask_err (fun h => CallReconcileNodeMetrics (freeze h dc)) dc;
|}.

#[export] Instance MockConditionsUpdater : conditions.Updater S := {|
  conditions.SetConditionsReady dc reason message :=
    ask_obj (fun h => CallSetConditionsReady (freeze h dc) reason message) dc;
  conditions.SetConditionsErrored dc reason message :=
    ask_obj (fun h => CallSetConditionsErrored (freeze h dc) reason message) dc;
|}.

(** The reconciler with every collaborator mocked. *)
Definition Reconciler (s : Scheme) : controllers.Reconciler S :=
  controllers.NewReconciler (Some MockClient) s (Some MockRecorder) (Some MockModuleReconciler)
    (Some MockNodeMetrics) (Some MockNodeLabeler) (Some MockFinalizerUpdater)
    (Some MockConditionsUpdater) (Some MockNodeSelectorValidator).

End mocks.

(** *** The oracle *)

Definition Oracle : Type := list Call -> Call -> Answer.

Definition oracle (o : Oracle) : Responder (list Call) :=
  fun c =>
    log <- gets cstate;;
    modify (set_cstate (log ++ [c]));;;
    ret (o log c).

(** *** [gomock] *)

Record Expectation : Type := EXPECT {
  matches : Call -> bool;
  answer : Answer;
}.

Record Controller : Type := mkController {
  expected : list (list Expectation);
  calls : list Call;
}.

(** [gomock.NewController] with the expectations recorded before the
    reconciler runs. *)
Definition NewController (groups : list (list Expectation)) : Controller :=
  mkController groups [].

(** The first group whose next expectation matches the call, with that
    expectation taken off. *)
Fixpoint take_expected (c : Call) (groups : list (list Expectation)) :
  option (Answer * list (list Expectation)) :=
  match groups with
  | [] => None
  | [] :: gs => prod_map id (cons []) <$> take_expected c gs
  | (e :: g) :: gs =>
      if matches e c then Some (answer e, g :: gs)
      else prod_map id (cons (e :: g)) <$> take_expected c gs
  end.

Definition gomock : Responder Controller :=
  fun c =>
    ctrl <- gets cstate;;
    match take_expected c (expected ctrl) with
    | Some (a, groups) =>
        modify (set_cstate (mkController groups (calls ctrl ++ [c])));;;
        ret a
    | None => panic "Unexpected call: there are no expected calls of the method for that receiver"
    end.

(** [ctrl.Finish()]: no expected call is missing. *)
Definition Finish (ctrl : Controller) : bool :=
  forallb (fun g => bool_decide (length g = 0)) (expected ctrl).

End mock.

(** ** The method a call is of, and the DeviceConfig it is about *)

Inductive Method : Type :=
| MGet | MClient | MEvent | MCheck | MContains | MAdd | MRemove
| MReconcileModule | MSetDesiredModule | MDeleteModule
| MReconcileNodeLabeler | MReconcileNodeMetrics | MSetReady | MSetErrored.

#[export] Instance Method_eq_dec : EqDecision Method.
Proof. solve_decision. Defined.

Definition method (c : mock.Call) : Method :=
  match c with
  | mock.CallClient (CallGet _ _) => MGet
  | mock.CallClient _ => MClient
  | mock.CallEvent _ _ _ _ => MEvent
  | mock.CallCheckDeviceConfigForConflictingNodeSelector _ => MCheck
  | mock.CallContainsDeletionFinalizer _ => MContains
  | mock.CallAddDeletionFinalizer _ => MAdd
  | mock.CallRemoveDeletionFinalizer _ => MRemove
  | mock.CallReconcileModule _ => MReconcileModule
  | mock.CallSetDesiredModule _ _ => MSetDesiredModule
  | mock.CallDeleteModule _ => MDeleteModule
  | mock.CallReconcileNodeLabeler _ => MReconcileNodeLabeler
  | mock.CallReconcileNodeMetrics _ => MReconcileNodeMetrics
  | mock.CallSetConditionsReady _ _ _ => MSetReady
  | mock.CallSetConditionsErrored _ _ _ => MSetErrored
  end.

(** The DeviceConfig a collaborator is handed; the client is handed the
    empty object it fills. *)
Definition subject (c : mock.Call) : option (DeviceConfig.t mapv) :=
  match c with
  | mock.CallClient _ => None
  | mock.CallEvent dc _ _ _
  | mock.CallCheckDeviceConfigForConflictingNodeSelector dc
  | mock.CallContainsDeletionFinalizer dc
  | mock.CallAddDeletionFinalizer dc
  | mock.CallRemoveDeletionFinalizer dc
  | mock.CallReconcileModule dc
  | mock.CallSetDesiredModule _ dc
  | mock.CallDeleteModule dc
  | mock.CallReconcileNodeLabeler dc
  | mock.CallReconcileNodeMetrics dc
  | mock.CallSetConditionsReady dc _ _
  | mock.CallSetConditionsErrored dc _ _ => Some dc
  end.

(** What a call to a mock leaves: the call logged and the answer the
    oracle gives; the object of the answer decoded, or the caller's object
    and the heap as they were. *)
Definition asked (o : mock.Oracle) (c : mock.Call) (dc : DeviceConfig.t gomap)
  (w : World (list mock.Call)) (x : mock.Answer * DeviceConfig.t gomap)
  (w' : World (list mock.Call)) : Prop :=
  cstate w' = cstate w ++ [c] /\ x.1 = o (cstate w) c /\ heap w ⊆ heap w' /\
  match mock.ans_obj x.1 with
  | None => x.2 = dc /\ heap w' = heap w
  | Some v => freeze (heap w') x.2 = v /\ object_valid (heap w') x.2
  end.

(** * Theorems *)

Section oracle_rules.
Context (o : mock.Oracle).
Implicit Types (w : World (list mock.Call)) (dc : DeviceConfig.t gomap) (c : mock.Call).

Lemma wp_ask mk dc w Q :
  (forall x w', asked o (mk (heap w)) dc w x w' -> Q x w') ->
  wp (mock.ask (mock.oracle o) mk dc) w Q.
Proof.
  intros H. unfold mock.ask, mock.oracle.
  apply wp_bind, wp_gets, wp_bind, wp_bind, wp_gets, wp_bind, wp_modify, wp_ret.
  destruct (mock.ans_obj (o (cstate w) (mk (heap w)))) as [v|] eqn:E.
  - apply wp_bind, wp_thaw. intros dc' h' Hsub Hf Hv _. apply wp_ret, H.
    unfold asked. cbn. by rewrite E.
  - apply wp_ret, H. unfold asked. cbn. by rewrite E.
Qed.

Lemma wp_ask_err mk dc w Q :
  (forall x w', asked o (mk (heap w)) dc w x w' -> Q (mock.ans_err x.1) w') ->
  wp (mock.ask_err (mock.oracle o) mk dc) w Q.
Proof. intros H. apply wp_bind, wp_ask. intros x w' Hx. by apply wp_ret, H. Qed.

Lemma wp_ask_obj mk dc w Q :
  (forall x w', asked o (mk (heap w)) dc w x w' -> Q (mock.ans_err x.1, x.2) w') ->
  wp (mock.ask_obj (mock.oracle o) mk dc) w Q.
Proof. intros H. apply wp_bind, wp_ask. intros x w' Hx. by apply wp_ret, H. Qed.

(** A call keeps an object that was valid before it valid, and frozen to
    the same value. *)
Lemma asked_freeze c dc dc0 w x w' :
  asked o c dc w x w' -> object_valid (heap w) dc0 ->
  object_valid (heap w') dc0 /\ freeze (heap w') dc0 = freeze (heap w) dc0.
Proof.
  intros (_ & _ & Hsub & _) Hv. split; [by eapply object_valid_subseteq|].
  by apply freeze_subseteq.
Qed.

(** The object the caller holds after the call. *)
Lemma asked_written c dc w x w' :
  asked o c dc w x w' -> object_valid (heap w) dc ->
  object_valid (heap w') x.2 /\
  freeze (heap w') x.2 = default (freeze (heap w) dc) (mock.ans_obj x.1).
Proof.
  intros (_ & _ & Hsub & Hobj) Hv. destruct (mock.ans_obj x.1) as [v|]; cbn.
  - by destruct Hobj.
  - destruct Hobj as [-> ->]. done.
Qed.

End oracle_rules.
