(* ===== verification/Protocol.v ===== *)
(** * The protocol of one tick

    [tick] is what the top-level reconciler says to its collaborators in
    one tick and what it returns, as a program over the log of the calls
    alone: the DeviceConfig is a value, there is no heap, and a
    collaborator changes the DeviceConfig only by the object of its
    answer.  [Reconcile_tick] shows that the reconciler run against mocks
    is this program; the properties of a tick (the order of the calls,
    the deletion barrier, one condition write per tick, the errors) are
    then read off [tick]. *)

From Stdlib Require Import String ZArith.
From stdpp Require Import base tactics option list gmap strings.
From S2P Require Import Prelude GoRuntime ApiTypes Client ControllerUtil ModuleReconciler.
From S2P Require Import Finalizers Conditions NodeSelector Controller Mocks.

Import metav1 kmmv1beta1 hlaiv1alpha1.

#[local] Open Scope go_scope.

(** ** Definitions *)

Abbreviation Log := (list mock.Call).

Section protocol.
Context (W : controllers.Wording) (o : mock.Oracle).
Implicit Types (dc : DeviceConfig.t mapv).

(** One call: logged, and answered by the oracle. *)
Definition say (c : mock.Call) : Go Log mock.Answer :=
  l <- get;; put (l ++ [c]);;; ret (o l c).

Definition tick_fail dc (reason : string) (e : err) : Go Log error :=
  say (mock.CallSetConditionsErrored dc reason (controllers.FailureMessage W e));;;
  ret (Some e).

Definition tick_delete dc : Go Log error :=
  a <- say (mock.CallContainsDeletionFinalizer dc);;
  if negb (mock.ans_bool a) then ret nil
  else
    a <- say (mock.CallDeleteModule dc);;
    let err := mock.ans_err a in
    if bool_decide (err ≠ nil) && negb (apierrors.IsNotFound err) then
      ret (err ≫= fmt.Errorf_w controllers.deleteFailed)
    else
      a <- say (mock.CallRemoveDeletionFinalizer dc);;
      ret (mock.ans_err a).

Definition tick_children dc : Go Log error :=
  a <- say (mock.CallReconcileModule dc);;
  match mock.ans_err a with
  | Some e => tick_fail dc conditions.ReasonModuleFailed e
  | None =>
      a <- say (mock.CallReconcileNodeLabeler dc);;
      match mock.ans_err a with
      | Some e => tick_fail dc conditions.ReasonNodeLabelerFailed e
      | None =>
          a <- say (mock.CallReconcileNodeMetrics dc);;
          match mock.ans_err a with
          | Some e => tick_fail dc conditions.ReasonNodeMetricsFailed e
          | None =>
              say (mock.CallSetConditionsReady dc conditions.ReasonReconciled
                     (controllers.ReadyMessage W (GetGeneration dc)));;;
              ret nil
          end
      end
  end.

Definition tick_normal dc : Go Log error :=
  a <- say (mock.CallCheckDeviceConfigForConflictingNodeSelector dc);;
  match mock.ans_err a with
  | Some _ =>
      say (mock.CallEvent dc controllers.EventTypeWarning (controllers.ConflictReason W)
             controllers.conflictMessage);;;
      ret nil
  | None =>
      a <- say (mock.CallContainsDeletionFinalizer dc);;
      if mock.ans_bool a then tick_children dc
      else
        a <- say (mock.CallAddDeletionFinalizer dc);;
        match mock.ans_err a with
        | Some e => ret (Some e)
        | None => tick_children (default dc (mock.ans_obj a))
        end
  end.

Definition tick (req : reconcile.Request) : Go Log error :=
  a <- say (mock.CallClient (CallGet (reconcile.NamespacedName req) (DeviceConfig.zero None)));;
  match mock.ans_err a with
  | Some e => if apierrors.IsNotFound (Some e) then ret nil else ret (Some e)
  | None =>
      let dc := default (DeviceConfig.zero None) (mock.ans_obj a) in
      if bool_decide (GetDeletionTimestamp dc ≠ None) then tick_delete dc else tick_normal dc
  end.

End protocol.

(** The tick returns without a requeue, with the error and the log of the
    run [T] of the protocol. *)
Definition refines (T : outcome Log error) (res : reconcile.Result * error) (w' : World Log) :
  Prop :=
  res.1 = reconcile.mkResult false /\ T = Ok res.2 (cstate w').

(** The sequences of calls of one tick (sections 4.1 and 4.2), by
    method. *)
Definition tick_shapes : list (list Method) :=
  let children := [MReconcileModule; MReconcileNodeLabeler; MReconcileNodeMetrics] in
  let normal (pre : list Method) :=
    [ pre ++ take 1 children ++ [MSetErrored];
      pre ++ take 2 children ++ [MSetErrored];
      pre ++ children ++ [MSetErrored];
      pre ++ children ++ [MSetReady] ] in
  [ [MGet];
    [MGet; MContains];
    [MGet; MContains; MDeleteModule];
    [MGet; MContains; MDeleteModule; MRemove];
    [MGet; MCheck; MEvent];
    [MGet; MCheck; MContains; MAdd] ]
  ++ normal [MGet; MCheck; MContains]
  ++ normal [MGet; MCheck; MContains; MAdd].

(** The calls to the sub-reconcilers and the writes of a condition among
    the calls of a tick. *)
Definition is_child (m : Method) : bool :=
  bool_decide (m ∈ [MReconcileModule; MReconcileNodeLabeler; MReconcileNodeMetrics]).

Definition is_condition_write (m : Method) : bool :=
  bool_decide (m ∈ [MSetReady; MSetErrored]).

(** The reason of the Errored condition a failed sub-reconciler leaves. *)
Definition failure_reason (m : Method) : string :=
  match m with
  | MReconcileModule => conditions.ReasonModuleFailed
  | MReconcileNodeLabeler => conditions.ReasonNodeLabelerFailed
  | MReconcileNodeMetrics => conditions.ReasonNodeMetricsFailed
  | _ => ""
  end.

(** * Theorems *)

Section refinement.
Context (W : controllers.Wording) (o : mock.Oracle) (s : Scheme).
Implicit Types (w : World Log) (dc : DeviceConfig.t gomap) (v : DeviceConfig.t mapv).

Let r := mock.Reconciler (mock.oracle o) s.

Lemma say_run {A} c (l : Log) (k : mock.Answer -> Go Log A) :
  bind (say o c) k l = k (o l c) (l ++ [c]).
Proof. reflexivity. Qed.

Lemma say_run' c (l : Log) :
  say o c l = Ok (o l c) (l ++ [c]).
Proof. reflexivity. Qed.

(** One call to a mock about [dc]: the answer and the log that the
    protocol computes, and [dc] as it was. *)
Lemma heard c dc w x w' :
  asked o c dc w x w' -> object_valid (heap w) dc ->
  o (cstate w) c = x.1 /\ cstate w ++ [c] = cstate w' /\
  object_valid (heap w') dc /\ freeze (heap w') dc = freeze (heap w) dc /\
  object_valid (heap w') x.2 /\
  freeze (heap w') x.2 = default (freeze (heap w) dc) (mock.ans_obj x.1).
Proof.
  intros Hx Hv. destruct (asked_freeze _ _ _ dc _ _ _ Hx Hv) as [? ?].
  destruct (asked_written _ _ _ _ _ _ Hx Hv) as [? ?].
  destruct Hx as (Hl & Ha & _). by split_and!.
Qed.

Ltac mock_call Hv Hf :=
  first [apply wp_ask_err | apply wp_ask_obj | apply wp_ask | apply wp_bind, wp_ask];
  let x := fresh "x" in let w' := fresh "w" in let Hx := fresh "Hx" in
  let Ha := fresh "Ha" in let Hl := fresh "Hl" in
  let Hv' := fresh "Hv" in let Hf' := fresh "Hf" in
  let Hvx := fresh "Hvx" in let Hfx := fresh "Hfx" in
  intros x w' Hx;
  apply heard in Hx as (Ha & Hl & Hv' & Hf' & Hvx & Hfx); [|exact Hv];
  try rewrite Hf in Ha; try rewrite Hf in Hl; try rewrite Hf in Hf'; try rewrite Hf in Hfx;
  rewrite say_run, ?Ha, Hl; clear Ha Hl.

Ltac open_call :=
  cbn [invoke r mock.Reconciler controllers.NewReconciler
       controllers.Client_ controllers.recorder controllers.mr controllers.nmr controllers.nlr
       controllers.fu controllers.cu controllers.nsv
       Get DeleteModule ReconcileModule record.Event
       finalizers.ContainsDeletionFinalizer finalizers.AddDeletionFinalizer
       finalizers.RemoveDeletionFinalizer nodeLabeler.ReconcileNodeLabeler
       nodeMetrics.ReconcileNodeMetrics conditions.SetConditionsReady
       conditions.SetConditionsErrored CheckDeviceConfigForConflictingNodeSelector
       mock.MockClient mock.MockRecorder mock.MockNodeSelectorValidator
       mock.MockFinalizerUpdater mock.MockModuleReconciler mock.MockNodeLabeler
       mock.MockNodeMetrics mock.MockConditionsUpdater].

Ltac returns := apply wp_ret; by split.

Lemma reconcileDelete_tick dc v w :
  object_valid (heap w) dc -> freeze (heap w) dc = v ->
  wp (controllers.Reconciler__reconcileDelete r dc) w (refines (tick_delete o v (cstate w))).
Proof.
  intros Hv Hf. unfold controllers.Reconciler__reconcileDelete, tick_delete. open_call.
  apply wp_bind. mock_call Hv Hf. apply wp_ret.
  destruct (mock.ans_bool x.1); cbn [negb]; [|returns].
  apply wp_bind. mock_call Hv0 Hf0. destruct (_ && _); [returns|].
  apply wp_bind. mock_call Hv1 Hf1. returns.
Qed.

Lemma fail_tick dc v reason e w :
  object_valid (heap w) dc -> freeze (heap w) dc = v ->
  wp (controllers.Reconciler__fail W r dc reason e) w (refines (tick_fail W o v reason e (cstate w))).
Proof.
  intros Hv Hf. unfold controllers.Reconciler__fail, tick_fail. open_call.
  apply wp_bind. mock_call Hv Hf. returns.
Qed.

Lemma reconcileChildren_tick dc v w :
  object_valid (heap w) dc -> freeze (heap w) dc = v ->
  wp (controllers.Reconciler__reconcileChildren W r dc) w
     (refines (tick_children W o v (cstate w))).
Proof.
  intros Hv Hf. unfold controllers.Reconciler__reconcileChildren, tick_children. open_call.
  replace (GetGeneration dc) with (GetGeneration v) by by rewrite <- Hf.
  apply wp_bind. mock_call Hv Hf. destruct (mock.ans_err x.1); [by apply fail_tick|].
  apply wp_bind. mock_call Hv0 Hf0. destruct (mock.ans_err x0.1); [by apply fail_tick|].
  apply wp_bind. mock_call Hv1 Hf1. destruct (mock.ans_err x1.1); [by apply fail_tick|].
  apply wp_bind. mock_call Hv2 Hf2. returns.
Qed.

Lemma reconcileNormal_tick dc v w :
  object_valid (heap w) dc -> freeze (heap w) dc = v ->
  wp (controllers.Reconciler__reconcileNormal W r dc) w (refines (tick_normal W o v (cstate w))).
Proof.
  intros Hv Hf. unfold controllers.Reconciler__reconcileNormal, tick_normal. open_call.
  apply wp_bind. mock_call Hv Hf. destruct (mock.ans_err x.1).
  { apply wp_bind, wp_bind. mock_call Hv0 Hf0. apply wp_ret. returns. }
  apply wp_bind, wp_bind. mock_call Hv0 Hf0. apply wp_ret.
  destruct (mock.ans_bool x0.1); [by apply reconcileChildren_tick|].
  apply wp_bind. mock_call Hv1 Hf1. cbn [fst snd].
  destruct (mock.ans_err x1.1); [returns|]. by apply reconcileChildren_tick.
Qed.

(** The reconciler run against mocks is the protocol: it returns the
    error and leaves the log that [tick] computes, and asks for no
    requeue. *)
Lemma Reconcile_tick req w :
  wp (controllers.Reconciler__Reconcile W r req) w (refines (tick W o req (cstate w))).
Proof.
  unfold controllers.Reconciler__Reconcile, tick. open_call.
  assert (object_valid (heap w) (DeviceConfig.zero None)) as Hv by (by repeat constructor).
  assert (freeze (heap w) (DeviceConfig.zero None) = DeviceConfig.zero None) as Hf by done.
  apply wp_bind. mock_call Hv Hf.
  cbn [fst snd]. destruct (mock.ans_err x.1) as [e|].
  { destruct (apierrors.IsNotFound (Some e)); returns. }
  replace (GetDeletionTimestamp x.2) with
    (GetDeletionTimestamp (default (DeviceConfig.zero None) (mock.ans_obj x.1)))
    by by rewrite <- Hfx.
  case_bool_decide; [by apply reconcileDelete_tick | by apply reconcileNormal_tick].
Qed.

End refinement.

(** [tick_cases] splits a goal about [tick] into the paths of a tick,
    each with the answers that lead to it as hypotheses and its calls as
    a list. *)
Ltac tick_cases :=
  unfold tick, tick_normal, tick_delete, tick_children, tick_fail;
  repeat first [rewrite say_run | case_match];
  rewrite <- ?app_assoc in *; cbn [app] in *.

(** From the run of the reconciler against mocks to the run of the
    protocol. *)
Ltac by_protocol :=
  let res := fresh "res" in let w' := fresh "w'" in
  let Hr := fresh "Hr" in let Ht := fresh "Ht" in
  eapply wp_mono; [apply Reconcile_tick|]; intros res w' [Hr Ht]; revert Ht.

Section tick_properties.
Context (W : controllers.Wording) (s : Scheme) (o : mock.Oracle).
Implicit Types (l : Log) (req : reconcile.Request) (w : World Log).

Let r := mock.Reconciler (mock.oracle o) s.

Lemma tick_methods req l :
  exists err calls, tick W o req l = Ok err (l ++ calls) /\ method <$> calls ∈ tick_shapes.
Proof.
  tick_cases; eexists _, _; (split; [reflexivity|]).
  all: apply (bool_decide_unpack _); by vm_compute.
Qed.

(** C?. The order of the calls: whatever the collaborators answer, one
    tick makes one of the sequences of calls of [tick_shapes], after the
    calls made before it, and asks for no requeue. *)
Theorem Reconcile_tick_shape req w :
  wp (controllers.Reconciler__Reconcile W r req) w
     (fun res w' =>
        reconcile.Requeue res.1 = false /\
        exists calls, cstate w' = cstate w ++ calls /\ method <$> calls ∈ tick_shapes).
Proof.
  by_protocol. destruct (tick_methods req (cstate w)) as (err & calls & -> & Hs).
  intros [= _ <-]. rewrite Hr. eauto.
Qed.

(** C?. The deletion barrier (I4), on the calls: the finalizer is removed
    only right after a [DeleteModule] of the same DeviceConfig that
    answered nil or a not-found error. *)
Theorem Reconcile_deletion_barrier req w :
  wp (controllers.Reconciler__Reconcile W r req) w
     (fun res w' => forall calls i v,
        cstate w' = cstate w ++ calls ->
        calls !! S i = Some (mock.CallRemoveDeletionFinalizer v) ->
        calls !! i = Some (mock.CallDeleteModule v) /\
        let e := mock.ans_err (o (cstate w ++ take i calls) (mock.CallDeleteModule v)) in
        e = nil \/ apierrors.IsNotFound e = true).
Proof.
  by_protocol. tick_cases; intros [= _ <-] calls i v <-%app_inv_head Hi.
  all: repeat (destruct i as [|i]; simplify_eq/=).
  split; [done|]. cbn [take].
  cbv zeta. match goal with |- ?x = nil \/ _ => destruct x as [e|] end; [right|by left].
  match goal with H : _ && _ = false |- _ => rewrite bool_decide_true in H by done;
    by apply negb_false_iff in H end.
Qed.

(** C?. One condition write per tick (I5): whatever the collaborators
    answer, a tick calls the conditions updater at most once, so it never
    writes both Ready and Errored. *)
Theorem Reconcile_one_condition_write req w :
  wp (controllers.Reconciler__Reconcile W r req) w
     (fun res w' => forall calls,
        cstate w' = cstate w ++ calls ->
        length (filter is_condition_write (method <$> calls)) <= 1).
Proof.
  by_protocol. destruct (tick_methods req (cstate w)) as (err & calls & -> & Hs).
  intros [= _ <-] ? <-%app_inv_head. revert Hs. generalize (method <$> calls).
  apply Forall_forall, (bool_decide_unpack _). by vm_compute.
Qed.

(** C?. A failure of a sub-reconciler is recorded and returned (P4, on
    the calls): when a tick that has called the Module sub-reconciler
    returns an error, the error is the answer of the last sub-reconciler
    called, the last call sets the Errored condition with the reason of
    that sub-reconciler, and Ready is not set. *)
Theorem Reconcile_reports_failure req w :
  wp (controllers.Reconciler__Reconcile W r req) w
     (fun res w' => forall calls e,
        cstate w' = cstate w ++ calls -> res.2 = Some e ->
        MReconcileModule ∈ method <$> calls ->
        MSetReady ∉ method <$> calls /\
        exists pre c v,
          calls = pre ++ [c; mock.CallSetConditionsErrored v (failure_reason (method c))
                               (controllers.FailureMessage W e)] /\
          is_child (method c) = true /\ subject c = Some v /\
          mock.ans_err (o (cstate w ++ pre) c) = Some e).
Proof.
  by_protocol. tick_cases; intros [= Hres <-] calls e' <-%app_inv_head He Hm.
  all: rewrite <- Hres in He; simplify_eq; try by (cbn in Hm; set_solver).
  all: split; [cbn; set_solver|].
  all: match goal with |- exists pre c v, ?L = _ /\ _ =>
         exists (take (length L - 2) L), (default (mock.CallReconcileModule (DeviceConfig.zero None)) (L !! (length L - 2)))
       end.
  all: cbn [length take Nat.sub default lookup list_lookup]; eexists; by split_and!.
Qed.

End tick_properties.
