(* ===== verification/ModuleTests.v ===== *)
(** * The fixtures of [src/internal/module/module_test.go]

    The constants and the objects the unit tests of the Module reconciler
    build, the scenarios of the tests run on the mock client, and the
    theorems of [ModuleReconciler.v] and [ModuleStore.v] applied to the
    fixtures. *)

From Stdlib Require Import Ascii String ZArith.
From stdpp Require Import base tactics option list gmap strings.
From S2P Require Import Prelude GoRuntime ApiTypes Client FakeClient ControllerUtil.
From S2P Require Import ModuleReconciler ModuleStore.

Import metav1 kmmv1beta1 hlaiv1alpha1.

#[local] Open Scope go_scope.

(** ** Definitions *)

Definition testDriverImage : string := "driver".
Definition testDriverVersion : string := "test".

Definition testLabelKey : string := "label".
Definition testLabelValue : string := "test".

(** [s.Settings] in the tests: no device-plugin image is configured. *)
Definition testSettings : s.SettingsT := s.mk "".

(** The DeviceConfig of [BeforeEach]: a name and a namespace, nothing else. *)
Definition test_dc : DeviceConfig.t gomap :=
  DeviceConfig.mk
    (ObjectMeta.mk "a-device-config" "a-namespace" "" "" 0 None [] [] None)
    (DeviceConfigSpec.mk "" "" None)
    (DeviceConfigStatus.mk []).

(** The map [map[string]string{testLabelKey: testLabelValue}] of the
    [SetDesiredModule] tests, at the first location of the heap. *)
Definition test_selector : loc := 1%positive.

Definition test_heap : Heap := {[ test_selector := {[ testLabelKey := testLabelValue ]} ]}.

(** The DeviceConfig of the [SetDesiredModule] tests: the selector, the
    driver image and the driver version are set. *)
Definition test_dc_desired : DeviceConfig.t gomap :=
  DeviceConfig.mk
    (DeviceConfig.ObjectMeta test_dc)
    (DeviceConfigSpec.mk testDriverImage testDriverVersion (Some test_selector))
    (DeviceConfig.Status test_dc).

(** The Module of the [SetDesiredModule] tests. *)
Definition test_module : Module.t gomap :=
  Module.with_ObjectMeta
    (ObjectMeta.mk "a-name" "a-namespace" "" "" 0 None [] [] None)
    (Module.zero None).

(** The scheme of the tests: the DeviceConfig and the Module kinds added. *)
Definition test_scheme : Scheme :=
  kmmv1beta1_AddToScheme (hlaiv1alpha1_AddToScheme ∅).

(** The reconciler of the tests, [NewReconciler(c, s)], on a mock client
    that answers by the script [responses]. *)
Definition test_reconciler (responses : list (Response Module.t)) :
  moduleReconciler (list (Call Module.t)) :=
  NewReconciler (OracleClient (script_oracle responses)) test_scheme.

(** The state a test starts in: the heap given, no call made yet. *)
Definition test_world (h : Heap) : World (list (Call Module.t)) := mkWorld h [].

(** The errors the mock client returns in the tests. *)
Definition test_not_found : error := apierrors.NewNotFound "modules" (GetModuleName test_dc).
Definition test_get_error : error := errors.New "some-other-that-not-found-error".

(** [Return(e)] of a mock expectation: the error, and no object written. *)
Definition Return (e : error) : Response Module.t := mkResponse e None.

(** The reconciler on the in-memory store, at the time [test_now], and
    the state a run on it starts in. *)
Definition test_now : Z := 1700000000.

Definition test_store_reconciler : moduleReconciler (Store Module.t) :=
  NewReconciler (FakeClient test_now) test_scheme.

Definition test_store_world (st : Store Module.t) : World (Store Module.t) :=
  mkWorld test_heap st.

(** The kind the scheme of the tests gives the DeviceConfig. *)
Definition test_gvk : schema.GroupVersionKind.t :=
  schema.GroupVersionKind.mk "habana.ai" "v1alpha1" "DeviceConfig".

(** The Module of the DeviceConfig of the tests once created, and the same
    with a finalizer of another controller. *)
Definition test_child : Module.t mapv :=
  created_module testSettings test_gvk (freeze test_heap test_dc_desired).

Definition test_child_finalized : Module.t mapv :=
  Module.with_ObjectMeta
    (ObjectMeta.with_Finalizers ["example.com/hold"] (Module.ObjectMeta test_child)) test_child.

(** ** Theorems *)

Lemma test_dc_desired_ok : cr_ok test_heap test_dc_desired.
Proof.
  split; [|done]. repeat constructor.
Qed.

Lemma test_scheme_wf : scheme_wf test_scheme.
Proof.
  unfold test_scheme, kmmv1beta1_AddToScheme, hlaiv1alpha1_AddToScheme.
  repeat apply map_Forall_insert_2; [by eexists..|]. apply map_Forall_empty.
Qed.

Lemma test_child_wf (v : Module.t mapv) :
  key_of v = child_key test_dc_desired -> gone v = false ->
  store_wf ({[ child_key test_dc_desired := v ]} : Store Module.t).
Proof.
  intros <- Hg. rewrite <- insert_empty. apply store_wf_insert; [done|apply store_wf_empty].
Qed.

Lemma SetDesiredModule_mutates_DeviceConfig_witness :
  DeviceConfigSpec.NodeSelector (DeviceConfig.Spec test_dc_desired) = Some test_selector /\
  wp (moduleReconciler__SetDesiredModule testSettings (test_reconciler [])
        (Some test_module) test_dc_desired)
     (test_world test_heap)
     (fun res w' =>
        (exists m', res.2 = Some m' /\ ModuleSpec.Selector (Module.Spec m') = Some test_selector) /\
        DeviceConfigSpec.NodeSelector (DeviceConfig.Spec (freeze (heap w') test_dc_desired)) =
        Some (<[presentLabel := "true"]> (deref test_heap test_selector))).
Proof.
  split; [reflexivity|].
  apply (SetDesiredModule_mutates_DeviceConfig testSettings (test_reconciler []) test_module
           test_dc_desired (test_world test_heap) test_selector).
  reflexivity.
Defined.

(** *** The scenarios of the tests *)




(** *** The theorems of the reconciler, at the fixtures *)


(** *** The theorems on the store, at the fixtures *)

Lemma ReconcileModule_refines_reconcile_witness :
  wp (moduleReconciler__ReconcileModule testSettings test_store_reconciler test_dc_desired)
     (test_store_world ∅)
     (fun err w' =>
        (err, cstate w') =
        reconcile testSettings test_scheme (freeze test_heap test_dc_desired) ∅).
Proof.
  refine (ReconcileModule_refines_reconcile testSettings test_now test_scheme test_dc_desired
           (test_store_world ∅) _ _); [apply store_wf_empty | apply test_dc_desired_ok].
Defined.

Lemma ReconcileModule_child_exists_witness :
  wp (moduleReconciler__ReconcileModule testSettings test_store_reconciler test_dc_desired)
     (test_store_world ∅)
     (fun err w' =>
        err = nil ->
        exists m, cstate w' !! child_key test_dc_desired = Some m /\
                  Module.Spec m = desiredSpec testSettings (freeze test_heap test_dc_desired)).
Proof.
  refine (ReconcileModule_child_exists testSettings test_now test_scheme test_dc_desired
           (test_store_world ∅) _ _); [apply store_wf_empty | apply test_dc_desired_ok].
Defined.

Lemma ReconcileModule_sets_controller_witness :
  wp (moduleReconciler__ReconcileModule testSettings test_store_reconciler test_dc_desired)
     (test_store_world ∅)
     (fun err w' =>
        err = nil ->
        exists m gvk,
          cstate w' !! child_key test_dc_desired = Some m /\
          test_scheme !! TypeName (K := DeviceConfig.t) = Some gvk /\
          controllerutil.GetControllerOf (GetOwnerReferences m) =
          Some (ownerRef gvk test_dc_desired)).
Proof.
  refine (ReconcileModule_sets_controller testSettings test_now test_scheme test_dc_desired
           (test_store_world ∅) _ _); [apply store_wf_empty | apply test_dc_desired_ok].
Defined.

Lemma ReconcileModule_idempotent_witness :
  wp (moduleReconciler__ReconcileModule testSettings test_store_reconciler test_dc_desired)
     (test_store_world ∅)
     (fun err1 w1 =>
        err1 = nil ->
        wp (moduleReconciler__ReconcileModule testSettings test_store_reconciler test_dc_desired)
           w1 (fun err2 w2 => err2 = nil /\ cstate w2 = cstate w1)).
Proof.
  refine (ReconcileModule_idempotent testSettings test_now test_scheme test_dc_desired
           (test_store_world ∅) _ _ _);
    [apply test_scheme_wf | apply store_wf_empty | apply test_dc_desired_ok].
Defined.


Lemma ReconcileModule_creates_witness :
  wp (moduleReconciler__ReconcileModule testSettings test_store_reconciler test_dc_desired)
     (test_store_world ∅)
     (fun err w' => err = nil /\ cstate w' = <[child_key test_dc_desired := test_child]> ∅).
Proof.
  refine (ReconcileModule_creates testSettings test_now test_scheme test_dc_desired
           (test_store_world ∅) test_gvk _ _ _ _);
    [apply store_wf_empty | apply test_dc_desired_ok | reflexivity | reflexivity].
Defined.

Lemma DeleteModule_removes_witness :
  wp (moduleReconciler__DeleteModule test_store_reconciler test_dc_desired)
     (test_store_world {[ child_key test_dc_desired := test_child ]})
     (fun err w' =>
        err = nil /\
        cstate w' = delete (child_key test_dc_desired) {[ child_key test_dc_desired := test_child ]}).
Proof.
  refine (DeleteModule_removes test_now test_scheme test_dc_desired
           (test_store_world {[ child_key test_dc_desired := test_child ]}) test_child _ _);
    [apply lookup_singleton_eq | reflexivity].
Defined.

Lemma DeleteModule_absent_witness :
  wp (moduleReconciler__DeleteModule test_store_reconciler test_dc_desired)
     (test_store_world ∅) (fun err w' => err = nil /\ cstate w' = ∅).
Proof.
  refine (DeleteModule_absent test_now test_scheme test_dc_desired (test_store_world ∅) _).
  apply lookup_empty.
Defined.

Lemma DeleteModule_keeps_finalized_witness :
  wp (moduleReconciler__DeleteModule test_store_reconciler test_dc_desired)
     (test_store_world {[ child_key test_dc_desired := test_child_finalized ]})
     (fun err w' =>
        err = nil /\
        cstate w' !! child_key test_dc_desired =
        Some (SetResourceVersion "2" (SetDeletionTimestamp (Some test_now) test_child_finalized))).
Proof.
  refine (DeleteModule_keeps_finalized test_now test_scheme test_dc_desired
           (test_store_world {[ child_key test_dc_desired := test_child_finalized ]})
           test_child_finalized "2" _ _ _ _ _);
    [by apply test_child_wf | apply lookup_singleton_eq | done | reflexivity | reflexivity].
Defined.

Lemma ReconcileModule_DeleteModule_witness :
  wp (moduleReconciler__ReconcileModule testSettings test_store_reconciler test_dc_desired;;;
      moduleReconciler__DeleteModule test_store_reconciler test_dc_desired)
     (test_store_world ∅) (fun err w' => err = nil /\ cstate w' = ∅).
Proof.
  refine (ReconcileModule_DeleteModule testSettings test_now test_scheme test_dc_desired
           (test_store_world ∅) _ _ _);
    [apply store_wf_empty | apply test_dc_desired_ok | apply lookup_empty].
Defined.

(** *** The theorems on every client, at the mocks of the tests *)

Lemma ReconcileModule_Get_error_witness :
  wp (moduleReconciler__ReconcileModule testSettings (test_reconciler [Return test_get_error])
        test_dc)
     (test_world ∅)
     (fun err w' =>
        err = test_get_error /\
        cstate w' = [CallGet (module_key test_dc) (Module.zero None)]).
Proof.
  refine (ReconcileModule_Get_error testSettings (script_oracle [Return test_get_error])
           test_scheme test_dc (test_world ∅) (errorString "some-other-that-not-found-error") _ _);
    reflexivity.
Defined.


Lemma ReconcileModule_repairs_witness :
  wp (moduleReconciler__ReconcileModule testSettings test_store_reconciler test_dc_desired)
     (test_store_world {[ child_key test_dc_desired := test_child_finalized ]})
     (fun err w' =>
        err = nil ->
        exists rv refs,
          cstate w' !! child_key test_dc_desired =
          Some (SetResourceVersion rv
                  (SetOwnerReferences refs
                     (Module.with_Spec
                        (desiredSpec testSettings (freeze test_heap test_dc_desired))
                        test_child_finalized)))).
Proof.
  refine (ReconcileModule_repairs testSettings test_now test_scheme test_dc_desired
            (test_store_world {[ child_key test_dc_desired := test_child_finalized ]})
            test_child_finalized _ _ _);
    [by apply test_child_wf | apply test_dc_desired_ok | apply lookup_singleton_eq].
Defined.

Lemma ReconcileModule_on_decoded_witness :
  wp (cr <- thaw (freeze test_heap test_dc_desired);;
      moduleReconciler__ReconcileModule testSettings test_store_reconciler cr)
     (mkWorld ∅ ∅)
     (fun err w' =>
        (err, cstate w') =
        reconcile testSettings test_scheme (freeze test_heap test_dc_desired) ∅).
Proof.
  refine (ReconcileModule_on_decoded testSettings test_now test_scheme
            (freeze test_heap test_dc_desired) (mkWorld ∅ ∅) _).
  apply store_wf_empty.
Defined.

Lemma ReconcileModule_stale_create_witness :
  let c1 := CallGet (module_key test_dc_desired) (Module.zero None) in
  let c2 := CallGet (module_key test_dc_desired) test_child in
  wp (moduleReconciler__ReconcileModule testSettings
        (test_reconciler [mkResponse nil (Some test_child); Return test_not_found])
        test_dc_desired)
     (test_world test_heap)
     (fun err w' =>
        cstate w' = [c1; c2] \/
        exists obj, cstate w' = [c1; c2; CallCreate obj] /\
                    GetResourceVersion obj = GetResourceVersion test_child).
Proof.
  refine (ReconcileModule_stale_create testSettings
            (script_oracle [mkResponse nil (Some test_child); Return test_not_found])
            test_scheme test_dc_desired (test_world test_heap) test_child _ _ _ _ _);
    reflexivity.
Defined.
